(** * SentinelAI trader agent: action dispatch and response metrics

    A shallow embedding of [ai-backend/agents/trader_agent.py] (the
    [TraderAgent] class) and of the exception structure of
    [ai-backend/xai/explainer.py] ([XAIExplainer.explain_decision]).

    Modelling conventions.
    - Python values that travel through [parameters], [treasury_data] and
      the result dictionaries are the JSON-shaped type [pyval].  A [dict]
      is an association list in insertion order.
    - Python [float]s are idealised as exact rationals ([Q]); results of
      arithmetic are kept in lowest terms ([Qred]) so that equal numbers
      are equal terms.  An [int] that is too large for a [float] raises
      [OverflowError] where Python converts it; rounding, [inf] and
      [nan] are outside the model, and a statement that depends on a
      comparison made after float arithmetic is kept to inputs that
      are clear of the threshold.
    - A Python call either returns or raises: [outcome].  Methods of an
      object run in the monad [M], which threads the object ([self])
      and keeps its mutations when an exception is raised.
    - The clock, the random generator, [uuid4] and the torch / numpy
      computations are collaborators; what they answer during one call
      of [execute_action] is read from a [world] record. *)

From Stdlib Require Import ZArith QArith Qabs String Ascii List Bool Lia Lqa.
From Stdlib Require Import DecimalString.
Import ListNotations.

Local Open Scope Z_scope.
Local Open Scope string_scope.

(** ** Values *)

#[warnings="-register-all"]
Inductive pyval : Type :=
| VNone
| VBool (b : bool)
| VInt (z : Z)
| VFloat (q : Q)
| VStr (s : string)
| VList (l : list pyval)
| VDict (d : list (pyval * pyval)).

Definition dict : Type := list (pyval * pyval).

(** ** Exceptions and outcomes *)

Inductive exn_class : Type :=
| ValueError | TypeError | AttributeError | ZeroDivisionError | KeyError
| RuntimeError | OverflowError.

Record exn : Type := mkExn { exn_kind : exn_class; exn_msg : string }.

(** [str(e)] *)
Definition str_exn (e : exn) : string := exn_msg e.

Inductive outcome (A : Type) : Type :=
| Returns (a : A)
| Raises (e : exn).
Arguments Returns {A} a.
Arguments Raises {A} e.

Definition obind {A B} (c : outcome A) (k : A -> outcome B) : outcome B :=
  match c with
  | Returns a => k a
  | Raises e => Raises e
  end.

Notation "'let?' x ':=' c 'in' k" := (obind c (fun x => k))
  (at level 10, x name, c at level 100, k at level 200).
Notation "'let?' ' p ':=' c 'in' k" :=
  (obind c (fun x => match x with p => k end))
  (at level 10, p pattern, c at level 100, k at level 200).

(** ** Numbers *)

(** [bool] is a subclass of [int]. *)
Definition int_of (v : pyval) : option Z :=
  match v with
  | VBool b => Some (Z.b2z b)
  | VInt z => Some z
  | _ => None
  end.

Definition num_of (v : pyval) : option Q :=
  match v with
  | VBool b => Some (inject_Z (Z.b2z b))
  | VInt z => Some (inject_Z z)
  | VFloat q => Some q
  | _ => None
  end.

Definition vfloat (q : Q) : pyval := VFloat (Qred q).

(** The ints from [float_limit] on, in absolute value, round to more
    than the largest float: [2^1024 - 2^970]. *)
Definition float_limit : Z := Eval vm_compute in (2 ^ 1024 - 2 ^ 970).

(** The conversion of an [int] operand to [float]. *)
Definition int_to_float (z : Z) : outcome Q :=
  if (Z.abs z <? float_limit)%Z then Returns (inject_Z z)
  else Raises (mkExn OverflowError "int too large to convert to float").

(** A number as a [float] operand; [None] for what is not a number. *)
Definition to_float (v : pyval) : option (outcome Q) :=
  match v with
  | VBool b => Some (Returns (inject_Z (Z.b2z b)))
  | VInt z => Some (int_to_float z)
  | VFloat q => Some (Returns q)
  | _ => None
  end.

(** Binary arithmetic on numbers: [int] op [int] is an [int]; anything
    else numeric is a [float], after the conversion of an [int]
    operand. *)
Definition arith (name : string) (fz : Z -> Z -> Z) (fq : Q -> Q -> Q)
    (a b : pyval) : outcome pyval :=
  match int_of a, int_of b with
  | Some x, Some y => Returns (VInt (fz x y))
  | _, _ =>
      match to_float a, to_float b with
      | Some x, Some y =>
          let? x' := x in
          let? y' := y in
          Returns (vfloat (fq x' y'))
      | _, _ =>
          Raises (mkExn TypeError ("unsupported operand type(s) for " ++ name))
      end
  end.

Definition py_add : pyval -> pyval -> outcome pyval := arith "+" Z.add Qplus.
Definition py_sub : pyval -> pyval -> outcome pyval := arith "-" Z.sub Qminus.

Fixpoint repeat_string (s : string) (n : nat) : string :=
  match n with
  | O => ""
  | S n' => s ++ repeat_string s n'
  end.

Fixpoint repeat_list {A} (l : list A) (n : nat) : list A :=
  match n with
  | O => []
  | S n' => (l ++ repeat_list l n')%list
  end.

(** [a * b]; a sequence times an [int] is the repeated sequence. *)
Definition py_mul (a b : pyval) : outcome pyval :=
  match a, int_of b, int_of a, b with
  | VStr s, Some n, _, _ => Returns (VStr (repeat_string s (Z.to_nat n)))
  | VList l, Some n, _, _ => Returns (VList (repeat_list l (Z.to_nat n)))
  | _, _, Some n, VStr s => Returns (VStr (repeat_string s (Z.to_nat n)))
  | _, _, Some n, VList l => Returns (VList (repeat_list l (Z.to_nat n)))
  | _, _, _, _ => arith "*" Z.mul Qmult a b
  end.

(** [abs(a)] *)
Definition py_abs (a : pyval) : outcome pyval :=
  match a with
  | VBool b => Returns (VInt (Z.b2z b))
  | VInt z => Returns (VInt (Z.abs z))
  | VFloat q => Returns (vfloat (Qabs q))
  | _ => Raises (mkExn TypeError "bad operand type for abs()")
  end.

Definition Qlt_bool (x y : Q) : bool := negb (Qle_bool y x).

(** [a > b] where [a] is a number (in the code below the left operand
    is always the result of [abs] or of arithmetic that [abs] accepted);
    a number is not ordered against [None], a string, a list or a
    dict. *)
Definition py_gt (a b : pyval) : outcome bool :=
  match num_of a, num_of b with
  | Some x, Some y => Returns (Qlt_bool y x)
  | _, _ => Raises (mkExn TypeError "'>' not supported between instances")
  end.

(** ** Dictionaries *)

(** Only scalars are hashable. *)
Definition hashable (v : pyval) : bool :=
  match v with
  | VList _ | VDict _ => false
  | _ => true
  end.

(** Equality of dictionary keys: [True == 1 == 1.0]. *)
Definition key_eqb (a b : pyval) : bool :=
  match a, b with
  | VNone, VNone => true
  | VStr s, VStr t => String.eqb s t
  | _, _ =>
      match num_of a, num_of b with
      | Some x, Some y => Qeq_bool x y
      | _, _ => false
      end
  end.

Fixpoint lookup (k : pyval) (d : dict) : option pyval :=
  match d with
  | [] => None
  | (k', v) :: d' => if key_eqb k k' then Some v else lookup k d'
  end.

(** [d.get(k, default)] on a dict; an unhashable key raises. *)
Definition dict_get (d : dict) (k : pyval) (default : pyval) : outcome pyval :=
  if hashable k then
    Returns (match lookup k d with Some v => v | None => default end)
  else Raises (mkExn TypeError "unhashable type").

(** [d.get(k, default)] with a string literal for [k]. *)
Definition get_str (d : dict) (k : string) (default : pyval) : pyval :=
  match lookup (VStr k) d with Some v => v | None => default end.

(** [v.get(k, default)] on an arbitrary value: only a dict has [get]. *)
Definition py_get (v : pyval) (k : pyval) (default : pyval) : outcome pyval :=
  match v with
  | VDict d => dict_get d k default
  | VNone =>
      Raises (mkExn AttributeError "'NoneType' object has no attribute 'get'")
  | _ => Raises (mkExn AttributeError "object has no attribute 'get'")
  end.

(** [v.items()] *)
Definition py_items (v : pyval) : outcome (list (pyval * pyval)) :=
  match v with
  | VDict d => Returns d
  | _ => Raises (mkExn AttributeError "object has no attribute 'items'")
  end.

(** [Optional[Dict]] arguments: [None] or a dict. *)
Definition opt_dict (o : option dict) : pyval :=
  match o with
  | Some d => VDict d
  | None => VNone
  end.

Definition py_len {A} (l : list A) : pyval := VInt (Z.of_nat (length l)).

(** ** Rebalancing ([_rebalance_portfolio], [_create_execution_plan]) *)

Definition mk_trade (asset : pyval) (side : string) (amount current_pct target_pct : pyval)
  : pyval :=
  VDict [ (VStr "asset", asset);
          (VStr "action", VStr side);
          (VStr "amount", amount);
          (VStr "current_allocation", current_pct);
          (VStr "target_allocation", target_pct) ].

(** The body of the [for asset, target_pct in target_allocations.items()]
    loop, with the two accumulators [trades] and [total_trade_value]. *)
Fixpoint rebalance_loop (items : list (pyval * pyval))
    (current_allocations total_value : pyval) (parameters : dict)
    (trades : list pyval) (total_trade_value : pyval)
  : outcome (list pyval * pyval) :=
  match items with
  | [] => Returns (trades, total_trade_value)
  | (asset, target_pct) :: rest =>
      let? current_pct := py_get current_allocations asset (VInt 0) in
      let? difference := py_sub target_pct current_pct in
      let? trade_value := py_mul difference total_value in
      let? size := py_abs trade_value in
      let? big := py_gt size (get_str parameters "min_trade_size" (VInt 1000)) in
      if big then
        let? is_buy := py_gt trade_value (VInt 0) in
        let? amount := py_abs trade_value in
        let trade :=
          mk_trade asset (if is_buy then "buy" else "sell") amount current_pct target_pct in
        let? total' := py_add total_trade_value amount in
        rebalance_loop rest current_allocations total_value parameters
          (trades ++ [trade])%list total'
      else
        rebalance_loop rest current_allocations total_value parameters
          trades total_trade_value
  end.

(** [trade["asset"]] *)
Definition trade_asset (trade : pyval) : outcome pyval :=
  match trade with
  | VDict d =>
      match lookup (VStr "asset") d with
      | Some a => Returns a
      | None => Raises (mkExn KeyError "'asset'")
      end
  | _ => Raises (mkExn TypeError "indices must be integers")
  end.

Fixpoint map_outcome {A B} (f : A -> outcome B) (l : list A) : outcome (list B) :=
  match l with
  | [] => Returns []
  | x :: xs =>
      let? y := f x in
      let? ys := map_outcome f xs in
      Returns (y :: ys)
  end.

Definition _create_execution_plan (trades : list pyval) : outcome pyval :=
  let? order := map_outcome trade_asset trades in
  Returns (VDict
    [ (VStr "execution_order", VList order);
      (VStr "estimated_time", VInt (Z.of_nat (length trades) * 2));
      (VStr "batch_size", VInt (Z.min 3 (Z.of_nat (length trades))));
      (VStr "priority", VStr "normal") ]).

(** The dictionary every handler returns from its [except] clause. *)
Definition handler_failure (e : exn) : dict :=
  [ (VStr "success", VBool false);
    (VStr "error", VStr (str_exn e));
    (VStr "confidence", VFloat 0) ].

Definition rebalance_body (parameters : dict) (treasury_data : option dict)
  : outcome dict :=
  let target_allocations := get_str parameters "target_allocations" (VDict []) in
  let? current_allocations :=
    py_get (opt_dict treasury_data) (VStr "current_allocations") (VDict []) in
  let? total_value :=
    py_get (opt_dict treasury_data) (VStr "total_value_usd") (VInt 0) in
  let? items := py_items target_allocations in
  let? '(trades, total_trade_value) :=
    rebalance_loop items current_allocations total_value parameters [] (VInt 0) in
  let? gas_rate := py_mul (py_len trades) (VFloat (1 # 100)) in
  let? estimated_gas := py_mul gas_rate total_value in
  let? estimated_slippage := py_mul total_trade_value (VFloat (5 # 1000)) in
  let? plan := _create_execution_plan trades in
  Returns
    [ (VStr "success", VBool true);
      (VStr "action", VStr "rebalance");
      (VStr "trades", VList trades);
      (VStr "total_trades", py_len trades);
      (VStr "total_trade_value", total_trade_value);
      (VStr "estimated_gas", estimated_gas);
      (VStr "estimated_slippage", estimated_slippage);
      (VStr "confidence", VFloat (85 # 100));
      (VStr "execution_plan", plan) ].

(** ** Methods: state and exceptions *)

(** A method body: it reads and mutates [self] (of type [S]) and either
    returns or raises; the mutations made before a [raise] stay. *)
Definition M (S A : Type) : Type := S -> outcome A * S.

Definition ret {S A} (a : A) : M S A := fun self => (Returns a, self).

Definition raise {S A} (e : exn) : M S A := fun self => (Raises e, self).

Definition bind {S A B} (c : M S A) (k : A -> M S B) : M S B :=
  fun self =>
    match c self with
    | (Returns a, self') => k a self'
    | (Raises e, self') => (Raises e, self')
    end.

(** [try: c  except Exception as e: h e] *)
Definition try_except {S A} (c : M S A) (h : exn -> M S A) : M S A :=
  fun self =>
    match c self with
    | (Returns a, self') => (Returns a, self')
    | (Raises e, self') => h e self'
    end.

Definition lift {S A} (o : outcome A) : M S A := fun self => (o, self).

Definition read {S A} (f : S -> A) : M S A := fun self => (Returns (f self), self).

Definition modify {S} (f : S -> S) : M S unit := fun self => (Returns tt, f self).

Notation "x <- c ;; k" := (bind c (fun x => k))
  (at level 61, c at next level, right associativity).
Notation "c ;;; k" := (bind c (fun _ => k))
  (at level 61, right associativity).

(** ** The agent *)

(** [self.performance_metrics] *)
Record metrics : Type := mkMetrics {
  total_trades : Z;
  successful_trades : Z;
  total_pnl : Q;
  sharpe_ratio : Q;
  max_drawdown : Q;
  avg_response_time : Q;
  success_rate : Q;
  total_requests : Z
}.

Definition set_total_trades (v : Z) (m : metrics) : metrics :=
  mkMetrics v (successful_trades m) (total_pnl m) (sharpe_ratio m)
    (max_drawdown m) (avg_response_time m) (success_rate m) (total_requests m).

Definition set_successful_trades (v : Z) (m : metrics) : metrics :=
  mkMetrics (total_trades m) v (total_pnl m) (sharpe_ratio m)
    (max_drawdown m) (avg_response_time m) (success_rate m) (total_requests m).

Definition set_avg_response_time (v : Q) (m : metrics) : metrics :=
  mkMetrics (total_trades m) (successful_trades m) (total_pnl m) (sharpe_ratio m)
    (max_drawdown m) v (success_rate m) (total_requests m).

Definition set_success_rate (v : Q) (m : metrics) : metrics :=
  mkMetrics (total_trades m) (successful_trades m) (total_pnl m) (sharpe_ratio m)
    (max_drawdown m) (avg_response_time m) v (total_requests m).

Definition set_total_requests (v : Z) (m : metrics) : metrics :=
  mkMetrics (total_trades m) (successful_trades m) (total_pnl m) (sharpe_ratio m)
    (max_drawdown m) (avg_response_time m) (success_rate m) v.

(** [PortfolioNet]: its shape and its parameters (weights and biases of
    the five linear layers, flattened). *)
Record PortfolioNet : Type := mkNet {
  input_size : Z;
  hidden_size : Z;
  num_assets : Z;
  net_parameters : list Q
}.

(** [StandardScaler()], never fitted by this class. *)
Inductive StandardScaler : Type := UnfittedScaler.

(** [optim.Adam(self.model.parameters(), lr=0.001)]: learning rate and
    moment estimates. *)
Record Adam : Type := mkAdam { lr : Q; moments : list Q }.

(** [nn.MSELoss()] *)
Inductive MSELoss : Type := MeanSquaredError.

(** The attributes of a [TraderAgent].  [model], [optimizer] and
    [criterion] are [None] where [_initialize_model] failed before
    setting them. *)
Record TraderAgent : Type := mkAgent {
  agent_id : string;
  model : option PortfolioNet;
  optimizer : option Adam;
  criterion : option MSELoss;
  scaler : StandardScaler;
  is_trained : bool;
  performance_metrics : metrics;
  market_data_cache : dict;
  last_predictions : dict
}.

Definition set_performance_metrics (m : metrics) (a : TraderAgent) : TraderAgent :=
  mkAgent (agent_id a) (model a) (optimizer a) (criterion a) (scaler a)
    (is_trained a) m (market_data_cache a) (last_predictions a).

(** The dictionary built in [__init__]. *)
Definition initial_metrics : metrics :=
  mkMetrics 0 0 0 0 0 0 0 0.

(** [self.performance_metrics[...] = ...] *)
Definition update_metrics (f : metrics -> metrics) : M TraderAgent unit :=
  modify (fun self => set_performance_metrics (f (performance_metrics self)) self).

Definition the_metrics : M TraderAgent metrics := read performance_metrics.

(** ** Collaborators *)

(** What the outside answers during one call of [execute_action]. *)
Record world : Type := mkWorld {
  (** [time.time()] on entry and after the handler returned *)
  clock_start : Q;
  clock_end : Q;
  (** [np.random.random()] *)
  random_draw : Q;
  (** [str(uuid.uuid4())] *)
  fresh_uuid : string;
  (** the [k]-th [np.random.normal(0.08, 0.15)] of this call *)
  normal_draw : nat -> Q;
  (** [np.random.randn(50)] *)
  randn50 : list Q;
  (** the forward pass [self.model(torch.FloatTensor(x).unsqueeze(0))]
      under [torch.no_grad()], followed by [squeeze().numpy()] and
      [item()]: allocations and risk score, or whatever torch raises;
      a forward pass leaves the parameters of the network as they are *)
  torch_forward : PortfolioNet -> list Q -> outcome (list Q * Q);
  (** [abs(current - target) > 0.05] for a numpy scalar [target] and a
      [current] that is not a machine number *)
  np_drift : pyval -> Q -> outcome bool;
  (** the [k]-th [np.random.normal(0.0008, 0.02, days)] of this call *)
  historical_returns : nat -> pyval -> outcome (list Q);
  (** [np.percentile(h, 5)], [h[h <= v].mean()], [np.std(h)], [np.mean(h)] *)
  np_percentile5 : list Q -> Q;
  np_mean_below : list Q -> Q -> Q;
  np_std : list Q -> Q;
  np_mean : list Q -> Q
}.

(** ** Trade execution ([_get_current_price], [_execute_trade]) *)

Definition prices : dict :=
  [ (VStr "ETH", VFloat 2500);
    (VStr "USDC", VFloat 1);
    (VStr "AAVE", VFloat 120);
    (VStr "UNI", VFloat (85 # 10)) ].

Definition _get_current_price (asset : pyval) : outcome pyval :=
  dict_get prices asset (VFloat 100).

Definition trade_rejected : dict :=
  [ (VStr "success", VBool false);
    (VStr "error", VStr "Trade execution failed - insufficient liquidity");
    (VStr "confidence", VFloat 0) ].

Definition execute_trade_body (w : world) (parameters : dict)
  : M TraderAgent dict :=
  let asset := get_str parameters "asset" VNone in
  let action := get_str parameters "action" VNone in
  let amount := get_str parameters "amount" VNone in
  execution_price <- lift (_get_current_price asset) ;;
  slippage <- lift (py_mul amount (VFloat (1 # 1000))) ;;
  let gas_cost := VInt 50 in
  executed_amount <- lift (py_sub amount slippage) ;;
  total_cost <- lift (py_add amount gas_cost) ;;
  update_metrics (fun m => set_total_trades (total_trades m + 1) m) ;;;
  let success := Qlt_bool (5 # 100) (random_draw w) in
  if success then
    ret [ (VStr "success", VBool true);
          (VStr "action", VStr "execute_trade");
          (VStr "asset", asset);
          (VStr "trade_action", action);
          (VStr "requested_amount", amount);
          (VStr "executed_amount", executed_amount);
          (VStr "execution_price", execution_price);
          (VStr "slippage", slippage);
          (VStr "gas_cost", gas_cost);
          (VStr "total_cost", total_cost);
          (VStr "confidence", VFloat (95 # 100));
          (VStr "transaction_id", VStr (fresh_uuid w)) ]
  else
    ret trade_rejected.

Definition _execute_trade (w : world) (parameters : dict)
    (treasury_data : option dict) : M TraderAgent dict :=
  try_except (execute_trade_body w parameters)
    (fun e => ret (handler_failure e)).

Definition _rebalance_portfolio (parameters : dict)
    (treasury_data : option dict) : M TraderAgent dict :=
  try_except (lift (rebalance_body parameters treasury_data))
    (fun e => ret (handler_failure e)).

(** ** More of Python *)

(** [for x in v]: a list gives its elements, a dict its keys, a string
    its characters. *)
Definition py_iter (v : pyval) : outcome (list pyval) :=
  match v with
  | VList l => Returns l
  | VDict d => Returns (map fst d)
  | VStr s => Returns (map (fun c => VStr (String c "")) (list_ascii_of_string s))
  | _ => Raises (mkExn TypeError "object is not iterable")
  end.

(** [v.values()] *)
Definition py_values (v : pyval) : outcome (list pyval) :=
  match v with
  | VDict d => Returns (map snd d)
  | _ => Raises (mkExn AttributeError "object has no attribute 'values'")
  end.

Fixpoint dict_update (k v : pyval) (d : dict) : dict :=
  match d with
  | [] => [(k, v)]
  | (k', v') :: d' =>
      if key_eqb k k' then (k', v) :: d' else (k', v') :: dict_update k v d'
  end.

(** [d[k] = v] *)
Definition dict_set (d : dict) (k v : pyval) : outcome dict :=
  if hashable k then Returns (dict_update k v d)
  else Raises (mkExn TypeError "unhashable type").

(** [float(v)] of a number. *)
Definition py_float (v : pyval) : outcome pyval :=
  match to_float v with
  | Some x => let? q := x in Returns (vfloat q)
  | None => Raises (mkExn TypeError "float() argument must be a number")
  end.

(** [a / b]: the quotient of two [int]s is computed from the [int]s; in
    every other case an [int] operand is converted first, and the
    message for a zero divisor is the one of [float]. *)
Definition py_div (a b : pyval) : outcome pyval :=
  match int_of a, int_of b with
  | Some x, Some y =>
      if (y =? 0)%Z then Raises (mkExn ZeroDivisionError "division by zero")
      else if Qle_bool (inject_Z float_limit) (Qabs (inject_Z x / inject_Z y))
      then Raises (mkExn OverflowError
                     "integer division result too large for a float")
      else Returns (vfloat (inject_Z x / inject_Z y))
  | _, _ =>
      match to_float a, to_float b with
      | Some x, Some y =>
          let? x' := x in
          let? y' := y in
          if Qeq_bool y' 0
          then Raises (mkExn ZeroDivisionError "float division by zero")
          else Returns (vfloat (x' / y'))
      | _, _ => Raises (mkExn TypeError "unsupported operand type(s) for /")
      end
  end.

(** ** Portfolio optimisation ([_optimize_portfolio] and its helpers) *)

Fixpoint expected_returns_loop (w : world) (assets : list pyval) (k : nat)
    (returns : dict) : outcome dict :=
  match assets with
  | [] => Returns returns
  | asset :: rest =>
      let? returns' := dict_set returns asset (vfloat (normal_draw w k)) in
      expected_returns_loop w rest (S k) returns'
  end.

(** [k] counts the normal draws already made in this call. *)
Definition _calculate_expected_returns (w : world) (assets : pyval) (k : nat)
  : outcome dict :=
  let? l := py_iter assets in
  expected_returns_loop w l k [].

(** [np.argmax]: the index of the first maximum. *)
Fixpoint argmax_from (l : list Q) (i best_i : nat) (best : Q) : nat :=
  match l with
  | [] => best_i
  | x :: rest =>
      if Qlt_bool best x then argmax_from rest (S i) i x
      else argmax_from rest (S i) best_i best
  end.

Definition np_argmax (l : list Q) : outcome nat :=
  match l with
  | [] => Raises (mkExn ValueError "attempt to get argmax of an empty sequence")
  | x :: rest => Returns (argmax_from rest 1 0 x)
  end.

Definition _generate_allocation_recommendations (allocations : list Q)
    (expected_returns : dict) (risk_score : Q) : outcome (list pyval) :=
  let r1 :=
    if Qlt_bool (7 # 10) risk_score
    then [VStr "High risk detected - consider reducing exposure to volatile assets"]
    else [] in
  let? max_allocation_idx := np_argmax allocations in
  let r2 :=
    if Qlt_bool (4 # 10) (nth max_allocation_idx allocations 0%Q)
    then [VStr "Consider diversifying - largest allocation exceeds 40%"]
    else [] in
  let r3 :=
    if (length (filter (fun a => Qlt_bool (5 # 100) a) allocations) <? 3)%nat
    then [VStr "Portfolio may be under-diversified - consider adding more assets"]
    else [] in
  Returns (r1 ++ r2 ++ r3)%list.

(** [np.sum(allocations * expected_returns)] for the vector
    [allocations] and the dict [expected_returns]: numpy takes the dict
    for one object and multiplies every entry of the vector by it, and
    a float times a dict is a [TypeError]; a vector without entries has
    nothing to multiply and sums to 0. *)
Definition np_sum_product (allocations : list Q) (expected_returns : dict)
  : outcome Q :=
  match allocations with
  | [] => Returns 0%Q
  | _ :: _ =>
      Raises (mkExn TypeError
                "unsupported operand type(s) for *: 'float' and 'dict'")
  end.

(** A machine number: a [bool], a [float], or an [int] of 64 bits. *)
Definition machine_number (v : pyval) : bool :=
  match v with
  | VBool _ | VFloat _ => true
  | VInt z => (Z.abs z <? 2 ^ 63)%Z
  | _ => false
  end.

(** [abs(current - target) > 0.05] for a number [current]. *)
Definition far_apart (ct : pyval * Q) : bool :=
  match num_of (fst ct) with
  | Some c => Qlt_bool (5 # 100) (Qabs (c - snd ct))
  | None => false
  end.

(** [abs(current - target) > 0.05] with [target] a numpy scalar.  For a
    machine number [current] this is arithmetic; for anything else
    numpy decides, and the answer is the collaborator's [numpy_says]. *)
Definition drifted (numpy_says : pyval -> Q -> outcome bool)
    (current : pyval) (target : Q) : outcome bool :=
  if machine_number current then Returns (far_apart (current, target))
  else numpy_says current target.

Fixpoint drift_loop (numpy_says : pyval -> Q -> outcome bool)
    (current : list pyval) (target : list Q) : outcome bool :=
  match current, target with
  | c :: current', t :: target' =>
      let? d := drifted numpy_says c t in
      if d then Returns true else drift_loop numpy_says current' target'
  | _, _ => Returns false
  end.

Definition _check_rebalance_needed (numpy_says : pyval -> Q -> outcome bool)
    (target_allocations : list Q) (treasury_data : option dict) : outcome bool :=
  let? held :=
    py_get (opt_dict treasury_data) (VStr "current_allocations") (VDict []) in
  let? current_allocations := py_values held in
  if negb (length current_allocations =? length target_allocations)%nat
  then Returns true
  else drift_loop numpy_says current_allocations target_allocations.

(** [{asset: float(allocation) for asset, allocation in zip(assets, allocations)}] *)
Fixpoint zip_dict (assets : list pyval) (allocations : list Q) (acc : dict)
  : outcome dict :=
  match assets, allocations with
  | a :: assets', x :: allocations' =>
      let? acc' := dict_set acc a (vfloat x) in
      zip_dict assets' allocations' acc'
  | _, _ => Returns acc
  end.

Definition optimize_body (w : world) (parameters : dict)
    (treasury_data : option dict) : M TraderAgent dict :=
  let assets := get_str parameters "assets" (VList []) in
  let market_features := randn50 w in
  net <- read model ;;
  out <- lift (match net with
               | Some n => torch_forward w n market_features
               | None =>
                   Raises (mkExn TypeError "'NoneType' object is not callable")
               end) ;;
  let allocations := fst out in
  let risk_score := snd out in
  expected_returns <- lift (_calculate_expected_returns w assets 0) ;;
  portfolio_return <- lift (np_sum_product allocations expected_returns) ;;
  recommendations <-
    lift (_generate_allocation_recommendations allocations expected_returns risk_score) ;;
  asset_list <- lift (py_iter assets) ;;
  allocation_map <- lift (zip_dict asset_list allocations []) ;;
  rebalance_required <-
    lift (_check_rebalance_needed (np_drift w) allocations treasury_data) ;;
  ret [ (VStr "success", VBool true);
        (VStr "action", VStr "optimize_portfolio");
        (VStr "allocations", VDict allocation_map);
        (VStr "expected_return", vfloat portfolio_return);
        (VStr "risk_score", vfloat risk_score);
        (VStr "confidence", vfloat (1 - risk_score));
        (VStr "recommendations", VList recommendations);
        (VStr "rebalance_required", VBool rebalance_required) ].

Definition _optimize_portfolio (w : world) (parameters : dict)
    (treasury_data : option dict) : M TraderAgent dict :=
  try_except (optimize_body w parameters treasury_data)
    (fun e => ret (handler_failure e)).

(** ** Risk analysis ([_analyze_risk] and its helpers) *)

Fixpoint risk_loop (w : world) (assets : list pyval) (time_horizon : pyval)
    (k : nat) (risk_metrics : dict) : outcome dict :=
  match assets with
  | [] => Returns risk_metrics
  | asset :: rest =>
      let? days := py_mul time_horizon (VInt 2) in
      let? h := historical_returns w k days in
      if (0 <? length h)%nat then
        let var_95 := np_percentile5 w h in
        let cvar_95 := np_mean_below w h var_95 in
        let volatility := np_std w h in
        let sharpe :=
          if Qlt_bool 0 volatility then vfloat (np_mean w h / volatility)
          else VInt 0 in
        let? risk_metrics' :=
          dict_set risk_metrics asset
            (VDict [ (VStr "var_95", vfloat var_95);
                     (VStr "cvar_95", vfloat cvar_95);
                     (VStr "volatility", vfloat volatility);
                     (VStr "sharpe_ratio", sharpe) ]) in
        risk_loop w rest time_horizon (S k) risk_metrics'
      else risk_loop w rest time_horizon (S k) risk_metrics
  end.

(** [risk_metrics[asset]["var_95"]] for an [asset] that is a key. *)
Definition var_95_of (entry : pyval) : outcome pyval :=
  match entry with
  | VDict d =>
      match lookup (VStr "var_95") d with
      | Some v => Returns v
      | None => Raises (mkExn KeyError "'var_95'")
      end
  | _ => Raises (mkExn TypeError "object is not subscriptable")
  end.

Fixpoint portfolio_var_loop (risk_metrics : dict) (items : list (pyval * pyval))
    (portfolio_var : pyval) : outcome pyval :=
  match items with
  | [] => Returns portfolio_var
  | (asset, allocation) :: rest =>
      match lookup asset risk_metrics with
      | Some entry =>
          let? v := var_95_of entry in
          let? term := py_mul allocation v in
          let? portfolio_var' := py_add portfolio_var term in
          portfolio_var_loop risk_metrics rest portfolio_var'
      | None => portfolio_var_loop risk_metrics rest portfolio_var
      end
  end.

Definition _calculate_portfolio_var (risk_metrics : dict) (allocations : pyval)
  : outcome pyval :=
  let? items := py_items allocations in
  portfolio_var_loop risk_metrics items (VInt 0).

Definition _generate_risk_recommendations (risk_level : string)
    (risk_metrics : dict) : list pyval :=
  if String.eqb risk_level "high" then
    [ VStr "Consider reducing position sizes or adding hedging instruments";
      VStr "Implement stop-loss orders for high-risk positions" ]
  else if String.eqb risk_level "medium" then
    [ VStr "Monitor positions closely and consider partial profit-taking" ]
  else
    [ VStr "Current risk level is acceptable for the strategy" ].

Definition risk_body (w : world) (parameters : dict)
    (treasury_data : option dict) : outcome dict :=
  let assets := get_str parameters "assets" (VList []) in
  let time_horizon := get_str parameters "time_horizon" (VInt 30) in
  let? asset_list := py_iter assets in
  let? risk_metrics := risk_loop w asset_list time_horizon 0 [] in
  let? held :=
    py_get (opt_dict treasury_data) (VStr "current_allocations") (VDict []) in
  let? portfolio_var := _calculate_portfolio_var risk_metrics held in
  let? low := py_gt portfolio_var (VFloat (- 5 # 100)) in
  let? risk_level :=
    if low then Returns "low"
    else let? medium := py_gt portfolio_var (VFloat (- 10 # 100)) in
         Returns (if medium then "medium" else "high") in
  let? portfolio_var_95 := py_float portfolio_var in
  Returns
    [ (VStr "success", VBool true);
      (VStr "action", VStr "risk_analysis");
      (VStr "asset_risks", VDict risk_metrics);
      (VStr "portfolio_var_95", portfolio_var_95);
      (VStr "risk_level", VStr risk_level);
      (VStr "confidence", VFloat (90 # 100));
      (VStr "recommendations",
        VList (_generate_risk_recommendations risk_level risk_metrics)) ].

Definition _analyze_risk (w : world) (parameters : dict)
    (treasury_data : option dict) : M TraderAgent dict :=
  try_except (lift (risk_body w parameters treasury_data))
    (fun e => ret (handler_failure e)).

(** ** Yield prediction ([_predict_yield], [_get_strategy_allocations]) *)

Definition conservative : pyval :=
  VDict [ (VStr "ETH", VFloat (3 # 10)); (VStr "USDC", VFloat (5 # 10));
          (VStr "AAVE", VFloat (2 # 10)) ].

Definition moderate : pyval :=
  VDict [ (VStr "ETH", VFloat (4 # 10)); (VStr "USDC", VFloat (3 # 10));
          (VStr "AAVE", VFloat (2 # 10)); (VStr "UNI", VFloat (1 # 10)) ].

Definition aggressive : pyval :=
  VDict [ (VStr "ETH", VFloat (5 # 10)); (VStr "AAVE", VFloat (3 # 10));
          (VStr "UNI", VFloat (2 # 10)) ].

Definition _get_strategy_allocations (strategy : pyval) : outcome pyval :=
  dict_get [ (VStr "conservative", conservative);
             (VStr "moderate", moderate);
             (VStr "aggressive", aggressive) ] strategy moderate.

(** [sum(allocation * expected_returns.get(asset, 0) for asset, allocation in items)] *)
Fixpoint weighted_sum (expected_returns : dict) (items : list (pyval * pyval))
    (acc : pyval) : outcome pyval :=
  match items with
  | [] => Returns acc
  | (asset, allocation) :: rest =>
      let? r := dict_get expected_returns asset (VInt 0) in
      let? term := py_mul allocation r in
      let? acc' := py_add acc term in
      weighted_sum expected_returns rest acc'
  end.

Fixpoint yield_loop (w : world) (strategies : list pyval) (time_horizon : pyval)
    (k : nat) (predictions : dict) : outcome dict :=
  match strategies with
  | [] => Returns predictions
  | strategy :: rest =>
      let? strategy_allocations := _get_strategy_allocations strategy in
      let? items := py_items strategy_allocations in
      let? expected_returns :=
        _calculate_expected_returns w (VList (map fst items)) k in
      let? portfolio_return := weighted_sum expected_returns items (VInt 0) in
      let? per_year := py_div (VInt 365) time_horizon in
      let? annual_yield := py_mul portfolio_return per_year in
      let? expected_annual_yield := py_float annual_yield in
      let? adjusted := py_mul annual_yield (VFloat (8 # 10)) in
      let? risk_adjusted_return := py_float adjusted in
      let? predictions' :=
        dict_set predictions strategy
          (VDict [ (VStr "expected_annual_yield", expected_annual_yield);
                   (VStr "allocations", strategy_allocations);
                   (VStr "confidence", VFloat (75 # 100));
                   (VStr "risk_adjusted_return", risk_adjusted_return) ]) in
      yield_loop w rest time_horizon (k + length items) predictions'
  end.

(** [predictions[s]["risk_adjusted_return"]], a float by construction. *)
Definition risk_adjusted (entry : pyval) : Q :=
  match entry with
  | VDict d =>
      match lookup (VStr "risk_adjusted_return") d with
      | Some (VFloat q) => q
      | _ => 0
      end
  | _ => 0
  end.

Fixpoint max_from (l : list (pyval * pyval)) (best : pyval) (best_score : Q)
  : pyval :=
  match l with
  | [] => best
  | (s, entry) :: rest =>
      if Qlt_bool best_score (risk_adjusted entry)
      then max_from rest s (risk_adjusted entry)
      else max_from rest best best_score
  end.

(** [max(predictions.keys(), key=lambda s: predictions[s]["risk_adjusted_return"])]:
    the first key with the largest score. *)
Definition best_of (predictions : dict) : outcome pyval :=
  match predictions with
  | [] => Raises (mkExn ValueError "max() arg is an empty sequence")
  | (s, entry) :: rest => Returns (max_from rest s (risk_adjusted entry))
  end.

Definition default_strategies : pyval :=
  VList [VStr "conservative"; VStr "moderate"; VStr "aggressive"].

Definition yield_body (w : world) (parameters : dict)
    (treasury_data : option dict) : outcome dict :=
  let strategies := get_str parameters "strategies" default_strategies in
  let time_horizon := get_str parameters "time_horizon" (VInt 365) in
  let? strategy_list := py_iter strategies in
  let? predictions := yield_loop w strategy_list time_horizon 0 [] in
  let? best_strategy := best_of predictions in
  Returns
    [ (VStr "success", VBool true);
      (VStr "action", VStr "yield_prediction");
      (VStr "predictions", VDict predictions);
      (VStr "recommended_strategy", best_strategy);
      (VStr "confidence", VFloat (80 # 100));
      (VStr "time_horizon_days", time_horizon) ].

Definition _predict_yield (w : world) (parameters : dict)
    (treasury_data : option dict) : M TraderAgent dict :=
  try_except (lift (yield_body w parameters treasury_data))
    (fun e => ret (handler_failure e)).

(** ** The dispatcher ([execute_action]) *)

(** [if v:] for the values a result stores under ["success"]. *)
Definition truthy (v : pyval) : bool :=
  match v with
  | VNone => false
  | VBool b => b
  | VInt z => negb (z =? 0)%Z
  | VFloat q => negb (Qeq_bool q 0)
  | VStr s => negb (String.eqb s "")
  | VList l => negb (length l =? 0)%nat
  | VDict d => negb (length d =? 0)%nat
  end.

(** [x / n] for a float or int [x] and the int [n]. *)
Definition div_int (x : Q) (n : Z) : outcome Q :=
  if (n =? 0)%Z then Raises (mkExn ZeroDivisionError "division by zero")
  else Returns (Qred (x / inject_Z n)).

Definition unknown_action (action : string) : exn :=
  mkExn ValueError ("Unknown action: " ++ action).

(** The dictionary returned from the dispatcher's own [except] clause. *)
Definition dispatcher_failure (action : string) (e : exn) : dict :=
  [ (VStr "success", VBool false);
    (VStr "error", VStr (str_exn e));
    (VStr "confidence", VFloat 0);
    (VStr "action", VStr action) ].

Definition dispatch (w : world) (action : string) (parameters : dict)
    (treasury_data : option dict) : M TraderAgent dict :=
  if String.eqb action "optimize_portfolio" then
    _optimize_portfolio w parameters treasury_data
  else if String.eqb action "rebalance" then
    _rebalance_portfolio parameters treasury_data
  else if String.eqb action "risk_analysis" then
    _analyze_risk w parameters treasury_data
  else if String.eqb action "yield_prediction" then
    _predict_yield w parameters treasury_data
  else if String.eqb action "execute_trade" then
    _execute_trade w parameters treasury_data
  else raise (unknown_action action).

Definition execute_action (w : world) (action : string) (parameters : dict)
    (treasury_data : option dict) : M TraderAgent dict :=
  let start_time := clock_start w in
  update_metrics (fun m => set_total_requests (total_requests m + 1) m) ;;;
  try_except
    (result <- dispatch w action parameters treasury_data ;;
     let execution_time := (clock_end w - start_time)%Q in
     m <- the_metrics ;;
     avg <- lift (div_int
                    (avg_response_time m * inject_Z (total_requests m - 1)
                     + execution_time)%Q
                    (total_requests m)) ;;
     update_metrics (set_avg_response_time avg) ;;;
     (if truthy (get_str result "success" (VBool false))
      then update_metrics
             (fun m => set_successful_trades (successful_trades m + 1) m)
      else ret tt) ;;;
     m <- the_metrics ;;
     rate <- lift (div_int (inject_Z (successful_trades m)) (total_requests m)) ;;
     update_metrics (set_success_rate rate) ;;;
     ret result)
    (fun e => ret (dispatcher_failure action e)).

(** [TraderAgent()] with whatever [__init__] produced for the identifier
    and the model. *)
Definition new_agent (id : string) (net : option PortfolioNet)
    (opt : option Adam) (loss : option MSELoss) (trained : bool) : TraderAgent :=
  mkAgent id net opt loss UnfittedScaler trained initial_metrics [] [].

(** A sequence of calls, each with its own world. *)
Record call : Type := mkCall {
  call_world : world;
  call_action : string;
  call_parameters : dict;
  call_treasury : option dict
}.

Definition run_call (c : call) (self : TraderAgent) : outcome dict * TraderAgent :=
  execute_action (call_world c) (call_action c) (call_parameters c)
    (call_treasury c) self.

Fixpoint run_calls (cs : list call) (self : TraderAgent)
  : list (outcome dict) * TraderAgent :=
  match cs with
  | [] => ([], self)
  | c :: rest =>
      let '(r, self') := run_call c self in
      let '(rs, self'') := run_calls rest self' in
      (r :: rs, self'')
  end.

(** * The explainer ([XAIExplainer]) *)

Module XAI.

(** A numpy array: its shape and its entries. *)
Record ndarray : Type := mkArray { shape : list nat; entries : list Q }.

(** [np.zeros(n)] *)
Definition np_zeros (n : nat) : ndarray := mkArray [n] (repeat 0%Q n).

(** [len(a)] *)
Definition np_len (a : ndarray) : outcome nat :=
  match shape a with
  | [] => Raises (mkExn TypeError "len() of unsized object")
  | n :: _ => Returns n
  end.

(** A fitted surrogate: the forest, its [TreeExplainer] and the feature
    names it was made for. *)
Record surrogate : Type := mkSurrogate {
  forest : nat;
  tree_explainer : nat;
  surrogate_features : list string
}.

Record cache_entry : Type := mkEntry {
  entry_agent_type : string;
  entry_action : string;
  entry_shap_values : ndarray;
  entry_human_explanation : string;
  entry_features : ndarray;
  entry_timestamp : Q
}.

Record XAIExplainer : Type := mkExplainer {
  explainers : list (string * nat);
  feature_names : list (string * list string);
  explanation_cache : list (string * cache_entry);
  surrogate_models : list (string * surrogate)
}.

Fixpoint assoc {A} (k : string) (l : list (string * A)) : option A :=
  match l with
  | [] => None
  | (k', v) :: l' => if String.eqb k k' then Some v else assoc k l'
  end.

Fixpoint assoc_set {A} (k : string) (v : A) (l : list (string * A))
  : list (string * A) :=
  match l with
  | [] => [(k, v)]
  | (k', v') :: l' =>
      if String.eqb k k' then (k', v) :: l' else (k', v') :: assoc_set k v l'
  end.

Definition set_surrogate_models (v : list (string * surrogate))
    (x : XAIExplainer) : XAIExplainer :=
  mkExplainer (explainers x) (feature_names x) (explanation_cache x) v.

Definition set_explanation_cache (v : list (string * cache_entry))
    (x : XAIExplainer) : XAIExplainer :=
  mkExplainer (explainers x) (feature_names x) v (surrogate_models x).

(** What sklearn, shap, numpy, string formatting and the event loop
    answer during one call of [explain_decision]. *)
Record world : Type := mkWorld {
  (** [str(uuid.uuid4())] *)
  fresh_uuid : string;
  (** fitting the random forest on synthetic data and wrapping it in a
      [shap.TreeExplainer] *)
  fit_surrogate : list string -> outcome (nat * nat);
  (** [np.random.randn(n)] *)
  randn : nat -> ndarray;
  (** [features[i] = v]: the array after the assignment *)
  np_store : ndarray -> nat -> pyval -> outcome ndarray;
  (** [np.log(v) if v > 0 else 0] *)
  log_if_positive : pyval -> outcome pyval;
  (** [explainer.shap_values(features)] on the features reshaped to one
      row, first element if it is a list *)
  shap_values : nat -> ndarray -> outcome ndarray;
  (** the three largest contributions: [top_features] and [top_values] *)
  top_contributions : list string -> ndarray -> outcome (list string * list Q);
  (** [f"{v:.1%}"] *)
  format_percent : pyval -> outcome string;
  (** [f"{q:.3f}"] *)
  format_3f : Q -> string;
  (** [asyncio.get_event_loop().time()] *)
  loop_time : outcome Q;
  (** [s.upper()] and [s.title()] for a text that is not plain ASCII *)
  unicode_upper : string -> string;
  unicode_title : string -> string
}.

(** [self.feature_names.get(agent_type, [])] *)
Definition names_for (agent_type : string) : M XAIExplainer (list string) :=
  read (fun self =>
          match assoc agent_type (feature_names self) with
          | Some l => l
          | None => []
          end).

(** [self.feature_names[agent_type]] *)
Definition names_of (agent_type : string) : M XAIExplainer (list string) :=
  fun self =>
    match assoc agent_type (feature_names self) with
    | Some l => (Returns l, self)
    | None => (Raises (mkExn KeyError agent_type), self)
    end.

Definition _create_surrogate_model (w : world) (agent_type : string)
  : M XAIExplainer unit :=
  try_except
    (names <- names_for agent_type ;;
     fitted <- lift (fit_surrogate w names) ;;
     modify (fun self =>
               set_surrogate_models
                 (assoc_set agent_type
                    (mkSurrogate (fst fitted) (snd fitted) names)
                    (surrogate_models self)) self))
    (fun e => ret tt).

(** [k in d] *)
Definition has_key (k : string) (d : dict) : bool :=
  match lookup (VStr k) d with Some _ => true | None => false end.

(** [d[k]] for a key that is present. *)
Definition item (d : dict) (k : string) : pyval := get_str d k VNone.

Definition _extract_trader_features (w : world) (parameters result : dict)
  : M XAIExplainer ndarray :=
  names <- names_of "trader" ;;
  let features := randn w (length names) in
  features <-
    (if has_key "risk_score" result
     then lift (np_store w features 15 (item result "risk_score"))
     else ret features) ;;
  features <-
    (if has_key "confidence" result
     then lift (np_store w features 12 (item result "confidence"))
     else ret features) ;;
  ret features.

Definition _extract_compliance_features (w : world) (parameters result : dict)
  : M XAIExplainer ndarray :=
  names <- names_of "compliance" ;;
  let features := randn w (length names) in
  if has_key "amount" parameters then
    v <- lift (log_if_positive w (item parameters "amount")) ;;
    lift (np_store w features 0 v)
  else ret features.

Definition _extract_supervisor_features (w : world) (parameters result : dict)
  : M XAIExplainer ndarray :=
  names <- names_of "supervisor" ;;
  ret (randn w (length names)).

Definition _extract_advisor_features (w : world) (parameters result : dict)
  : M XAIExplainer ndarray :=
  names <- names_of "advisor" ;;
  ret (randn w (length names)).

Definition _extract_features (w : world) (agent_type : string)
    (parameters result : dict) : M XAIExplainer ndarray :=
  try_except
    (names <- names_for agent_type ;;
     let features := np_zeros (length names) in
     if String.eqb agent_type "trader" then
       _extract_trader_features w parameters result
     else if String.eqb agent_type "compliance" then
       _extract_compliance_features w parameters result
     else if String.eqb agent_type "supervisor" then
       _extract_supervisor_features w parameters result
     else if String.eqb agent_type "advisor" then
       _extract_advisor_features w parameters result
     else ret features)
    (fun e =>
       names <- names_for agent_type ;;
       ret (np_zeros (length names))).

Definition _get_shap_explanation (w : world) (agent_type : string)
    (features : ndarray) : M XAIExplainer ndarray :=
  try_except
    (known <- read (fun self => assoc agent_type (surrogate_models self)) ;;
     (match known with
      | None => _create_surrogate_model w agent_type
      | Some _ => ret tt
      end) ;;;
     found <- read (fun self => assoc agent_type (surrogate_models self)) ;;
     match found with
     | None => raise (mkExn KeyError agent_type)
     | Some s => lift (shap_values w (tree_explainer s) features)
     end)
    (fun e =>
       names <- names_for agent_type ;;
       ret (np_zeros (length names))).

(** Text *)

Definition nl : string := String (ascii_of_nat 10) "".

Definition is_lower (c : ascii) : bool :=
  (97 <=? nat_of_ascii c)%nat && (nat_of_ascii c <=? 122)%nat.

Definition is_upper (c : ascii) : bool :=
  (65 <=? nat_of_ascii c)%nat && (nat_of_ascii c <=? 90)%nat.

Definition to_upper (c : ascii) : ascii :=
  if is_lower c then ascii_of_nat (nat_of_ascii c - 32) else c.

Definition to_lower (c : ascii) : ascii :=
  if is_upper c then ascii_of_nat (nat_of_ascii c + 32) else c.

(** [s.replace('_', ' ')] *)
Fixpoint spaced (s : string) : string :=
  match s with
  | EmptyString => EmptyString
  | String c s' => String (if Ascii.eqb c "_" then " "%char else c) (spaced s')
  end.

(** Plain ASCII text: every character is below 128. *)
Fixpoint is_ascii (s : string) : bool :=
  match s with
  | EmptyString => true
  | String c s' => (nat_of_ascii c <? 128)%nat && is_ascii s'
  end.

(** [s.title()] on ASCII text: a letter after a letter is lowered, any
    other letter is raised. *)
Fixpoint title_from (after_letter : bool) (s : string) : string :=
  match s with
  | EmptyString => EmptyString
  | String c s' =>
      if is_lower c || is_upper c
      then String (if after_letter then to_lower c else to_upper c)
             (title_from true s')
      else String c (title_from false s')
  end.

Definition title (s : string) : string := title_from false s.

(** [s.title()]; beyond ASCII the letters are Unicode's. *)
Definition py_title (w : world) (s : string) : string :=
  if is_ascii s then title s else unicode_title w s.

Fixpoint zip3 (names : list string) (values : list Q) (n : nat)
  : list (string * Q) :=
  match n, names, values with
  | S n', f :: names', v :: values' => (f, v) :: zip3 names' values' n'
  | _, _, _ => []
  end.

(** The loop [for feature, value in zip(top_features[:3], top_values[:3])]
    appending one bullet per pair; [positive] and [negative] are the two
    words chosen by [value > 0], [before] and [after] the text around
    the formatted magnitude. *)
Fixpoint bullets (w : world) (pairs : list (string * Q))
    (positive negative before after : string) : string :=
  match pairs with
  | [] => ""
  | (feature, value) :: rest =>
      "• **" ++ py_title w (spaced feature) ++ "** "
      ++ (if Qlt_bool 0 value then positive else negative)
      ++ before ++ format_3f w (Qabs value) ++ after ++ nl
      ++ bullets w rest positive negative before after
  end.

Definition _generate_trader_explanation (w : world) (action : string)
    (top_features : list string) (top_values : list Q) (result : dict)
  : outcome string :=
  let confidence := get_str result "confidence" (VInt 0) in
  let explanation := "🤖 **Trader Agent Decision**: " ++ action ++ nl ++ nl in
  let? pct := format_percent w confidence in
  let explanation := explanation ++ "**Confidence Level**: " ++ pct ++ nl ++ nl in
  let explanation := explanation ++ "**Key Decision Factors**:" ++ nl in
  let explanation :=
    explanation
    ++ bullets w (zip3 top_features top_values 3) "positively" "negatively"
         " influenced this decision (impact: " ")" in
  let explanation :=
    if String.eqb action "optimize_portfolio" then
      explanation ++ nl ++ "**Portfolio Optimization Reasoning**:" ++ nl
      ++ "• Risk-adjusted returns were analyzed across all assets" ++ nl
      ++ "• Market volatility and correlation patterns were considered" ++ nl
      ++ "• Diversification benefits were maximized" ++ nl
    else explanation in
  Returns explanation.

Definition _generate_compliance_explanation (w : world) (action : string)
    (top_features : list string) (top_values : list Q) (result : dict)
  : outcome string :=
  let confidence := get_str result "confidence" (VInt 0) in
  let explanation := "🛡️ **Compliance Agent Decision**: " ++ action ++ nl ++ nl in
  let? pct := format_percent w confidence in
  let explanation := explanation ++ "**Compliance Score**: " ++ pct ++ nl ++ nl in
  let explanation := explanation ++ "**Regulatory Analysis**:" ++ nl in
  let explanation :=
    explanation
    ++ bullets w (zip3 top_features top_values 3) "increased" "decreased"
         " compliance risk (score: " ")" in
  let explanation :=
    explanation ++ nl ++ "**ZK Privacy Verification**: ✅ Verified" ++ nl in
  let explanation :=
    explanation ++ "**Regulatory Framework**: MiCA/SEC compliant" ++ nl in
  Returns explanation.

Definition _generate_supervisor_explanation (w : world) (action : string)
    (top_features : list string) (top_values : list Q) (result : dict)
  : outcome string :=
  let confidence := get_str result "confidence" (VInt 0) in
  let explanation := "👁️ **Supervisor Agent Decision**: " ++ action ++ nl ++ nl in
  let? pct := format_percent w confidence in
  let explanation := explanation ++ "**Oversight Confidence**: " ++ pct ++ nl ++ nl in
  let explanation := explanation ++ "**System Monitoring Results**:" ++ nl in
  Returns
    (explanation
     ++ bullets w (zip3 top_features top_values 3) "is optimal"
          "is requires attention" " (score: " ")").

Definition _generate_advisor_explanation (w : world) (action : string)
    (top_features : list string) (top_values : list Q) (result : dict)
  : outcome string :=
  let confidence := get_str result "confidence" (VInt 0) in
  let explanation := "🔮 **Advisor Agent Prediction**: " ++ action ++ nl ++ nl in
  let? pct := format_percent w confidence in
  let explanation := explanation ++ "**Prediction Confidence**: " ++ pct ++ nl ++ nl in
  let explanation := explanation ++ "**Market Analysis Factors**:" ++ nl in
  Returns
    (explanation
     ++ bullets w (zip3 top_features top_values 3) "indicates bullish"
          "indicates bearish" " sentiment (strength: " ")").

Definition _generate_human_explanation (w : world) (agent_type action : string)
    (shap : ndarray) (result : dict) : M XAIExplainer string :=
  try_except
    (names <- names_for agent_type ;;
     n <- lift (np_len shap) ;;
     top <- (if (0 <? n)%nat then lift (top_contributions w names shap)
             else ret ([], [])) ;;
     let top_features := fst top in
     let top_values := snd top in
     if String.eqb agent_type "trader" then
       lift (_generate_trader_explanation w action top_features top_values result)
     else if String.eqb agent_type "compliance" then
       lift (_generate_compliance_explanation w action top_features top_values result)
     else if String.eqb agent_type "supervisor" then
       lift (_generate_supervisor_explanation w action top_features top_values result)
     else if String.eqb agent_type "advisor" then
       lift (_generate_advisor_explanation w action top_features top_values result)
     else
       ret ("Decision made by " ++ agent_type ++ " agent for action '" ++ action
            ++ "' based on analysis of key factors."))
    (fun e =>
       pct <- lift (format_percent w (get_str result "confidence" (VInt 0))) ;;
       ret ("Decision made by " ++ agent_type ++ " agent with " ++ pct
            ++ " confidence.")).

Definition explain_body (w : world) (agent_type action : string)
    (parameters result : dict) : M XAIExplainer string :=
  let explanation_id := fresh_uuid w in
  known <- read (fun self => assoc agent_type (surrogate_models self)) ;;
  (match known with
   | None => _create_surrogate_model w agent_type
   | Some _ => ret tt
   end) ;;;
  features <- _extract_features w agent_type parameters result ;;
  shap_explanation <- _get_shap_explanation w agent_type features ;;
  human_explanation <-
    _generate_human_explanation w agent_type action shap_explanation result ;;
  timestamp <- lift (loop_time w) ;;
  modify (fun self =>
            set_explanation_cache
              (assoc_set explanation_id
                 (mkEntry agent_type action shap_explanation human_explanation
                    features timestamp)
                 (explanation_cache self)) self) ;;;
  ret human_explanation.

Definition fallback_explanation (e : exn) : string :=
  "Unable to generate explanation: " ++ str_exn e.

Definition explain_decision (w : world) (agent_type action : string)
    (parameters result : dict) : M XAIExplainer string :=
  try_except (explain_body w agent_type action parameters result)
    (fun e => ret (fallback_explanation e)).

(** ** Risk explanations ([explain_risk_assessment]) *)

(** [s.upper()] on ASCII text. *)
Fixpoint upper (s : string) : string :=
  match s with
  | EmptyString => EmptyString
  | String c s' => String (to_upper c) (upper s')
  end.

(** [v.upper()]: only a string has [upper]; beyond ASCII the letters
    are Unicode's. *)
Definition py_upper (w : world) (v : pyval) : outcome string :=
  match v with
  | VStr s => Returns (if is_ascii s then upper s else unicode_upper w s)
  | _ => Raises (mkExn AttributeError "object has no attribute 'upper'")
  end.

Definition _extract_risk_features (portfolio_data risk_analysis : dict)
  : list (string * pyval) :=
  [ ("portfolio_concentration", get_str portfolio_data "concentration_risk" (VInt 0));
    ("volatility", get_str risk_analysis "portfolio_volatility" (VInt 0));
    ("var_95", get_str risk_analysis "var_95" (VInt 0));
    ("correlation_risk", get_str portfolio_data "correlation_risk" (VInt 0));
    ("liquidity_risk", get_str portfolio_data "liquidity_risk" (VInt 0)) ].

(** The number a formatted value stands for. *)
Definition number_of (v : pyval) : Q :=
  match num_of v with Some q => q | None => 0%Q end.

(** The loop over the risk features: one line for every feature whose
    value exceeds 0.1 in absolute value. *)
Fixpoint risk_lines (w : world) (features : list (string * pyval))
    (explanation : string) : outcome string :=
  match features with
  | [] => Returns explanation
  | (feature, value) :: rest =>
      let? size := py_abs value in
      let? significant := py_gt size (VFloat (1 # 10)) in
      if significant then
        let? size' := py_abs value in
        let? high := py_gt size' (VFloat (5 # 10)) in
        let risk_impact := if high then "HIGH" else "MEDIUM" in
        risk_lines w rest
          (explanation ++ "• **" ++ py_title w (spaced feature) ++ "**: "
           ++ risk_impact ++ " (" ++ format_3f w (number_of value) ++ ")" ++ nl)
      else risk_lines w rest explanation
  end.

Definition risk_header (level : string) : string :=
  "⚠️ **Risk Assessment**: " ++ level ++ " RISK" ++ nl ++ nl
  ++ "**Risk Factors Analysis**:" ++ nl.

Definition risk_footer : string :=
  nl ++ "**Risk Mitigation Recommendations**:" ++ nl
  ++ "• Monitor portfolio concentration levels" ++ nl
  ++ "• Consider hedging strategies for high volatility periods" ++ nl
  ++ "• Maintain adequate liquidity reserves" ++ nl.

Definition _generate_risk_explanation (w : world)
    (risk_features : list (string * pyval)) (risk_analysis : dict)
  : outcome string :=
  let risk_level := get_str risk_analysis "risk_level" (VStr "medium") in
  let? level := py_upper w risk_level in
  let? explanation := risk_lines w risk_features (risk_header level) in
  Returns (explanation ++ risk_footer).

Definition risk_fallback (e : exn) : string :=
  "Unable to explain risk assessment: " ++ str_exn e.

Definition explain_risk_assessment (w : world)
    (portfolio_data risk_analysis : dict) : M XAIExplainer string :=
  try_except
    (let risk_features := _extract_risk_features portfolio_data risk_analysis in
     lift (_generate_risk_explanation w risk_features risk_analysis))
    (fun e => ret (risk_fallback e)).

(** ** Detailed explanations ([get_detailed_explanation]) *)

(** What numpy answers about arrays that are not plain vectors, and the
    parts of its answers about vectors that are not arithmetic. *)
Record numpy : Type := mkNumpy {
  (** the feature importances of an array that is not a vector *)
  importance_of_matrix : ndarray -> outcome dict;
  (** [np.std(a)] *)
  std_of : ndarray -> Q;
  (** the confidence intervals of an array that is not a vector *)
  intervals_of_matrix : ndarray -> Q -> outcome dict;
  (** [np.argsort(np.abs(a))[-5:][::-1]] as indices *)
  top_five : ndarray -> outcome (list nat);
  (** [float(a[i])] for an array that is not a vector *)
  item_of_matrix : ndarray -> nat -> outcome Q;
  (** [a.tolist()] for an array that is not a vector *)
  tolist_of_matrix : ndarray -> pyval
}.

(** A vector: one dimension, as long as its list of entries. *)
Definition is_vector (a : ndarray) : bool :=
  match shape a with
  | [n] => (n =? length (entries a))%nat
  | _ => false
  end.

(** [str(i)] *)
Definition str_nat (i : nat) : string :=
  NilEmpty.string_of_uint (Nat.to_uint i).

(** [{f"feature_{i}": g(x) for i, x in enumerate(l)}] from index [i] on. *)
Fixpoint by_feature (g : Q -> pyval) (i : nat) (l : list Q) : dict :=
  match l with
  | [] => []
  | x :: rest => (VStr ("feature_" ++ str_nat i), g x) :: by_feature g (S i) rest
  end.

Definition importance_body (np : numpy) (shap : ndarray) : outcome dict :=
  let? n := np_len shap in
  if (n =? 0)%nat then Returns []
  else if is_vector shap then
    let importance := map Qabs (entries shap) in
    let total := fold_right Qplus 0%Q importance in
    let normalized :=
      if Qlt_bool 0 total then map (fun x => (x / total)%Q) importance
      else importance in
    Returns (by_feature vfloat 0 normalized)
  else importance_of_matrix np shap.

Definition _calculate_feature_importance (np : numpy) (shap : ndarray) : dict :=
  match importance_body np shap with
  | Returns d => d
  | Raises e => []
  end.

Definition interval (std_dev value : Q) : pyval :=
  VList [ vfloat (value - (196 # 100) * std_dev);
          vfloat (value + (196 # 100) * std_dev) ].

Definition intervals_body (np : numpy) (shap : ndarray) : outcome dict :=
  let? n := np_len shap in
  if (n =? 0)%nat then Returns []
  else
    let std_dev := std_of np shap in
    if is_vector shap then Returns (by_feature (interval std_dev) 0 (entries shap))
    else intervals_of_matrix np shap std_dev.

Definition _calculate_confidence_intervals (np : numpy) (shap : ndarray) : dict :=
  match intervals_body np shap with
  | Returns d => d
  | Raises e => []
  end.

(** [float(a[i])] *)
Definition item_at (np : numpy) (a : ndarray) (i : nat) : outcome Q :=
  if is_vector a then
    match nth_error (entries a) i with
    | Some x => Returns x
    | None => Raises (mkExn KeyError "index is out of bounds")
    end
  else item_of_matrix np a i.

(** The loop [for i, idx in enumerate(top_indices)] of
    [_generate_decision_path]. *)
Fixpoint path_loop (np : numpy) (names : list string) (features shap : ndarray)
    (i : nat) (top : list nat) (path : list pyval) : outcome (list pyval) :=
  match top with
  | [] => Returns path
  | idx :: rest =>
      if (idx <? length names)%nat then
        match nth_error names idx with
        | None => Raises (mkExn KeyError "list index out of range")
        | Some feature_name =>
            let? n := np_len features in
            let? value :=
              (if (idx <? n)%nat then item_at np features idx else Returns 0%Q) in
            let? impact := item_at np shap idx in
            let step :=
              VDict
                [ (VStr "step", VInt (Z.of_nat (i + 1)));
                  (VStr "feature", VStr feature_name);
                  (VStr "value", vfloat value);
                  (VStr "impact", vfloat impact);
                  (VStr "description",
                    VStr ("Feature '" ++ feature_name ++ "' contributed "
                          ++ (if Qlt_bool 0 impact then "positively"
                              else "negatively")
                          ++ " to the decision")) ] in
            path_loop np names features shap (S i) rest (path ++ [step])%list
        end
      else path_loop np names features shap (S i) rest path
  end.

Definition _generate_decision_path (np : numpy) (agent_type : string)
    (features shap : ndarray) : M XAIExplainer (list pyval) :=
  try_except
    (n <- lift (np_len shap) ;;
     if (0 <? n)%nat then
       top <- lift (top_five np shap) ;;
       names <- names_for agent_type ;;
       lift (path_loop np names features shap 0 top [])
     else ret [])
    (fun e => ret []).

(** [a.tolist()] *)
Definition tolist (np : numpy) (a : ndarray) : pyval :=
  if is_vector a then VList (map VFloat (entries a)) else tolist_of_matrix np a.

Definition not_found : dict := [ (VStr "error", VStr "Explanation not found") ].

Definition get_detailed_explanation (np : numpy) (agent_type action_id : string)
  : M XAIExplainer dict :=
  try_except
    (found <- read (fun self => assoc action_id (explanation_cache self)) ;;
     match found with
     | None => ret not_found
     | Some cached =>
         let feature_importance :=
           _calculate_feature_importance np (entry_shap_values cached) in
         decision_path <-
           _generate_decision_path np agent_type (entry_features cached)
             (entry_shap_values cached) ;;
         let confidence_intervals :=
           _calculate_confidence_intervals np (entry_shap_values cached) in
         ret [ (VStr "explanation", VStr (entry_human_explanation cached));
               (VStr "feature_importance", VDict feature_importance);
               (VStr "decision_path", VList decision_path);
               (VStr "confidence_intervals", VDict confidence_intervals);
               (VStr "shap_values", tolist np (entry_shap_values cached));
               (VStr "timestamp", VFloat (entry_timestamp cached)) ]
     end)
    (fun e => ret [ (VStr "error", VStr (str_exn e)) ]).

End XAI.

(** * The server ([main.py]): [execute_agent], [get_agent_status] *)

Module Main.

(** [TraderAgent.get_status]: [last_action] is never set, so [getattr]
    answers [None]. *)
Definition metrics_dict (m : metrics) : pyval :=
  VDict [ (VStr "total_trades", VInt (total_trades m));
          (VStr "successful_trades", VInt (successful_trades m));
          (VStr "total_pnl", VFloat (total_pnl m));
          (VStr "sharpe_ratio", VFloat (sharpe_ratio m));
          (VStr "max_drawdown", VFloat (max_drawdown m));
          (VStr "avg_response_time", VFloat (avg_response_time m));
          (VStr "success_rate", VFloat (success_rate m));
          (VStr "total_requests", VInt (total_requests m)) ].

Definition get_status (self : TraderAgent) : dict :=
  [ (VStr "agent_id", VStr (agent_id self));
    (VStr "agent_type", VStr "trader");
    (VStr "status", VStr "active");
    (VStr "is_trained", VBool (is_trained self));
    (VStr "model_loaded",
      VBool (match model self with Some _ => true | None => false end));
    (VStr "performance_metrics", metrics_dict (performance_metrics self));
    (VStr "last_action", VNone);
    (VStr "capabilities",
      VList [ VStr "portfolio_optimization"; VStr "rebalancing";
              VStr "risk_analysis"; VStr "yield_prediction";
              VStr "trade_execution" ]) ].

(** An entry of the global [agents]: the trader, or an agent of one of
    the classes that live in other files. *)
Inductive agent : Type :=
| Trader (a : TraderAgent)
| Other (class : string).

(** The globals the two routes use. *)
Record backend : Type := mkBackend {
  agents : list (string * agent);
  xai_explainer : option XAI.XAIExplainer
}.

Record AgentRequest : Type := mkRequest {
  agent_type : string;
  action : string;
  parameters : dict;
  treasury_data : option dict
}.

Record AgentResponse : Type := mkResponse {
  response_agent_type : string;
  response_action : string;
  response_result : dict;
  response_confidence : Q;
  response_xai_explanation : string;
  response_execution_time : Q
}.

(** What a route answers: a body, an [HTTPException], or another
    exception that leaves the route. *)
Inductive reply (A : Type) : Type :=
| Ok (body : A)
| HttpError (status : Z) (detail : string)
| Uncaught (e : exn).
Arguments Ok {A} body.
Arguments HttpError {A} status detail.
Arguments Uncaught {A} e.

(** What can be raised inside a route: an [HTTPException], or any other
    exception. *)
Inductive raised : Type :=
| Http (status : Z) (detail : string)
| Exn (e : exn).

(** What the outside answers during one request. *)
Record outside : Type := mkOutside {
  trader_world : world;
  xai_world : XAI.world;
  (** [asyncio.get_event_loop().time()] before and after the action *)
  loop_start : Q;
  loop_end : Q;
  (** [execute_action] and [get_status] of the agents of other classes *)
  other_execute : string -> string -> dict -> option dict -> outcome dict;
  other_status : string -> outcome dict;
  (** [str(HTTPException(status_code, detail))] *)
  http_str : Z -> string -> string;
  (** what pydantic makes of a [confidence] that is not a float *)
  coerce_float : pyval -> outcome Q
}.

Definition str_raised (w : outside) (r : raised) : string :=
  match r with
  | Http status detail => http_str w status detail
  | Exn e => str_exn e
  end.

(** [AgentResponse(...)]: the one field whose validation can fail is
    [confidence: float]; a float is taken as it is. *)
Definition validate_confidence (w : outside) (v : pyval) : outcome Q :=
  match v with
  | VFloat q => Returns q
  | _ => coerce_float w v
  end.

(** [await agent.execute_action(...)]; the trader is changed in place. *)
Definition run_agent (w : outside) (request : AgentRequest) (slot : agent)
    (b : backend) : outcome dict * backend :=
  match slot with
  | Trader a =>
      let run :=
        execute_action (trader_world w) (action request) (parameters request)
          (treasury_data request) a in
      (fst run,
       mkBackend (XAI.assoc_set (agent_type request) (Trader (snd run)) (agents b))
         (xai_explainer b))
  | Other class =>
      (other_execute w class (action request) (parameters request)
         (treasury_data request), b)
  end.

(** The [try] block of [execute_agent]. *)
Definition execute_agent_body (w : outside) (request : AgentRequest) (b : backend)
  : (raised + AgentResponse) * backend :=
  match XAI.assoc (agent_type request) (agents b) with
  | None =>
      (inl (Http 400 ("Unknown agent type: " ++ agent_type request)), b)
  | Some slot =>
      let start_time := loop_start w in
      let ran := run_agent w request slot b in
      match fst ran with
      | Raises e => (inl (Exn e), snd ran)
      | Returns result =>
          let execution_time := (loop_end w - start_time)%Q in
          match xai_explainer (snd ran) with
          | None =>
              (inl (Exn (mkExn AttributeError
                           "'NoneType' object has no attribute 'explain_decision'")),
               snd ran)
          | Some explainer =>
              let explained :=
                XAI.explain_decision (xai_world w) (agent_type request)
                  (action request) (parameters request) result explainer in
              let b' := mkBackend (agents (snd ran)) (Some (snd explained)) in
              match fst explained with
              | Raises e => (inl (Exn e), b')
              | Returns xai_explanation =>
                  match validate_confidence w
                          (get_str result "confidence" (VFloat 0)) with
                  | Raises e => (inl (Exn e), b')
                  | Returns confidence =>
                      (inr (mkResponse (agent_type request) (action request)
                              result confidence xai_explanation execution_time),
                       b')
                  end
              end
          end
      end
  end.

(** [execute_agent]: whatever the [try] block raises, an
    [HTTPException] included, is answered with status 500. *)
Definition execute_agent (w : outside) (request : AgentRequest) (b : backend)
  : reply AgentResponse * backend :=
  match execute_agent_body w request b with
  | (inr response, b') => (Ok response, b')
  | (inl r, b') =>
      (HttpError 500 ("Agent execution failed: " ++ str_raised w r), b')
  end.

(** [get_agent_status]: no [try] here, the 404 reaches the client. *)
Definition get_agent_status (w : outside) (asked : string) (b : backend)
  : reply dict :=
  match XAI.assoc asked (agents b) with
  | None => HttpError 404 ("Agent " ++ asked ++ " not found")
  | Some (Trader a) => Ok (get_status a)
  | Some (Other class) =>
      match other_status w class with
      | Returns status => Ok status
      | Raises e => Uncaught e
      end
  end.

End Main.

(** * Vocabulary of the properties *)

(** The actions the dispatcher has a handler for. *)
Definition registered_actions : list string :=
  [ "optimize_portfolio"; "rebalance"; "risk_analysis"; "yield_prediction";
    "execute_trade" ].

Definition registered (action : string) : bool :=
  existsb (String.eqb action) registered_actions.

(** [r[k]] when present. *)
Definition field (r : dict) (k : string) : option pyval := lookup (VStr k) r.

(** [name] occurs in [text]. *)
Definition mentions (text name : string) : Prop :=
  exists pre post, text = pre ++ name ++ post.

(** The [try] block of the handler an action is routed to. *)
Definition handler_body (w : world) (action : string) (parameters : dict)
    (treasury_data : option dict) : option (M TraderAgent dict) :=
  if String.eqb action "optimize_portfolio" then
    Some (optimize_body w parameters treasury_data)
  else if String.eqb action "rebalance" then
    Some (lift (rebalance_body parameters treasury_data))
  else if String.eqb action "risk_analysis" then
    Some (lift (risk_body w parameters treasury_data))
  else if String.eqb action "yield_prediction" then
    Some (lift (yield_body w parameters treasury_data))
  else if String.eqb action "execute_trade" then
    Some (execute_trade_body w parameters)
  else None.

(** The [try] block of the handler raises [e] when started on [self]. *)
Definition handler_raises (w : world) (action : string) (parameters : dict)
    (treasury_data : option dict) (self : TraderAgent) (e : exn) : Prop :=
  exists body,
    handler_body w action parameters treasury_data = Some body /\
    fst (body self) = Raises e.


(** The call returned a dictionary whose ["success"] is [b]. *)
Definition reports (x : outcome dict) (b : bool) : Prop :=
  exists r, x = Returns r /\ field r "success" = Some (VBool b).

(** The number stored under ["confidence"]. *)
Definition confidence_of (r : dict) : option Q :=
  match field r "confidence" with
  | Some v => num_of v
  | None => None
  end.

Definition metrics_after (w : world) (action : string) (parameters : dict)
    (treasury_data : option dict) (self : TraderAgent) : metrics :=
  performance_metrics (snd (execute_action w action parameters treasury_data self)).

(** The time one call took: the difference of its two clock readings. *)
Definition elapsed (c : call) : Q :=
  (clock_end (call_world c) - clock_start (call_world c))%Q.

Definition Qsum (l : list Q) : Q := fold_right Qplus 0%Q l.

(** The arithmetic mean of a non-empty list. *)
Definition mean (l : list Q) : Q := (Qsum l / inject_Z (Z.of_nat (length l)))%Q.

(** The agent fields other than [performance_metrics] agree. *)
Definition same_frame (a b : TraderAgent) : Prop :=
  agent_id a = agent_id b /\
  model a = model b /\
  optimizer a = optimizer b /\
  criterion a = criterion b /\
  scaler a = scaler b /\
  is_trained a = is_trained b /\
  market_data_cache a = market_data_cache b /\
  last_predictions a = last_predictions b.

(** [_execute_trade] gets as far as the simulated draw: the price
    lookup and the three computations on [amount] raise nothing. *)
Definition reaches_simulation (parameters : dict) : Prop :=
  let amount := get_str parameters "amount" VNone in
  exists price slippage executed_amount total_cost,
    _get_current_price (get_str parameters "asset" VNone) = Returns price /\
    py_mul amount (VFloat (1 # 1000)) = Returns slippage /\
    py_sub amount slippage = Returns executed_amount /\
    py_add amount (VInt 50) = Returns total_cost.

(** ** Concrete inputs *)

(** A world whose clock advances by [dt] seconds during the call, whose
    random draw is [draw], and whose torch and numpy have nothing to
    offer. *)
Definition world_of (dt draw : Q) : world :=
  mkWorld 0 dt draw "3f0c9a52-6f1e-4c57-9d3b-0a1b2c3d4e5f" (fun _ => 8 # 100) []
    (fun _ _ => Raises (mkExn RuntimeError "forward pass unavailable"))
    (fun _ _ => Raises (mkExn TypeError "unsupported operand type(s) for -"))
    (fun _ _ => Returns [])
    (fun _ => 0%Q) (fun _ _ => 0%Q) (fun _ => 0%Q) (fun _ => 0%Q).

Definition fresh_agent : TraderAgent :=
  new_agent "agent-0" None None None false.

(** The rebalancing scenario: target {A: 0.6, B: 0.4}, minimum trade
    size 100, holdings {A: 0.5, B: 0.5} worth 10000. *)
Definition scenario_parameters : dict :=
  [ (VStr "target_allocations",
      VDict [ (VStr "A", VFloat (6 # 10)); (VStr "B", VFloat (4 # 10)) ]);
    (VStr "min_trade_size", VInt 100) ].

Definition scenario_treasury : dict :=
  [ (VStr "current_allocations",
      VDict [ (VStr "A", VFloat (5 # 10)); (VStr "B", VFloat (5 # 10)) ]);
    (VStr "total_value_usd", VInt 10000) ].

Definition buy_A : pyval :=
  VDict [ (VStr "asset", VStr "A");
          (VStr "action", VStr "buy");
          (VStr "amount", VFloat 1000);
          (VStr "current_allocation", VFloat (5 # 10));
          (VStr "target_allocation", VFloat (6 # 10)) ].

Definition sell_B : pyval :=
  VDict [ (VStr "asset", VStr "B");
          (VStr "action", VStr "sell");
          (VStr "amount", VFloat 1000);
          (VStr "current_allocation", VFloat (5 # 10));
          (VStr "target_allocation", VFloat (4 # 10)) ].

Definition trade_parameters : dict :=
  [ (VStr "asset", VStr "ETH"); (VStr "action", VStr "buy");
    (VStr "amount", VInt 1000) ].

Definition rebalance_call (dt : Q) : call :=
  mkCall (world_of dt (1 # 2)) "rebalance" scenario_parameters
    (Some scenario_treasury).

Definition unknown_call (dt : Q) : call :=
  mkCall (world_of dt (1 # 2)) "liquidate" [] None.

(** A rebalance request without treasury data: [None.get] raises inside
    the handler. *)
Definition broken_call (dt : Q) : call :=
  mkCall (world_of dt (1 # 2)) "rebalance" scenario_parameters None.

(** ** Auxiliary notions *)

(** Every run of [c] relates the state before to the state after. *)
Definition keeps {S A} (R : S -> S -> Prop) (c : M S A) : Prop :=
  forall s, R s (snd (c s)).

(** The agent right after [self.performance_metrics["total_requests"] += 1]. *)
Definition counted (self : TraderAgent) : TraderAgent :=
  set_performance_metrics
    (set_total_requests (total_requests (performance_metrics self) + 1)
       (performance_metrics self)) self.

(** The metrics after the update block that follows a handler's return. *)
Definition recorded (w : world) (r : dict) (m : metrics) : metrics :=
  let m1 :=
    set_avg_response_time
      (Qred ((avg_response_time m * inject_Z (total_requests m - 1)
              + (clock_end w - clock_start w)) / inject_Z (total_requests m))) m in
  let m2 :=
    if truthy (get_str r "success" (VBool false))
    then set_successful_trades (successful_trades m1 + 1) m1
    else m1 in
  set_success_rate
    (Qred (inject_Z (successful_trades m2) / inject_Z (total_requests m2))) m2.

(** The handlers change nothing but the trade counter, and that one
    only upwards. *)
Definition only_trades (a b : TraderAgent) : Prop :=
  same_frame a b /\
  successful_trades (performance_metrics a) = successful_trades (performance_metrics b) /\
  total_pnl (performance_metrics a) = total_pnl (performance_metrics b) /\
  sharpe_ratio (performance_metrics a) = sharpe_ratio (performance_metrics b) /\
  max_drawdown (performance_metrics a) = max_drawdown (performance_metrics b) /\
  avg_response_time (performance_metrics a) = avg_response_time (performance_metrics b) /\
  success_rate (performance_metrics a) = success_rate (performance_metrics b) /\
  total_requests (performance_metrics a) = total_requests (performance_metrics b) /\
  total_trades (performance_metrics a) <= total_trades (performance_metrics b).

(** The shape of what a [try] block returns: a success carrying the
    handler's action name and no error. *)
Definition success_shape (action : string) (r : dict) : Prop :=
  field r "success" = Some (VBool true) /\
  field r "error" = None /\
  field r "action" = Some (VStr action).

(** The shape of a failed result. *)
Definition failure_shape (r : dict) : Prop :=
  field r "success" = Some (VBool false) /\
  confidence_of r = Some 0%Q /\
  exists msg, field r "error" = Some (VStr msg).

(** What [_rebalance_portfolio] computes in the scenario. *)
Definition scenario_result : dict :=
  [ (VStr "success", VBool true);
    (VStr "action", VStr "rebalance");
    (VStr "trades", VList [buy_A; sell_B]);
    (VStr "total_trades", VInt 2);
    (VStr "total_trade_value", VFloat 2000);
    (VStr "estimated_gas", VFloat 200);
    (VStr "estimated_slippage", VFloat 10);
    (VStr "confidence", VFloat (85 # 100));
    (VStr "execution_plan",
      VDict [ (VStr "execution_order", VList [VStr "A"; VStr "B"]);
              (VStr "estimated_time", VInt 4);
              (VStr "batch_size", VInt 2);
              (VStr "priority", VStr "normal") ]) ].

Definition count_trade (self : TraderAgent) : TraderAgent :=
  set_performance_metrics
    (set_total_trades (total_trades (performance_metrics self) + 1)
       (performance_metrics self)) self.

Definition all_registered (cs : list call) : Prop :=
  Forall (fun c => registered (call_action c) = true) cs.

(** The rate is the quotient of the two counters. *)
Definition rate_consistent (m : metrics) : Prop :=
  (success_rate m
   == inject_Z (successful_trades m) / inject_Z (total_requests m))%Q.

(** A number: [bool], [int] or [float]. *)
Definition numeric (v : pyval) : bool :=
  match num_of v with Some _ => true | None => false end.

(** ** Notions for the further properties *)

(** The counters are ordered and the rate is a proportion. *)
Definition metrics_sane (m : metrics) : Prop :=
  0 <= successful_trades m <= total_requests m /\
  0 <= total_trades m <= total_requests m /\
  (0 <= success_rate m <= 1)%Q.

(** A request to buy 1000 of ETH. *)
Definition trade_call (dt draw : Q) : call :=
  mkCall (world_of dt draw) "execute_trade" trade_parameters None.

(** The number a numeric value stands for. *)
Definition qval (v : pyval) : Q :=
  match num_of v with Some q => q | None => 0%Q end.

(** A number that Python converts to a [float] where an operation asks
    for one: a [float], a [bool], or an [int] below [float_limit] in
    absolute value. *)
Definition converts (v : pyval) : bool :=
  match v with
  | VBool _ | VFloat _ => true
  | VInt z => (Z.abs z <? float_limit)%Z
  | _ => false
  end.

(** A number of at most [c] in absolute value. *)
Definition within (c : Z) (v : pyval) : Prop :=
  numeric v = true /\ (Qabs (qval v) <= inject_Z c)%Q.

(** The range in which every [int] is a [float]. *)
Definition ordinary_bound : Z := 2 ^ 53.

(** A number of ordinary size: at most [2^53] in absolute value. *)
Definition ordinary (v : pyval) : bool :=
  match num_of v with
  | Some q => Qle_bool (Qabs q) (inject_Z ordinary_bound)
  | None => false
  end.

(** [current_allocations.get(asset, 0)] as a number. *)
Definition held_share (held : dict) (asset : pyval) : Q :=
  qval (match lookup asset held with Some v => v | None => VInt 0 end).

(** [(target_pct - current_pct) * total_value] for one target. *)
Definition drift_value (held : dict) (total_value : pyval)
    (item : pyval * pyval) : Q :=
  ((qval (snd item) - held_share held (fst item)) * qval total_value)%Q.

(** The target is off by more than the minimum trade size. *)
Definition needs_trade (held : dict) (total_value min_size : pyval)
    (item : pyval * pyval) : bool :=
  Qlt_bool (qval min_size) (Qabs (drift_value held total_value item)).

(** [trade] is the order [_rebalance_portfolio] emits for [item]: a buy
    when the value to move is positive, a sell otherwise, for the
    absolute value. *)
Definition trade_matches (held : dict) (total_value : pyval)
    (item : pyval * pyval) (trade : pyval) : Prop :=
  exists amount current_pct,
    trade
    = mk_trade (fst item)
        (if Qlt_bool 0 (drift_value held total_value item) then "buy" else "sell")
        amount current_pct (snd item) /\
    numeric amount = true /\
    (qval amount == Qabs (drift_value held total_value item))%Q.

(** The number stored in a result under a key ([0] when there is none). *)
Definition field_value (r : dict) (k : string) : Q :=
  match field r k with Some v => qval v | None => 0%Q end.

(** A rebalance request over numbers: the targets are a dict of fewer
    than [2^63] numbers of ordinary size with hashable keys, the
    holdings a dict of numbers of ordinary size, the total value is a
    number of ordinary size and the minimum trade size is a number. *)
Definition numbers_to_rebalance (parameters treasury targets held : dict) : Prop :=
  get_str parameters "target_allocations" (VDict []) = VDict targets /\
  get_str treasury "current_allocations" (VDict []) = VDict held /\
  Forall (fun kv => hashable (fst kv) = true /\ ordinary (snd kv) = true) targets /\
  Forall (fun kv => ordinary (snd kv) = true) held /\
  ordinary (get_str treasury "total_value_usd" (VInt 0)) = true /\
  numeric (get_str parameters "min_trade_size" (VInt 1000)) = true /\
  Z.of_nat (length targets) < 2 ^ 63.

(** The largest value a target of ordinary size can ask to move. *)
Definition trade_bound : Z := 2 * ordinary_bound * ordinary_bound.

(** The amount of a trade dictionary. *)
Definition trade_amount (trade : pyval) : Q :=
  match trade with
  | VDict d => field_value d "amount"
  | _ => 0%Q
  end.

(** The room that rounding takes: a comparison made after float
    arithmetic on numbers of size [scale] can come out either way
    within [slack scale] of its threshold, and does not beyond it. *)
Definition slack (scale : Q) : Q :=
  (scale * (1 # 10 ^ 12) + (1 # 10 ^ 300))%Q.

(** The value to move for [item] is clear of the minimum trade size:
    rounding cannot change whether the target is traded. *)
Definition clear_of_threshold (held : dict) (total_value min_size : pyval)
    (item : pyval * pyval) : Prop :=
  let value := Qabs (drift_value held total_value item) in
  let scale :=
    ((Qabs (qval (snd item)) + Qabs (held_share held (fst item)))
     * Qabs (qval total_value) + Qabs (qval min_size))%Q in
  (value + slack scale < qval min_size)%Q \/
  (qval min_size + slack scale < value)%Q.

(** A rebalance request whose decisions rounding cannot change: the
    minimum trade size is not negative and every target is clear of
    it. *)
Definition clear_rebalance (parameters treasury targets held : dict) : Prop :=
  (0 <= qval (get_str parameters "min_trade_size" (VInt 1000)))%Q /\
  Forall (clear_of_threshold held (get_str treasury "total_value_usd" (VInt 0))
            (get_str parameters "min_trade_size" (VInt 1000))) targets.

(** ** Valid requests *)


(** A trade request that gives the handler nothing to raise on: the
    amount is a number that converts to a [float] and the asset can be
    looked up. *)
Definition valid_trade (parameters : dict) : Prop :=
  converts (get_str parameters "amount" VNone) = true /\
  hashable (get_str parameters "asset" VNone) = true.





(** The targets for which [_rebalance_portfolio] has to trade. *)
Definition wanted_trades (parameters treasury targets held : dict)
  : list (pyval * pyval) :=
  filter (needs_trade held (get_str treasury "total_value_usd" (VInt 0))
            (get_str parameters "min_trade_size" (VInt 1000))) targets.

(** The sum of the weights of an allocation. *)
Definition weight_sum (d : dict) : Q := Qsum (map (fun kv => qval (snd kv)) d).

(** One entry of the [predictions] of [_predict_yield]: the
    risk-adjusted return is 0.8 times the expected annual yield and the
    confidence is 0.75. *)
Definition prediction_ok (entry : pyval) : Prop :=
  exists annual_yield allocations adjusted,
    entry
    = VDict [ (VStr "expected_annual_yield", VFloat annual_yield);
              (VStr "allocations", allocations);
              (VStr "confidence", VFloat (75 # 100));
              (VStr "risk_adjusted_return", VFloat adjusted) ] /\
    (adjusted == annual_yield * (8 # 10))%Q.

(** A world whose normal draws are 0.01, 0.02, ... in the order they
    are made. *)
Definition rising_world : world :=
  mkWorld 0 1 (1 # 2) "7b1d2c3e-0000-4000-8000-5a5a5a5a5a5a"
    (fun k => (inject_Z (Z.of_nat (S k)) / 100)%Q) []
    (fun _ _ => Raises (mkExn RuntimeError "forward pass unavailable"))
    (fun _ _ => Raises (mkExn TypeError "unsupported operand type(s) for -"))
    (fun _ _ => Returns [(1 # 100)%Q; (- 2 # 100)%Q])
    (fun _ => (- 3 # 100)%Q) (fun _ _ => (- 4 # 100)%Q) (fun _ => (2 # 100)%Q)
    (fun _ => (1 # 1000)%Q).

(** A holding and the allocation at its position differ by clearly more
    or clearly less than 0.05: the rounding of the subtraction, in
    single or double precision, cannot change the comparison. *)
Definition clear_of_drift (ct : pyval * Q) : Prop :=
  let gap := Qabs (qval (fst ct) - snd ct) in
  let room := ((1 + Qabs (qval (fst ct)) + Qabs (snd ct)) * (1 # 10 ^ 6))%Q in
  (gap + room < 5 # 100)%Q \/ ((5 # 100) + room < gap)%Q.

(** The actions whose handlers read the treasury data. *)
Definition treasury_actions : list string :=
  [ "optimize_portfolio"; "rebalance"; "risk_analysis" ].

(** The explainer attributes that [explain_decision] only reads. *)
Definition same_setup (a b : XAI.XAIExplainer) : Prop :=
  XAI.explainers a = XAI.explainers b /\
  XAI.feature_names a = XAI.feature_names b.

(** The cache and the setup are as before. *)
Definition same_cache (a b : XAI.XAIExplainer) : Prop :=
  XAI.explanation_cache a = XAI.explanation_cache b /\ same_setup a b.

(** The entry that [explain_decision] stores for a run that ended with
    [text]. *)
Definition stored (entry : XAI.cache_entry) (agent_type action text : string)
  : Prop :=
  XAI.entry_agent_type entry = agent_type /\
  XAI.entry_action entry = action /\
  XAI.entry_human_explanation entry = text.

(** An explainer with empty models and an empty cache, as [__init__]
    leaves them, and the first feature names of two agent types. *)
Definition fresh_explainer : XAI.XAIExplainer :=
  XAI.mkExplainer []
    [ ("trader", ["market_volatility"; "trading_volume"; "price_momentum"]);
      ("advisor", ["market_conditions"; "volatility_index"]) ]
    [] [].

(** Collaborators that fit a surrogate, draw zero features, answer shap
    values [0.2, -0.5, 0.1] and format numbers as "?". *)
Definition plain_xai_world : XAI.world :=
  XAI.mkWorld "0a0a0a0a-1111-4222-8333-444444444444"
    (fun _ => Returns (1%nat, 2%nat))
    (fun n => XAI.np_zeros n)
    (fun a _ _ => Returns a)
    (fun v => Returns v)
    (fun _ _ => Returns (XAI.mkArray [3%nat] [(2 # 10)%Q; (- 5 # 10)%Q; (1 # 10)%Q]))
    (fun names _ => Returns (firstn 3 names, [(- 5 # 10)%Q; (2 # 10)%Q; (1 # 10)%Q]))
    (fun _ => Returns "?")
    (fun _ => "?")
    (Returns 12%Q)
    (fun s => s) (fun s => s).

(** Numpy for vectors only. *)
Definition plain_numpy : XAI.numpy :=
  XAI.mkNumpy
    (fun _ => Raises (mkExn TypeError "only vectors"))
    (fun _ => (1 # 10)%Q)
    (fun _ _ => Raises (mkExn TypeError "only vectors"))
    (fun _ => Returns [1%nat; 0%nat; 2%nat])
    (fun _ _ => Raises (mkExn TypeError "only vectors"))
    (fun _ => VNone).

(** The feature names the explainer has for an agent type. *)
Definition names_known (self : XAI.XAIExplainer) (agent_type : string)
  : list string :=
  match XAI.assoc agent_type (XAI.feature_names self) with
  | Some l => l
  | None => []
  end.

(** A step of a decision path names one of [names]. *)
Definition step_names (names : list string) (step : pyval) : Prop :=
  exists d name,
    step = VDict d /\ field d "feature" = Some (VStr name) /\ In name names.

(** A confidence interval around [value], 3.92 standard deviations
    wide. *)
Definition interval_around (std_dev value : Q) (v : pyval) : Prop :=
  exists lo hi,
    v = VList [VFloat lo; VFloat hi] /\
    (lo <= value <= hi)%Q /\ (hi - lo == (392 # 100) * std_dev)%Q.

(** The five inputs of a risk explanation are numbers of at most 0.1 in
    absolute value. *)
Definition quiet (features : list (string * pyval)) : Prop :=
  Forall (fun fv => numeric (snd fv) = true
                    /\ (Qabs (qval (snd fv)) <= 1 # 10)%Q) features.


(** The result carries a float under ["confidence"]. *)
Definition float_confidence (r : dict) : Prop :=
  exists q, field r "confidence" = Some (VFloat q).

(** A server whose collaborators are the ones of [world_of] and
    [plain_xai_world], with a registry that holds the trader and one
    agent of another class. *)
Definition plain_outside : Main.outside :=
  Main.mkOutside (world_of 1 (1 # 2)) plain_xai_world 10 11
    (fun _ _ _ _ => Raises (mkExn RuntimeError "unavailable"))
    (fun _ => Raises (mkExn RuntimeError "unavailable"))
    (fun _ detail => detail)
    (fun _ => Raises (mkExn ValueError "Input should be a valid number")).

Definition started_backend : Main.backend :=
  Main.mkBackend [("trader", Main.Trader fresh_agent);
                  ("compliance", Main.Other "ComplianceAgent")]
    (Some fresh_explainer).

Definition trade_request : Main.AgentRequest :=
  Main.mkRequest "trader" "execute_trade" trade_parameters None.

Definition oracle_request : Main.AgentRequest :=
  Main.mkRequest "oracle" "rebalance" scenario_parameters (Some scenario_treasury).

(** * Properties *)

(** ** The monad *)

Lemma obind_returns {A B} (c : outcome A) (k : A -> outcome B) (b : B) :
  obind c k = Returns b -> exists a, c = Returns a /\ k a = Returns b.
Proof.
  destruct c as [a|e]; simpl; intros H; [eauto | discriminate].
Qed.

Lemma registered_false_dispatch w action parameters treasury_data :
  registered action = false ->
  dispatch w action parameters treasury_data = raise (unknown_action action).
Proof.
  unfold registered, registered_actions, dispatch. simpl.
  intros H.
  repeat (apply orb_false_elim in H; destruct H as [E H]; rewrite E; clear E).
  reflexivity.
Qed.

Lemma append_empty_r (s : string) : s ++ "" = s.
Proof. induction s; simpl; congruence. Qed.

(** ** Unknown actions *)

(** C3. For an action name outside the registered set, and whatever the
    parameters and the treasury data, [execute_action] raises nothing:
    it returns a failed result with [success = False], [confidence = 0.0]
    and an [error] string that mentions the unknown action name. *)
Theorem unknown_action_is_reported
    (w : world) (action : string) (parameters : dict)
    (treasury_data : option dict) (self : TraderAgent) :
  registered action = false ->
  exists r msg,
    fst (execute_action w action parameters treasury_data self) = Returns r /\
    field r "success" = Some (VBool false) /\
    confidence_of r = Some 0%Q /\
    field r "error" = Some (VStr msg) /\
    mentions msg action.
Proof.
  intros H.
  exists (dispatcher_failure action (unknown_action action)), ("Unknown action: " ++ action).
  unfold execute_action.
  rewrite (registered_false_dispatch w action parameters treasury_data H).
  repeat split.
  exists "Unknown action: ", "". now rewrite append_empty_r.
Qed.

Lemma unknown_action_is_reported_witness :
  registered "liquidate" = false /\
  exists r msg,
    fst (execute_action (world_of 1 (1 # 2)) "liquidate" [] None fresh_agent)
      = Returns r /\
    field r "success" = Some (VBool false) /\
    confidence_of r = Some 0%Q /\
    field r "error" = Some (VStr msg) /\
    mentions msg "liquidate".
Proof.
  split; [reflexivity|].
  apply (unknown_action_is_reported (world_of 1 (1 # 2)) "liquidate" [] None fresh_agent).
  reflexivity.
Defined.

(** ** How one call changes the agent *)

Lemma execute_action_returned w action parameters treasury_data self r self' :
  dispatch w action parameters treasury_data (counted self) = (Returns r, self') ->
  total_requests (performance_metrics self') <> 0 ->
  execute_action w action parameters treasury_data self
  = (Returns r,
     set_performance_metrics (recorded w r (performance_metrics self')) self').
Proof.
  intros Hd Hn.
  unfold execute_action, bind, try_except, update_metrics, modify, the_metrics,
    read, lift, ret.
  fold (counted self). rewrite Hd.
  unfold recorded, div_int.
  destruct self' as [i n o cr sc tr m c l]; simpl in *.
  apply Z.eqb_neq in Hn.
  destruct (truthy (get_str r "success" (VBool false))); simpl;
    rewrite !Hn; simpl; rewrite ?Hn; reflexivity.
Qed.

Lemma execute_action_raised w action parameters treasury_data self e self' :
  dispatch w action parameters treasury_data (counted self) = (Raises e, self') ->
  execute_action w action parameters treasury_data self
  = (Returns (dispatcher_failure action e), self').
Proof.
  intros Hd.
  unfold execute_action, bind, try_except, update_metrics, modify, ret.
  fold (counted self). now rewrite Hd.
Qed.

Lemma dispatch_unregistered w action parameters treasury_data self :
  registered action = false ->
  dispatch w action parameters treasury_data self
  = (Raises (unknown_action action), self).
Proof.
  intros H. now rewrite registered_false_dispatch.
Qed.

(** A handler is its [try] block followed by the [except] clause that
    turns an exception into [handler_failure]. *)
Lemma dispatch_registered w action parameters treasury_data :
  registered action = true ->
  exists body,
    handler_body w action parameters treasury_data = Some body /\
    dispatch w action parameters treasury_data
    = try_except body (fun e => ret (handler_failure e)).
Proof.
  unfold registered, registered_actions, dispatch, handler_body. simpl.
  intros H.
  destruct (action =? "optimize_portfolio"); [eexists; split; reflexivity|].
  destruct (action =? "rebalance"); [eexists; split; reflexivity|].
  destruct (action =? "risk_analysis"); [eexists; split; reflexivity|].
  destruct (action =? "yield_prediction"); [eexists; split; reflexivity|].
  destruct (action =? "execute_trade"); [eexists; split; reflexivity|].
  discriminate.
Qed.

Lemma handler_body_registered w action parameters treasury_data body :
  handler_body w action parameters treasury_data = Some body ->
  registered action = true.
Proof.
  unfold registered, registered_actions, handler_body. simpl.
  destruct (action =? "optimize_portfolio"); [reflexivity|].
  destruct (action =? "rebalance"); [reflexivity|].
  destruct (action =? "risk_analysis"); [reflexivity|].
  destruct (action =? "yield_prediction"); [reflexivity|].
  destruct (action =? "execute_trade"); [reflexivity|].
  discriminate.
Qed.

(** ** Frames: what a method leaves alone *)

Section Keeps.
Context {S : Type} (R : S -> S -> Prop).
Hypothesis R_refl : forall s, R s s.
Hypothesis R_trans : forall a b c, R a b -> R b c -> R a c.

Lemma keeps_ret {A} (a : A) : keeps R (ret a).
Proof. intros s. apply R_refl. Qed.

Lemma keeps_raise {A} (e : exn) : keeps R (@raise S A e).
Proof. intros s. apply R_refl. Qed.

Lemma keeps_lift {A} (o : outcome A) : keeps R (lift o).
Proof. intros s. apply R_refl. Qed.

Lemma keeps_read {A} (f : S -> A) : keeps R (read f).
Proof. intros s. apply R_refl. Qed.

Lemma keeps_bind {A B} (c : M S A) (k : A -> M S B) :
  keeps R c -> (forall a, keeps R (k a)) -> keeps R (bind c k).
Proof.
  intros Hc Hk s. unfold bind. specialize (Hc s).
  destruct (c s) as [[a|e] s']; simpl in *; [|exact Hc].
  eapply R_trans; [exact Hc | apply Hk].
Qed.

Lemma keeps_try {A} (c : M S A) (h : exn -> M S A) :
  keeps R c -> (forall e, keeps R (h e)) -> keeps R (try_except c h).
Proof.
  intros Hc Hh s. unfold try_except. specialize (Hc s).
  destruct (c s) as [[a|e] s']; simpl in *; [exact Hc|].
  eapply R_trans; [exact Hc | apply Hh].
Qed.

Lemma keeps_if {A} (b : bool) (c1 c2 : M S A) :
  keeps R c1 -> keeps R c2 -> keeps R (if b then c1 else c2).
Proof. destruct b; auto. Qed.
End Keeps.

Lemma same_frame_refl a : same_frame a a.
Proof. repeat split. Qed.

Lemma same_frame_trans a b c : same_frame a b -> same_frame b c -> same_frame a c.
Proof.
  unfold same_frame. intros (?&?&?&?&?&?&?&?) (?&?&?&?&?&?&?&?).
  repeat split; congruence.
Qed.

Lemma only_trades_refl a : only_trades a a.
Proof. unfold only_trades. repeat split; lia. Qed.

Lemma only_trades_trans a b c : only_trades a b -> only_trades b c -> only_trades a c.
Proof.
  unfold only_trades. intros (F1&?&?&?&?&?&?&?&?) (F2&?&?&?&?&?&?&?&?).
  split; [eapply same_frame_trans; eauto|].
  repeat split; try congruence; lia.
Qed.

Lemma update_metrics_frame f : keeps same_frame (update_metrics f).
Proof. intros s. repeat split. Qed.

Ltac frame_steps R_refl R_trans :=
  repeat first
    [ apply (keeps_bind _ R_trans); [|intros ?]
    | apply (keeps_try _ R_trans); [|intros ?]
    | apply (keeps_ret _ R_refl)
    | apply (keeps_raise _ R_refl)
    | apply (keeps_lift _ R_refl)
    | apply (keeps_read _ R_refl)
    | apply keeps_if ].

Lemma execute_trade_body_only_trades w parameters :
  keeps only_trades (execute_trade_body w parameters).
Proof.
  unfold execute_trade_body.
  frame_steps only_trades_refl only_trades_trans.
  intros s. unfold update_metrics, modify. simpl.
  unfold only_trades. repeat split; simpl; lia.
Qed.

Lemma optimize_body_only_trades w parameters treasury_data :
  keeps only_trades (optimize_body w parameters treasury_data).
Proof.
  unfold optimize_body.
  frame_steps only_trades_refl only_trades_trans.
Qed.

Lemma dispatch_only_trades w action parameters treasury_data :
  keeps only_trades (dispatch w action parameters treasury_data).
Proof.
  unfold dispatch, _optimize_portfolio, _rebalance_portfolio, _analyze_risk,
    _predict_yield, _execute_trade.
  repeat apply keeps_if;
    try (apply (keeps_try _ only_trades_trans);
         [| intros e; apply (keeps_ret _ only_trades_refl)]);
    first [ apply optimize_body_only_trades
          | apply execute_trade_body_only_trades
          | apply (keeps_lift _ only_trades_refl)
          | apply (keeps_raise _ only_trades_refl) ].
Qed.

Lemma dispatch_same_frame w action parameters treasury_data :
  keeps same_frame (dispatch w action parameters treasury_data).
Proof.
  intros s. apply (dispatch_only_trades w action parameters treasury_data s).
Qed.

Lemma counted_only_requests self :
  same_frame self (counted self) /\
  total_trades (performance_metrics (counted self))
  = total_trades (performance_metrics self) /\
  successful_trades (performance_metrics (counted self))
  = successful_trades (performance_metrics self) /\
  avg_response_time (performance_metrics (counted self))
  = avg_response_time (performance_metrics self) /\
  success_rate (performance_metrics (counted self))
  = success_rate (performance_metrics self) /\
  total_requests (performance_metrics (counted self))
  = total_requests (performance_metrics self) + 1.
Proof. repeat split. Qed.

(** ** Inverting a method that returned *)

Lemma bind_returns {S A B} (c : M S A) (k : A -> M S B) (s : S) (b : B) :
  fst (bind c k s) = Returns b ->
  exists a s', c s = (Returns a, s') /\ fst (k a s') = Returns b.
Proof.
  unfold bind. destruct (c s) as [[a|e] s']; simpl; intros H;
    [eauto | discriminate].
Qed.

Lemma lift_returns {S A} (o : outcome A) (s s' : S) (a : A) :
  lift o s = (Returns a, s') -> o = Returns a /\ s' = s.
Proof. unfold lift. intros H. injection H as -> ->. auto. Qed.

Ltac invert_returns :=
  repeat match goal with
    | H : obind _ _ = Returns _ |- _ =>
        apply obind_returns in H; destruct H as (? & ? & H)
    | H : fst (bind _ _ _) = Returns _ |- _ =>
        apply bind_returns in H; destruct H as (? & ? & ? & H)
    | H : match ?x with (_, _) => _ end = Returns _ |- _ => destruct x
    | H : fst (lift _ _) = Returns _ |- _ => unfold lift in H; cbn [fst] in H
    | H : fst (ret _ _) = Returns _ |- _ => unfold ret in H; cbn [fst] in H
    | H : Returns _ = Returns _ |- _ => injection H as H; subst
    end.

Lemma rebalance_body_shape parameters treasury_data r :
  rebalance_body parameters treasury_data = Returns r ->
  success_shape "rebalance" r /\ confidence_of r = Some (85 # 100)%Q.
Proof.
  unfold rebalance_body. intros H. invert_returns. repeat split.
Qed.

Lemma risk_body_shape w parameters treasury_data r :
  risk_body w parameters treasury_data = Returns r ->
  success_shape "risk_analysis" r /\ confidence_of r = Some (90 # 100)%Q.
Proof.
  unfold risk_body. intros H. invert_returns. repeat split.
Qed.

Lemma yield_body_shape w parameters treasury_data r :
  yield_body w parameters treasury_data = Returns r ->
  success_shape "yield_prediction" r /\ confidence_of r = Some (80 # 100)%Q.
Proof.
  unfold yield_body. intros H. invert_returns. repeat split.
Qed.

Lemma optimize_body_shape w parameters treasury_data self r :
  fst (optimize_body w parameters treasury_data self) = Returns r ->
  success_shape "optimize_portfolio" r /\
  exists net allocations risk_score,
    model self = Some net /\
    torch_forward w net (randn50 w) = Returns (allocations, risk_score) /\
    confidence_of r = Some (Qred (1 - risk_score)).
Proof.
  unfold optimize_body. intros H.
  apply bind_returns in H. destruct H as (net & s1 & Hnet & H).
  unfold read in Hnet. injection Hnet as <- <-.
  apply bind_returns in H. destruct H as ([allocations risk_score] & s2 & Hf & H).
  apply lift_returns in Hf. destruct Hf as [Hf ->].
  destruct (model self) as [n|] eqn:Hm; [|discriminate].
  invert_returns.
  split; [repeat split|].
  exists n, allocations, risk_score. repeat split. exact Hf.
Qed.

Lemma execute_trade_body_shape w parameters self r :
  fst (execute_trade_body w parameters self) = Returns r ->
  (Qlt_bool (5 # 100) (random_draw w) = true /\
   success_shape "execute_trade" r /\ confidence_of r = Some (95 # 100)%Q)
  \/ (Qlt_bool (5 # 100) (random_draw w) = false /\ r = trade_rejected).
Proof.
  unfold execute_trade_body. intros H.
  repeat (apply bind_returns in H; destruct H as (? & ? & _ & H)).
  destruct (Qlt_bool (5 # 100) (random_draw w)); [left | right];
    invert_returns; repeat split.
Qed.

Lemma handler_failure_shape e :
  failure_shape (handler_failure e) /\ field (handler_failure e) "action" = None.
Proof. unfold failure_shape. repeat split. now exists (str_exn e). Qed.

Lemma dispatcher_failure_shape action e :
  failure_shape (dispatcher_failure action e) /\
  field (dispatcher_failure action e) "action" = Some (VStr action).
Proof. unfold failure_shape. repeat split. now exists (str_exn e). Qed.

Lemma trade_rejected_shape :
  failure_shape trade_rejected /\ field trade_rejected "action" = None.
Proof. unfold failure_shape. repeat split. eexists; reflexivity. Qed.

(** What the [try] block of a handler can return. *)
Lemma handler_body_shape w action parameters treasury_data body self r :
  handler_body w action parameters treasury_data = Some body ->
  fst (body self) = Returns r ->
  success_shape action r \/ (action = "execute_trade" /\ r = trade_rejected).
Proof.
  unfold handler_body.
  destruct (String.eqb_spec action "optimize_portfolio") as [->|_].
  { intros [= <-] H. left. now apply optimize_body_shape in H. }
  destruct (String.eqb_spec action "rebalance") as [->|_].
  { intros [= <-] H. left. now apply rebalance_body_shape in H. }
  destruct (String.eqb_spec action "risk_analysis") as [->|_].
  { intros [= <-] H. left. now apply risk_body_shape in H. }
  destruct (String.eqb_spec action "yield_prediction") as [->|_].
  { intros [= <-] H. left. now apply (yield_body_shape w parameters treasury_data) in H. }
  destruct (String.eqb_spec action "execute_trade") as [->|_]; [|discriminate].
  intros [= <-] H. apply execute_trade_body_shape in H.
  destruct H as [(_ & H & _)|(_ & H)]; auto.
Qed.

(** What a handler with its [except] clause returns: it always returns. *)
Lemma dispatch_result w action parameters treasury_data self :
  registered action = true ->
  exists r,
    fst (dispatch w action parameters treasury_data self) = Returns r /\
    (success_shape action r \/
     (failure_shape r /\ field r "action" = None)).
Proof.
  intros Hreg.
  destruct (dispatch_registered w action parameters treasury_data Hreg)
    as (body & Hb & ->).
  unfold try_except, ret.
  destruct (body self) as [[r|e] s'] eqn:E.
  - exists r. split; [reflexivity|].
    destruct (handler_body_shape w action parameters treasury_data body self r Hb)
      as [H|[_ ->]]; [now rewrite E | now left | right; apply trade_rejected_shape].
  - exists (handler_failure e). split; [reflexivity|].
    right. apply handler_failure_shape.
Qed.

(** What the dispatcher returns: the handler's dictionary, or its own
    failure dictionary. *)
Lemma execute_action_result w action parameters treasury_data self :
  exists r,
    fst (execute_action w action parameters treasury_data self) = Returns r /\
    (fst (dispatch w action parameters treasury_data (counted self)) = Returns r
     \/ exists e, r = dispatcher_failure action e).
Proof.
  destruct (dispatch w action parameters treasury_data (counted self))
    as [[r|e] s'] eqn:Hd.
  - destruct (Z.eq_dec (total_requests (performance_metrics s')) 0) as [Hz|Hn].
    + exists (dispatcher_failure action
                (mkExn ZeroDivisionError "division by zero")).
      split; [|right; eauto].
      unfold execute_action, bind, try_except, update_metrics, modify,
        the_metrics, read, lift, ret.
      fold (counted self). rewrite Hd. cbn. unfold div_int.
      rewrite Hz. reflexivity.
    + exists r. split; [|now left].
      now rewrite (execute_action_returned _ _ _ _ _ _ _ Hd Hn).
  - exists (dispatcher_failure action e). split; [|right; eauto].
    now rewrite (execute_action_raised _ _ _ _ _ _ _ Hd).
Qed.

(** ** Well-formed results *)

(** C5, as the code has it.  [execute_action] always returns a
    dictionary with a boolean [success]; [success = False] implies
    [confidence = 0.0] and a set [error]; [success = True] implies no
    [error] and the requested action name under [action].  A failed
    result carries the action name when the action is unregistered. *)
Theorem result_is_well_formed
    (w : world) (action : string) (parameters : dict)
    (treasury_data : option dict) (self : TraderAgent) :
  exists r,
    fst (execute_action w action parameters treasury_data self) = Returns r /\
    (exists b, field r "success" = Some (VBool b)) /\
    (field r "success" = Some (VBool false) ->
       confidence_of r = Some 0%Q /\
       exists msg, field r "error" = Some (VStr msg)) /\
    (field r "success" = Some (VBool true) ->
       field r "error" = None /\ field r "action" = Some (VStr action)) /\
    (registered action = false -> field r "action" = Some (VStr action)).
Proof.
  destruct (execute_action_result w action parameters treasury_data self)
    as (r & Hr & Hfrom).
  exists r. split; [exact Hr|].
  assert (Hshape :
    (success_shape action r /\ registered action = true)
    \/ (failure_shape r /\
        (registered action = false -> field r "action" = Some (VStr action)))).
  { destruct Hfrom as [Hd|[e ->]].
    - destruct (registered action) eqn:Hreg.
      + destruct (dispatch_result w action parameters treasury_data (counted self) Hreg)
          as (r' & Hr' & Hs).
        rewrite Hd in Hr'. injection Hr' as <-.
        destruct Hs as [Hs|[Hs _]]; [left; auto | right; split; [auto|discriminate]].
      + rewrite dispatch_unregistered in Hd by assumption. discriminate.
    - right. split; [apply dispatcher_failure_shape|].
      intros _. apply dispatcher_failure_shape. }
  destruct Hshape as [[(S1 & S2 & S3) Hreg]|[(F1 & F2 & F3) Hact]].
  - split; [eauto|]. split; [|split].
    + intros H. rewrite S1 in H. discriminate.
    + auto.
    + intros H. rewrite Hreg in H. discriminate.
  - split; [eauto|]. split; [|split].
    + auto.
    + intros H. rewrite F1 in H. discriminate.
    + exact Hact.
Qed.

(** C5, as stated, fails: a rebalance request without treasury data is
    answered from the handler's [except] clause, and that dictionary
    has no [action] field. *)
Lemma failed_handler_result_lacks_action :
  exists r,
    fst (run_call (broken_call 1) fresh_agent) = Returns r /\
    field r "success" = Some (VBool false) /\
    field r "action" <> Some (VStr "rebalance").
Proof.
  eexists. split; [vm_compute; reflexivity|].
  split; [reflexivity | discriminate].
Qed.

(** ** The rebalancing scenario *)

Lemma scenario_body :
  rebalance_body scenario_parameters (Some scenario_treasury)
  = Returns scenario_result.
Proof. vm_compute. reflexivity. Qed.

Lemma scenario_dispatch w self :
  dispatch w "rebalance" scenario_parameters (Some scenario_treasury) self
  = (Returns scenario_result, self).
Proof.
  unfold dispatch. cbn [String.eqb Ascii.eqb Bool.eqb].
  unfold _rebalance_portfolio, try_except, lift. now rewrite scenario_body.
Qed.

(** C4, as the code has it.  Dispatching ["rebalance"] with targets
    {A: 0.6, B: 0.4}, minimum trade size 100 and holdings {A: 0.5, B: 0.5}
    worth 10000 returns a successful result with exactly two trades, in
    this order: buy 1000 of A, sell 1000 of B (both differ from the
    target by 0.1 * 10000 = 1000 > 100). *)
Theorem rebalance_scenario_two_trades (w : world) (self : TraderAgent) :
  0 <= total_requests (performance_metrics self) ->
  exists r,
    fst (execute_action w "rebalance" scenario_parameters
           (Some scenario_treasury) self) = Returns r /\
    field r "success" = Some (VBool true) /\
    field r "trades" = Some (VList [buy_A; sell_B]).
Proof.
  intros Hpos. exists scenario_result.
  rewrite (execute_action_returned w "rebalance" scenario_parameters
             (Some scenario_treasury) self scenario_result (counted self)).
  - repeat split.
  - apply scenario_dispatch.
  - simpl. lia.
Qed.

Lemma rebalance_scenario_two_trades_witness :
  0 <= total_requests (performance_metrics fresh_agent) /\
  exists r,
    fst (execute_action (world_of 1 (1 # 2)) "rebalance" scenario_parameters
           (Some scenario_treasury) fresh_agent) = Returns r /\
    field r "success" = Some (VBool true) /\
    field r "trades" = Some (VList [buy_A; sell_B]).
Proof.
  split; [simpl; lia|].
  apply (rebalance_scenario_two_trades (world_of 1 (1 # 2)) fresh_agent).
  simpl; lia.
Defined.

(** C4, as stated, fails: the trade list of the scenario is not a
    single trade. *)
Lemma rebalance_scenario_not_one_trade :
  ~ exists r trade,
      fst (execute_action (world_of 1 (1 # 2)) "rebalance" scenario_parameters
             (Some scenario_treasury) fresh_agent) = Returns r /\
      field r "success" = Some (VBool true) /\
      field r "trades" = Some (VList [trade]).
Proof.
  intros (r & trade & Hr & _ & Ht).
  vm_compute in Hr. injection Hr as <-.
  vm_compute in Ht. discriminate.
Qed.

(** ** Success of completed handlers *)

Ltac case_outcomes :=
  repeat match goal with
    | |- context [match ?o with Returns _ => _ | Raises _ => _ end] =>
        destruct o; cbn; try reflexivity
    end.

(** Whether a [try] block returns, and what, depends on the agent only
    through its model. *)
Lemma handler_body_reads_model w action parameters treasury_data body s1 s2 :
  handler_body w action parameters treasury_data = Some body ->
  model s1 = model s2 ->
  fst (body s1) = fst (body s2).
Proof.
  unfold handler_body. intros Hb Hm.
  destruct (action =? "optimize_portfolio").
  { injection Hb as <-.
    unfold optimize_body, bind, read, lift, ret. rewrite Hm. cbn.
    destruct (model s2) as [n|]; cbn; [|reflexivity].
    case_outcomes. }
  destruct (action =? "rebalance"); [injection Hb as <-; reflexivity|].
  destruct (action =? "risk_analysis"); [injection Hb as <-; reflexivity|].
  destruct (action =? "yield_prediction"); [injection Hb as <-; reflexivity|].
  destruct (action =? "execute_trade"); [|discriminate].
  injection Hb as <-.
  unfold execute_trade_body, bind, lift, update_metrics, modify, ret. cbn.
  case_outcomes.
  destruct (Qlt_bool (5 # 100) (random_draw w)); reflexivity.
Qed.

Lemma Qlt_bool_iff (x y : Q) : Qlt_bool x y = true <-> (x < y)%Q.
Proof.
  unfold Qlt_bool. rewrite negb_true_iff. split.
  - intros H. apply Qnot_le_lt. intros Hle.
    apply Qle_bool_iff in Hle. congruence.
  - intros H. destruct (Qle_bool y x) eqn:E; [|reflexivity].
    apply Qle_bool_iff in E. exfalso. eapply Qlt_not_le; eauto.
Qed.

(** The [try] block of [_optimize_portfolio] never gets to its
    [return]: the product of the allocations and the dict of expected
    returns raises, and where there is no allocation to multiply,
    [np.argmax] raises in [_generate_allocation_recommendations]. *)
Lemma optimize_body_raises w parameters treasury_data self r :
  fst (optimize_body w parameters treasury_data self) <> Returns r.
Proof.
  unfold optimize_body. intros H.
  apply bind_returns in H. destruct H as (net & s1 & _ & H).
  apply bind_returns in H. destruct H as ([allocations risk_score] & s2 & _ & H).
  apply bind_returns in H. destruct H as (expected & s3 & _ & H).
  apply bind_returns in H. destruct H as (portfolio_return & s4 & Hp & H).
  apply bind_returns in H. destruct H as (recommendations & s5 & Hrec & _).
  apply lift_returns in Hp. destruct Hp as [Hp _].
  apply lift_returns in Hrec. destruct Hrec as [Hrec _].
  cbn [fst snd] in Hp, Hrec.
  destruct allocations as [|a allocations]; [|discriminate Hp].
  unfold _generate_allocation_recommendations in Hrec. discriminate Hrec.
Qed.



(** ** Arithmetic on numbers that convert *)

Lemma converts_numeric v : converts v = true -> numeric v = true.
Proof. destruct v; simpl; try discriminate; reflexivity. Qed.

Lemma converts_to_float v :
  converts v = true -> to_float v = Some (Returns (qval v)).
Proof.
  destruct v as [|b|z|q|s|l|d]; simpl; try discriminate; intros H;
    try reflexivity.
  unfold int_to_float. now rewrite H.
Qed.

Lemma py_mul_is_arith a b :
  numeric a = true -> numeric b = true ->
  py_mul a b = arith "*" Z.mul Qmult a b.
Proof. destruct a, b; try discriminate; reflexivity. Qed.




(** ** A handler that raises *)

Lemma dispatch_handler_raised w action parameters treasury_data self e :
  handler_raises w action parameters treasury_data self e ->
  exists s',
    dispatch w action parameters treasury_data self
    = (Returns (handler_failure e), s') /\ only_trades self s'.
Proof.
  intros (body & Hb & Hr).
  assert (Hreg := handler_body_registered _ _ _ _ _ Hb).
  destruct (dispatch_registered w action parameters treasury_data Hreg)
    as (body' & Hb' & Hd).
  rewrite Hb in Hb'. injection Hb' as <-.
  pose proof (dispatch_only_trades w action parameters treasury_data self) as K.
  rewrite Hd in *. unfold try_except, ret in *.
  destruct (body self) as [[r|e'] s']; simpl in Hr; [discriminate|].
  injection Hr as ->. exists s'. split; [reflexivity | exact K].
Qed.

Lemma execute_action_keeps_frame w action parameters treasury_data :
  keeps same_frame (execute_action w action parameters treasury_data).
Proof.
  unfold execute_action.
  apply (keeps_bind _ same_frame_trans); [apply update_metrics_frame|].
  intros _. apply (keeps_try _ same_frame_trans);
    [|intros ?; apply (keeps_ret _ same_frame_refl)].
  apply (keeps_bind _ same_frame_trans); [apply dispatch_same_frame|].
  intros res.
  repeat first
    [ apply (keeps_bind _ same_frame_trans); [|intros ?]
    | apply update_metrics_frame
    | apply (keeps_ret _ same_frame_refl)
    | apply (keeps_lift _ same_frame_refl)
    | apply (keeps_read _ same_frame_refl)
    | apply keeps_if ].
Qed.

(** ** The metrics after one call *)

Lemma registered_call_metrics w action parameters treasury_data self :
  registered action = true ->
  0 <= total_requests (performance_metrics self) ->
  exists r,
    fst (execute_action w action parameters treasury_data self) = Returns r /\
    fst (dispatch w action parameters treasury_data (counted self)) = Returns r /\
    let m := performance_metrics self in
    let m' := metrics_after w action parameters treasury_data self in
    total_requests m' = total_requests m + 1 /\
    successful_trades m'
    = successful_trades m
      + (if truthy (get_str r "success" (VBool false)) then 1 else 0) /\
    avg_response_time m'
    = Qred ((avg_response_time m * inject_Z (total_requests m)
             + (clock_end w - clock_start w))
            / inject_Z (total_requests m + 1)) /\
    success_rate m'
    = Qred (inject_Z (successful_trades m') / inject_Z (total_requests m')).
Proof.
  intros Hreg Hpos.
  destruct (dispatch_result w action parameters treasury_data (counted self) Hreg)
    as (r & Hr & _).
  pose proof (dispatch_only_trades w action parameters treasury_data (counted self))
    as K.
  destruct (dispatch w action parameters treasury_data (counted self))
    as [x s'] eqn:Hd.
  simpl in Hr. subst x. simpl in K.
  destruct K as (_ & Ks & _ & _ & _ & Ka & _ & Kt & _).
  simpl in Ks, Ka, Kt.
  assert (Hn : total_requests (performance_metrics s') <> 0) by lia.
  exists r. unfold metrics_after.
  rewrite (execute_action_returned _ _ _ _ _ _ _ Hd Hn).
  split; [reflexivity|]. split; [reflexivity|].
  unfold recorded. cbn.
  destruct (truthy (get_str r "success" (VBool false))); cbn;
    rewrite <- ?Ks, <- ?Ka, <- ?Kt, ?Z.add_simpl_r, ?Z.add_0_r; repeat split.
Qed.

Lemma unregistered_call w action parameters treasury_data self :
  registered action = false ->
  execute_action w action parameters treasury_data self
  = (Returns (dispatcher_failure action (unknown_action action)), counted self).
Proof.
  intros H. apply execute_action_raised. now apply dispatch_unregistered.
Qed.

Lemma reports_true_truthy r :
  field r "success" = Some (VBool true) ->
  truthy (get_str r "success" (VBool false)) = true.
Proof. unfold field, get_str. now intros ->. Qed.

(** A call that reports success went through a handler and was
    counted as a success. *)
Lemma successful_call_metrics w action parameters treasury_data self :
  0 <= total_requests (performance_metrics self) ->
  reports (fst (execute_action w action parameters treasury_data self)) true ->
  let m := performance_metrics self in
  let m' := metrics_after w action parameters treasury_data self in
  total_requests m' = total_requests m + 1 /\
  successful_trades m' = successful_trades m + 1 /\
  success_rate m'
  = Qred (inject_Z (successful_trades m') / inject_Z (total_requests m')).
Proof.
  intros Hpos (r & Hr & Hs).
  destruct (registered action) eqn:Hreg.
  - destruct (registered_call_metrics w action parameters treasury_data self Hreg Hpos)
      as (r' & Hr' & _ & Ht & Hsucc & _ & Hrate).
    rewrite Hr in Hr'. injection Hr' as <-.
    rewrite (reports_true_truthy r Hs) in Hsucc. auto.
  - rewrite unregistered_call in Hr by assumption. simpl in Hr.
    injection Hr as <-. discriminate.
Qed.

(** A call whose handler raised internally is answered with the
    handler's failure dictionary and counted as a failure. *)
Lemma failed_handler_call_metrics w action parameters treasury_data self e :
  0 <= total_requests (performance_metrics self) ->
  handler_raises w action parameters treasury_data self e ->
  fst (execute_action w action parameters treasury_data self)
  = Returns (handler_failure e) /\
  let m := performance_metrics self in
  let m' := metrics_after w action parameters treasury_data self in
  total_requests m' = total_requests m + 1 /\
  successful_trades m' = successful_trades m /\
  success_rate m'
  = Qred (inject_Z (successful_trades m') / inject_Z (total_requests m')).
Proof.
  intros Hpos (body & Hb & He).
  assert (Hreg := handler_body_registered _ _ _ _ _ Hb).
  assert (Hraise : handler_raises w action parameters treasury_data (counted self) e).
  { exists body. split; [exact Hb|]. rewrite <- He.
    now apply (handler_body_reads_model _ _ _ _ _ _ _ Hb). }
  destruct (dispatch_handler_raised _ _ _ _ _ _ Hraise) as (s' & Hd & _).
  destruct (registered_call_metrics w action parameters treasury_data self Hreg Hpos)
    as (r' & Hr' & Hd' & Ht & Hsucc & _ & Hrate).
  rewrite Hd in Hd'. simpl in Hd'. injection Hd' as <-.
  simpl in Hsucc. rewrite Z.add_0_r in Hsucc. auto.
Qed.

(** ** Three calls, the second failing inside its handler *)

(** C7. Of three calls on a fresh agent, let the first and the third
    report success and let the handler of the second raise inside its
    [try] block.  Then all three calls return, the second with a failed
    result ([success = False], [confidence = 0.0], the exception text
    under [error]), and the metrics read [total_requests = 3],
    [successful_trades = 2], [success_rate = 2/3]. *)
Theorem three_calls_one_handler_failure
    (c1 c2 c3 : call) (self : TraderAgent) (e : exn)
    (r1 r2 r3 : outcome dict) (self' : TraderAgent) :
  performance_metrics self = initial_metrics ->
  run_calls [c1; c2; c3] self = ([r1; r2; r3], self') ->
  reports r1 true ->
  handler_raises (call_world c2) (call_action c2) (call_parameters c2)
    (call_treasury c2) self e ->
  reports r3 true ->
  r2 = Returns (handler_failure e) /\
  field (handler_failure e) "success" = Some (VBool false) /\
  confidence_of (handler_failure e) = Some 0%Q /\
  field (handler_failure e) "error" = Some (VStr (str_exn e)) /\
  total_requests (performance_metrics self') = 3 /\
  successful_trades (performance_metrics self') = 2 /\
  success_rate (performance_metrics self') = (2 # 3)%Q.
Proof.
  intros Hinit Hrun H1 H2 H3.
  simpl in Hrun. unfold run_call in Hrun.
  destruct c1 as [w1 a1 p1 t1], c2 as [w2 a2 p2 t2], c3 as [w3 a3 p3 t3].
  simpl in *.
  destruct (execute_action w1 a1 p1 t1 self) as [x1 s1] eqn:E1.
  destruct (execute_action w2 a2 p2 t2 s1) as [x2 s2] eqn:E2.
  destruct (execute_action w3 a3 p3 t3 s2) as [x3 s3] eqn:E3.
  injection Hrun as <- <- <- <-.
  assert (P0 : 0 <= total_requests (performance_metrics self))
    by (rewrite Hinit; simpl; lia).
  pose proof (successful_call_metrics w1 a1 p1 t1 self P0) as M1.
  unfold metrics_after in M1. rewrite E1 in M1. simpl in M1.
  destruct (M1 H1) as (T1 & S1 & _). clear M1.
  rewrite Hinit in T1, S1. simpl in T1, S1.
  assert (F1 : model self = model s1).
  { pose proof (execute_action_keeps_frame w1 a1 p1 t1 self) as K.
    rewrite E1 in K. apply K. }
  assert (P1 : 0 <= total_requests (performance_metrics s1)) by lia.
  assert (H2' : handler_raises w2 a2 p2 t2 s1 e).
  { destruct H2 as (body & Hb & He). exists body. split; [exact Hb|].
    rewrite <- He. symmetry.
    now apply (handler_body_reads_model _ _ _ _ _ _ _ Hb). }
  pose proof (failed_handler_call_metrics w2 a2 p2 t2 s1 e P1 H2') as M2.
  unfold metrics_after in M2. rewrite E2 in M2. simpl in M2.
  destruct M2 as (R2 & T2 & S2 & _).
  assert (P2 : 0 <= total_requests (performance_metrics s2)) by lia.
  pose proof (successful_call_metrics w3 a3 p3 t3 s2 P2) as M3.
  unfold metrics_after in M3. rewrite E3 in M3. simpl in M3.
  destruct (M3 H3) as (T3 & S3 & Rate). clear M3.
  split; [exact R2|].
  split; [reflexivity|]. split; [reflexivity|]. split; [reflexivity|].
  assert (T : total_requests (performance_metrics s3) = 3) by lia.
  assert (S : successful_trades (performance_metrics s3) = 2) by lia.
  split; [exact T|]. split; [exact S|].
  rewrite Rate, T, S. reflexivity.
Qed.

Lemma three_calls_one_handler_failure_witness :
  let cs := [rebalance_call 1; broken_call 1; rebalance_call 1] in
  let e := mkExn AttributeError "'NoneType' object has no attribute 'get'" in
  performance_metrics fresh_agent = initial_metrics /\
  reports (Returns scenario_result) true /\
  handler_raises (call_world (broken_call 1)) "rebalance" scenario_parameters
    None fresh_agent e /\
  fst (run_calls cs fresh_agent)
  = [Returns scenario_result; Returns (handler_failure e); Returns scenario_result] /\
  total_requests (performance_metrics (snd (run_calls cs fresh_agent))) = 3 /\
  successful_trades (performance_metrics (snd (run_calls cs fresh_agent))) = 2 /\
  success_rate (performance_metrics (snd (run_calls cs fresh_agent))) = (2 # 3)%Q.
Proof.
  intros cs e.
  assert (Hok : reports (Returns scenario_result) true)
    by (exists scenario_result; split; reflexivity).
  assert (Hraise : handler_raises (call_world (broken_call 1)) "rebalance"
                     scenario_parameters None fresh_agent e)
    by (eexists; split; reflexivity).
  assert (Hrun : run_calls cs fresh_agent
                 = ([Returns scenario_result; Returns (handler_failure e);
                     Returns scenario_result],
                    snd (run_calls cs fresh_agent)))
    by (vm_compute; reflexivity).
  destruct (three_calls_one_handler_failure
              (rebalance_call 1) (broken_call 1) (rebalance_call 1) fresh_agent e
              (Returns scenario_result) (Returns (handler_failure e))
              (Returns scenario_result) (snd (run_calls cs fresh_agent))
              eq_refl Hrun Hok Hraise Hok)
    as (_ & _ & _ & _ & T & S & R).
  split; [reflexivity|]. split; [exact Hok|]. split; [exact Hraise|].
  split; [rewrite Hrun; reflexivity|].
  split; [exact T|]. split; [exact S | exact R].
Defined.

(** ** The frame of a call *)

(** C8. A call of [execute_action], whatever the action, the parameters
    and the treasury data, changes no field of the agent other than
    [performance_metrics]: [agent_id], [model], [scaler], [is_trained],
    [market_data_cache] and [last_predictions] are as before, and so
    are the [optimizer] and the [criterion] made with the model. *)
Theorem execute_action_changes_only_metrics
    (w : world) (action : string) (parameters : dict)
    (treasury_data : option dict) (self : TraderAgent) :
  let self' := snd (execute_action w action parameters treasury_data self) in
  agent_id self' = agent_id self /\
  model self' = model self /\
  scaler self' = scaler self /\
  is_trained self' = is_trained self /\
  market_data_cache self' = market_data_cache self /\
  last_predictions self' = last_predictions self /\
  optimizer self' = optimizer self /\
  criterion self' = criterion self.
Proof.
  destruct (execute_action_keeps_frame w action parameters treasury_data self)
    as (H1 & H2 & H3 & H4 & H5 & H6 & H7 & H8).
  cbv zeta. repeat split; symmetry; assumption.
Qed.

(** ** The trade counter *)

Lemma execute_trade_body_reached w parameters self :
  reaches_simulation parameters ->
  exists r, execute_trade_body w parameters self = (Returns r, count_trade self).
Proof.
  intros (price & slippage & executed & total & H1 & H2 & H3 & H4).
  unfold execute_trade_body, bind, lift, update_metrics, modify, ret.
  rewrite H1, H2, H3, H4. cbn.
  destruct (Qlt_bool (5 # 100) (random_draw w)); eexists; reflexivity.
Qed.

Lemma execute_trade_body_not_reached w parameters self :
  ~ reaches_simulation parameters ->
  exists e, execute_trade_body w parameters self = (Raises e, self).
Proof.
  intros Hn.
  unfold execute_trade_body, bind, lift.
  destruct (_get_current_price (get_str parameters "asset" VNone))
    as [price|e] eqn:H1; [|eauto].
  destruct (py_mul (get_str parameters "amount" VNone) (VFloat (1 # 1000)))
    as [slippage|e] eqn:H2; [|eauto].
  destruct (py_sub (get_str parameters "amount" VNone) slippage)
    as [executed|e] eqn:H3; [|eauto].
  destruct (py_add (get_str parameters "amount" VNone) (VInt 50))
    as [total|e] eqn:H4; [|eauto].
  exfalso. apply Hn. unfold reaches_simulation. eauto 10.
Qed.

(** The update block of the dispatcher leaves the trade counter as the
    handler left it. *)
Lemma execute_action_total_trades w action parameters treasury_data self :
  total_trades (metrics_after w action parameters treasury_data self)
  = total_trades
      (performance_metrics
         (snd (dispatch w action parameters treasury_data (counted self)))).
Proof.
  unfold metrics_after.
  destruct (dispatch w action parameters treasury_data (counted self))
    as [[r|e] s'] eqn:Hd.
  - destruct (Z.eq_dec (total_requests (performance_metrics s')) 0) as [Hz|Hn].
    + unfold execute_action, bind, try_except, update_metrics, modify,
        the_metrics, read, lift, ret.
      fold (counted self). rewrite Hd. cbn. unfold div_int.
      rewrite Hz. reflexivity.
    + rewrite (execute_action_returned _ _ _ _ _ _ _ Hd Hn).
      unfold recorded. cbn.
      destruct (truthy (get_str r "success" (VBool false))); reflexivity.
  - now rewrite (execute_action_raised _ _ _ _ _ _ _ Hd).
Qed.

(** C10. A call of [execute_action] with action ["execute_trade"] whose
    parameters let the handler reach the simulated draw raises
    [total_trades] by exactly one, whether the draw makes the trade
    succeed or fail. *)
Theorem execute_trade_counts_one_trade
    (w : world) (parameters : dict) (treasury_data : option dict)
    (self : TraderAgent) :
  reaches_simulation parameters ->
  total_trades (metrics_after w "execute_trade" parameters treasury_data self)
  = total_trades (performance_metrics self) + 1.
Proof.
  intros H.
  rewrite execute_action_total_trades.
  unfold dispatch. cbn [String.eqb Ascii.eqb Bool.eqb].
  unfold _execute_trade, try_except.
  destruct (execute_trade_body_reached w parameters (counted self) H) as (r & ->).
  reflexivity.
Qed.

Lemma execute_trade_counts_one_trade_witness :
  reaches_simulation trade_parameters /\
  total_trades
    (metrics_after (world_of 1 (1 # 2)) "execute_trade" trade_parameters None
       fresh_agent) = 1 /\
  total_trades
    (metrics_after (world_of 1 (1 # 100)) "execute_trade" trade_parameters None
       fresh_agent) = 1.
Proof.
  assert (H : reaches_simulation trade_parameters)
    by (do 4 eexists; repeat split; vm_compute; reflexivity).
  split; [exact H|]. split.
  - apply (execute_trade_counts_one_trade (world_of 1 (1 # 2)) trade_parameters
             None fresh_agent H).
  - apply (execute_trade_counts_one_trade (world_of 1 (1 # 100)) trade_parameters
             None fresh_agent H).
Defined.

(** When the handler raises before the draw, the counter stays. *)
Lemma execute_trade_not_counted w parameters treasury_data self :
  ~ reaches_simulation parameters ->
  total_trades (metrics_after w "execute_trade" parameters treasury_data self)
  = total_trades (performance_metrics self).
Proof.
  intros H.
  rewrite execute_action_total_trades.
  unfold dispatch. cbn [String.eqb Ascii.eqb Bool.eqb].
  unfold _execute_trade, try_except.
  destruct (execute_trade_body_not_reached w parameters (counted self) H) as (e & ->).
  reflexivity.
Qed.

(** ** The success rate *)

Lemma run_calls_cons c cs self :
  run_calls (c :: cs) self
  = (fst (run_call c self) :: fst (run_calls cs (snd (run_call c self))),
     snd (run_calls cs (snd (run_call c self)))).
Proof.
  simpl. destruct (run_call c self) as [r s1]. simpl.
  destruct (run_calls cs s1) as [rs s2]. reflexivity.
Qed.

(** Every call is counted, whatever its outcome. *)
Lemma execute_action_total_requests w action parameters treasury_data self :
  total_requests (metrics_after w action parameters treasury_data self)
  = total_requests (performance_metrics self) + 1.
Proof.
  unfold metrics_after.
  pose proof (dispatch_only_trades w action parameters treasury_data (counted self))
    as K.
  destruct (dispatch w action parameters treasury_data (counted self))
    as [[r|e] s'] eqn:Hd; simpl in K;
    destruct K as (_ & _ & _ & _ & _ & _ & _ & K & _); simpl in K.
  - destruct (Z.eq_dec (total_requests (performance_metrics s')) 0) as [Hz|Hn].
    + unfold execute_action, bind, try_except, update_metrics, modify,
        the_metrics, read, lift, ret.
      fold (counted self). rewrite Hd. cbn. unfold div_int.
      rewrite Hz. cbn. lia.
    + rewrite (execute_action_returned _ _ _ _ _ _ _ Hd Hn).
      unfold recorded. cbn.
      destruct (truthy (get_str r "success" (VBool false))); cbn; lia.
  - rewrite (execute_action_raised _ _ _ _ _ _ _ Hd). simpl. lia.
Qed.

(** After a call that went to a handler the rate is consistent, and no
    division by zero happened on the way. *)
Lemma rate_consistent_after_registered_call w action parameters treasury_data self :
  registered action = true ->
  0 <= total_requests (performance_metrics self) ->
  rate_consistent (metrics_after w action parameters treasury_data self) /\
  0 < total_requests (metrics_after w action parameters treasury_data self).
Proof.
  intros Hreg Hpos.
  destruct (registered_call_metrics w action parameters treasury_data self Hreg Hpos)
    as (r & _ & _ & Ht & _ & _ & Hrate).
  split; [|lia].
  unfold rate_consistent. rewrite Hrate. apply Qred_correct.
Qed.

(** After a call with an unregistered action the rate is the one from
    before, while the request counter went up. *)
Lemma rate_kept_after_unregistered_call w action parameters treasury_data self :
  registered action = false ->
  let m := performance_metrics self in
  let m' := metrics_after w action parameters treasury_data self in
  success_rate m' = success_rate m /\
  avg_response_time m' = avg_response_time m /\
  successful_trades m' = successful_trades m /\
  total_requests m' = total_requests m + 1.
Proof.
  intros H. unfold metrics_after. rewrite unregistered_call by assumption.
  repeat split.
Qed.

(** C1 fails on the code.  After a successful rebalance followed by a
    call with an unregistered action the counters read
    [total_requests = 2], [successful_trades = 1], and [success_rate] is
    still 1: the [except] path of [execute_action] counts the request
    and skips the recomputation of the rate. *)
Theorem rate_is_stale_after_unknown_action :
  let m :=
    performance_metrics
      (snd (run_calls [rebalance_call 1; unknown_call 1] fresh_agent)) in
  total_requests m = 2 /\
  successful_trades m = 1 /\
  success_rate m = 1%Q /\
  ~ rate_consistent m.
Proof.
  cbv zeta. split; [vm_compute; reflexivity|].
  split; [vm_compute; reflexivity|].
  split; [vm_compute; reflexivity|].
  unfold rate_consistent.
  replace (performance_metrics
             (snd (run_calls [rebalance_call 1; unknown_call 1] fresh_agent)))
    with (mkMetrics 0 1 0 0 0 1 1 2) by (vm_compute; reflexivity).
  simpl. intros H. vm_compute in H. discriminate H.
Qed.

(** ** The average response time *)

Lemma inject_Z_succ_nonzero n : 0 <= n -> ~ (inject_Z (n + 1) == 0)%Q.
Proof.
  intros Hn H. unfold Qeq in H. simpl in H. lia.
Qed.

(** While every call goes to a handler, the stored average times the
    number of requests is the sum of the elapsed times. *)
Lemma running_mean_invariant cs : forall self,
  all_registered cs ->
  0 <= total_requests (performance_metrics self) ->
  let m := performance_metrics self in
  let m' := performance_metrics (snd (run_calls cs self)) in
  total_requests m' = total_requests m + Z.of_nat (length cs) /\
  (avg_response_time m' * inject_Z (total_requests m')
   == avg_response_time m * inject_Z (total_requests m)
      + Qsum (map elapsed cs))%Q.
Proof.
  induction cs as [|c cs IH]; intros self Hall Hpos; cbv zeta.
  - simpl. split; [lia|]. ring.
  - rewrite run_calls_cons. cbn [snd length map Qsum fold_right].
    inversion Hall as [|? ? Hc Hcs]; subst.
    destruct c as [w action parameters treasury_data]. simpl in Hc.
    unfold run_call. cbn [call_world call_action call_parameters call_treasury].
    destruct (registered_call_metrics w action parameters treasury_data self Hc Hpos)
      as (r & _ & _ & Ht & _ & Havg & _).
    unfold metrics_after in Ht, Havg.
    set (s1 := snd (execute_action w action parameters treasury_data self)) in *.
    assert (P1 : 0 <= total_requests (performance_metrics s1)) by lia.
    destruct (IH s1 Hcs P1) as [T A]. cbv zeta in T, A.
    split; [rewrite T, Ht; lia|].
    rewrite A, Havg, Ht, Qred_correct.
    change (elapsed (mkCall w action parameters treasury_data))
      with (clock_end w - clock_start w)%Q.
    change (fold_right Qplus 0%Q (map elapsed cs)) with (Qsum (map elapsed cs)).
    generalize (Qsum (map elapsed cs)) (clock_end w - clock_start w)%Q
      (avg_response_time (performance_metrics self)).
    intros rest t avg.
    field. now apply inject_Z_succ_nonzero.
Qed.

(** On a fresh agent, and while every call goes to a handler, the
    stored average is the arithmetic mean of the elapsed times. *)
Lemma average_is_mean_of_registered_calls cs self :
  performance_metrics self = initial_metrics ->
  all_registered cs ->
  cs <> [] ->
  (avg_response_time (performance_metrics (snd (run_calls cs self)))
   == mean (map elapsed cs))%Q.
Proof.
  intros Hinit Hall Hne.
  assert (Hpos : 0 <= total_requests (performance_metrics self))
    by (rewrite Hinit; simpl; lia).
  destruct (running_mean_invariant cs self Hall Hpos) as [T A].
  cbv zeta in T, A. rewrite Hinit in T, A. simpl in T, A.
  unfold mean. rewrite length_map.
  rewrite T in A.
  assert (Hn : ~ (inject_Z (Z.of_nat (length cs)) == 0)%Q).
  { intros H. unfold Qeq in H. simpl in H.
    destruct cs; [contradiction | simpl in H; lia]. }
  apply (Qmult_inj_r _ _ (inject_Z (Z.of_nat (length cs))) Hn).
  rewrite A. field. exact Hn.
Qed.

(** C2 fails on the code.  An unregistered action that took 3 seconds
    followed by a rebalance that took 1 second leaves
    [avg_response_time = 0.5], while the mean of the two elapsed times
    is 2: the [except] path of [execute_action] counts the request and
    skips the update of the average, and the next update divides by the
    full request count. *)
Theorem average_is_wrong_after_unknown_action :
  let cs := [unknown_call 3; rebalance_call 1] in
  let m := performance_metrics (snd (run_calls cs fresh_agent)) in
  total_requests m = 2 /\
  avg_response_time m = (1 # 2)%Q /\
  (mean (map elapsed cs) == 2)%Q /\
  ~ (avg_response_time m == mean (map elapsed cs))%Q.
Proof.
  cbv zeta. split; [vm_compute; reflexivity|].
  split; [vm_compute; reflexivity|].
  split; [vm_compute; reflexivity|].
  replace (avg_response_time
             (performance_metrics
                (snd (run_calls [unknown_call 3; rebalance_call 1] fresh_agent))))
    with (1 # 2)%Q by (vm_compute; reflexivity).
  intros H. vm_compute in H. discriminate H.
Qed.

(** ** The explainer never raises *)

(** C9. For every agent type, action, parameters and result, and
    whatever sklearn, shap, numpy, the formatting and the event loop
    do, [explain_decision] raises nothing and returns a string: the
    human explanation when the body runs to its end, and otherwise the
    fallback text made from the exception. *)
Theorem explain_decision_never_raises
    (w : XAI.world) (agent_type action : string) (parameters result : dict)
    (self : XAI.XAIExplainer) :
  exists text,
    fst (XAI.explain_decision w agent_type action parameters result self)
    = Returns text /\
    (forall e,
        fst (XAI.explain_body w agent_type action parameters result self)
        = Raises e ->
        text = XAI.fallback_explanation e) /\
    (forall s,
        fst (XAI.explain_body w agent_type action parameters result self)
        = Returns s ->
        text = s).
Proof.
  unfold XAI.explain_decision, try_except, ret.
  destruct (XAI.explain_body w agent_type action parameters result self)
    as [[s|e] self'] eqn:E; simpl.
  - exists s. split; [reflexivity|]. split; [discriminate | congruence].
  - exists (XAI.fallback_explanation e).
    split; [reflexivity|]. split; [congruence | discriminate].
Qed.

(** ** The rate along a sequence of calls *)

Lemma run_calls_total_requests cs : forall self,
  total_requests (performance_metrics (snd (run_calls cs self)))
  = total_requests (performance_metrics self) + Z.of_nat (length cs).
Proof.
  induction cs as [|c cs IH]; intros self.
  - simpl. lia.
  - rewrite run_calls_cons. cbn [snd length]. rewrite IH.
    unfold run_call.
    pose proof (execute_action_total_requests (call_world c) (call_action c)
                  (call_parameters c) (call_treasury c) self) as H.
    unfold metrics_after in H. rewrite H. lia.
Qed.

Lemma run_calls_snoc cs c : forall self,
  snd (run_calls (cs ++ [c]) self) = snd (run_call c (snd (run_calls cs self))).
Proof.
  induction cs as [|c0 cs IH]; intros self.
  - simpl. destruct (run_call c self). reflexivity.
  - rewrite <- app_comm_cons, !run_calls_cons. cbn [snd]. apply IH.
Qed.

(** On a fresh agent, whatever calls came before, the rate is
    consistent right after a call that went to a handler; and no call
    ever divides by zero, since the request counter is positive by
    then. *)
Lemma rate_consistent_after_any_history cs c self :
  performance_metrics self = initial_metrics ->
  registered (call_action c) = true ->
  rate_consistent (performance_metrics (snd (run_calls (cs ++ [c]) self))).
Proof.
  intros Hinit Hreg. rewrite run_calls_snoc. unfold run_call.
  apply rate_consistent_after_registered_call; [exact Hreg|].
  rewrite run_calls_total_requests, Hinit. simpl. lia.
Qed.

(** * Further properties of the dispatcher *)

Lemma ratio_bounds (a b : Z) :
  0 <= a <= b -> 0 < b -> (0 <= inject_Z a / inject_Z b <= 1)%Q.
Proof.
  intros [Ha Hab] Hb.
  assert (Hq : (0 < inject_Z b)%Q) by (unfold Qlt; simpl; lia).
  split.
  - apply Qle_shift_div_l; [exact Hq|]. rewrite Qmult_0_l.
    unfold Qle; simpl; lia.
  - apply Qle_shift_div_r; [exact Hq|]. rewrite Qmult_1_l.
    rewrite <- Zle_Qle. exact Hab.
Qed.

Lemma optimize_body_keeps_agent w parameters treasury_data :
  keeps eq (optimize_body w parameters treasury_data).
Proof.
  unfold optimize_body.
  frame_steps (@eq_refl TraderAgent) (@eq_trans TraderAgent).
Qed.

(** A handler raises the trade counter by one at most. *)
Lemma dispatch_trades_step w action parameters treasury_data self :
  total_trades
    (performance_metrics (snd (dispatch w action parameters treasury_data self)))
  <= total_trades (performance_metrics self) + 1.
Proof.
  unfold dispatch.
  destruct (action =? "optimize_portfolio").
  { unfold _optimize_portfolio, try_except, ret.
    pose proof (optimize_body_keeps_agent w parameters treasury_data self) as K.
    destruct (optimize_body w parameters treasury_data self) as [[r|e] s'];
      simpl in *; subst; lia. }
  destruct (action =? "rebalance").
  { unfold _rebalance_portfolio, try_except, lift, ret.
    destruct (rebalance_body parameters treasury_data); simpl; lia. }
  destruct (action =? "risk_analysis").
  { unfold _analyze_risk, try_except, lift, ret.
    destruct (risk_body w parameters treasury_data); simpl; lia. }
  destruct (action =? "yield_prediction").
  { unfold _predict_yield, try_except, lift, ret.
    destruct (yield_body w parameters treasury_data); simpl; lia. }
  destruct (action =? "execute_trade"); [|simpl; lia].
  unfold _execute_trade, try_except, ret.
  pose proof (execute_trade_body_only_trades w parameters self) as K.
  unfold execute_trade_body, bind, lift, update_metrics, modify, ret in *.
  destruct (_get_current_price (get_str parameters "asset" VNone)); [|simpl; lia].
  destruct (py_mul (get_str parameters "amount" VNone) (VFloat (1 # 1000)));
    [|simpl; lia].
  destruct (py_sub (get_str parameters "amount" VNone) a0); [|simpl; lia].
  destruct (py_add (get_str parameters "amount" VNone) (VInt 50)); [|simpl; lia].
  cbn. destruct (Qlt_bool (5 # 100) (random_draw w)); simpl; lia.
Qed.

Lemma call_keeps_sane w action parameters treasury_data self :
  metrics_sane (performance_metrics self) ->
  metrics_sane (metrics_after w action parameters treasury_data self).
Proof.
  intros ([S0 S1] & [T0 T1] & R).
  pose proof (execute_action_total_trades w action parameters treasury_data self)
    as Ht.
  pose proof (dispatch_trades_step w action parameters treasury_data (counted self))
    as Hstep.
  pose proof (dispatch_only_trades w action parameters treasury_data (counted self))
    as Hmono.
  destruct Hmono as (_ & _ & _ & _ & _ & _ & _ & _ & Hmono).
  simpl in Hstep, Hmono.
  destruct (registered action) eqn:Hreg.
  - assert (Hpos : 0 <= total_requests (performance_metrics self)) by lia.
    destruct (registered_call_metrics w action parameters treasury_data self Hreg Hpos)
      as (r & _ & _ & Hn & Hs & _ & Hrate).
    cbv zeta in Hn, Hs, Hrate.
    assert (Hs' : successful_trades (performance_metrics self)
                  <= successful_trades
                       (metrics_after w action parameters treasury_data self)
                  <= successful_trades (performance_metrics self) + 1)
      by (destruct (truthy (get_str r "success" (VBool false))); lia).
    split; [lia|]. split; [lia|].
    rewrite Hrate, Qred_correct. apply ratio_bounds; lia.
  - destruct (rate_kept_after_unregistered_call w action parameters treasury_data
                self Hreg) as (Hr & _ & Hs & Hn).
    split; [lia|]. split; [lia|]. now rewrite Hr.
Qed.

(** X1. Every call of [execute_action] raises [total_requests] by one,
    whatever the action and however the call ends: after a sequence of
    calls the counter has grown by the number of calls. *)
Theorem request_counter_counts_every_call (cs : list call) (self : TraderAgent) :
  total_requests (performance_metrics (snd (run_calls cs self)))
  = total_requests (performance_metrics self) + Z.of_nat (length cs).
Proof. apply run_calls_total_requests. Qed.

(** X2. The counters stay ordered along every sequence of calls:
    [0 <= successful_trades <= total_requests],
    [0 <= total_trades <= total_requests] and
    [0 <= success_rate <= 1], also after calls with unregistered
    actions and after failed handlers. *)
Theorem counters_stay_ordered (cs : list call) (self : TraderAgent) :
  metrics_sane (performance_metrics self) ->
  metrics_sane (performance_metrics (snd (run_calls cs self))).
Proof.
  revert self. induction cs as [|c cs IH]; intros self H; [exact H|].
  rewrite run_calls_cons. cbn [snd]. apply IH. unfold run_call.
  apply (call_keeps_sane (call_world c) (call_action c) (call_parameters c)
           (call_treasury c) self H).
Qed.

Lemma counters_stay_ordered_witness :
  metrics_sane (performance_metrics fresh_agent) /\
  metrics_sane
    (performance_metrics
       (snd (run_calls [trade_call 1 (1 # 2); unknown_call 1; broken_call 1;
                        trade_call 1 (1 # 100)] fresh_agent))).
Proof.
  assert (H : metrics_sane (performance_metrics fresh_agent))
    by (repeat split; simpl; first [lia | lra]).
  split; [exact H|].
  apply (counters_stay_ordered
           [trade_call 1 (1 # 2); unknown_call 1; broken_call 1;
            trade_call 1 (1 # 100)] fresh_agent H).
Defined.

(** X3. On a fresh agent, and as long as every call names a registered
    action (its handler may fail), [avg_response_time] after a
    non-empty sequence of calls is the arithmetic mean of the elapsed
    times of the calls. *)
Theorem average_of_registered_calls_is_the_mean (cs : list call) (self : TraderAgent) :
  performance_metrics self = initial_metrics ->
  all_registered cs ->
  cs <> [] ->
  (avg_response_time (performance_metrics (snd (run_calls cs self)))
   == mean (map elapsed cs))%Q.
Proof. apply average_is_mean_of_registered_calls. Qed.

Lemma average_of_registered_calls_is_the_mean_witness :
  let cs := [rebalance_call 1; broken_call 4; trade_call 1 (1 # 100)] in
  performance_metrics fresh_agent = initial_metrics /\
  all_registered cs /\
  cs <> [] /\
  (mean (map elapsed cs) == 2)%Q /\
  (avg_response_time (performance_metrics (snd (run_calls cs fresh_agent)))
   == mean (map elapsed cs))%Q.
Proof.
  intros cs.
  assert (Hall : all_registered cs) by (repeat constructor).
  assert (Hne : cs <> []) by discriminate.
  split; [reflexivity|]. split; [exact Hall|]. split; [exact Hne|].
  split; [vm_compute; reflexivity|].
  apply (average_of_registered_calls_is_the_mean cs fresh_agent eq_refl Hall Hne).
Defined.

(** X4. On a fresh agent, whatever calls came before (unregistered
    actions included), right after a call that names a registered
    action [success_rate] equals
    [successful_trades / total_requests]. *)
Theorem rate_is_restored_by_registered_call
    (cs : list call) (c : call) (self : TraderAgent) :
  performance_metrics self = initial_metrics ->
  registered (call_action c) = true ->
  rate_consistent (performance_metrics (snd (run_calls (cs ++ [c]) self))).
Proof. apply rate_consistent_after_any_history. Qed.

Lemma rate_is_restored_by_registered_call_witness :
  performance_metrics fresh_agent = initial_metrics /\
  registered (call_action (broken_call 1)) = true /\
  rate_consistent
    (performance_metrics
       (snd (run_calls ([rebalance_call 1; unknown_call 1] ++ [broken_call 1])
               fresh_agent))).
Proof.
  split; [reflexivity|]. split; [reflexivity|].
  apply (rate_is_restored_by_registered_call [rebalance_call 1; unknown_call 1]
           (broken_call 1) fresh_agent eq_refl eq_refl).
Defined.

(** X5. A call with an unregistered action changes the agent in one
    place only: [total_requests] goes up by one; every other metric and
    every other attribute is as before. *)
Theorem unregistered_call_only_counts_the_request
    (w : world) (action : string) (parameters : dict)
    (treasury_data : option dict) (self : TraderAgent) :
  registered action = false ->
  snd (execute_action w action parameters treasury_data self)
  = set_performance_metrics
      (set_total_requests (total_requests (performance_metrics self) + 1)
         (performance_metrics self)) self.
Proof.
  intros H. rewrite unregistered_call by assumption. reflexivity.
Qed.

Lemma unregistered_call_only_counts_the_request_witness :
  registered "liquidate" = false /\
  snd (execute_action (world_of 1 (1 # 2)) "liquidate" [] None fresh_agent)
  = set_performance_metrics
      (set_total_requests 1 (performance_metrics fresh_agent)) fresh_agent.
Proof.
  split; [reflexivity|].
  apply (unregistered_call_only_counts_the_request (world_of 1 (1 # 2))
           "liquidate" [] None fresh_agent eq_refl).
Defined.

(** * Further properties of rebalancing *)

Lemma numeric_qval v : numeric v = true -> num_of v = Some (qval v).
Proof. unfold numeric, qval. destruct (num_of v); [reflexivity | discriminate]. Qed.

Lemma int_of_num_of v z : int_of v = Some z -> num_of v = Some (inject_Z z).
Proof. destruct v; simpl; try discriminate; now intros [= ->]. Qed.

Lemma Qlt_bool_compat (x x' y y' : Q) :
  (x == x')%Q -> (y == y')%Q -> Qlt_bool x y = Qlt_bool x' y'.
Proof.
  intros Hx Hy.
  destruct (Qlt_bool x y) eqn:E1, (Qlt_bool x' y') eqn:E2; try reflexivity.
  - apply Qlt_bool_iff in E1. rewrite Hx, Hy in E1.
    apply Qlt_bool_iff in E1. congruence.
  - apply Qlt_bool_iff in E2. rewrite <- Hx, <- Hy in E2.
    apply Qlt_bool_iff in E2. congruence.
Qed.

Lemma arith_qval name fz fq a b :
  (forall x y, (inject_Z (fz x y) == fq (inject_Z x) (inject_Z y))%Q) ->
  converts a = true -> converts b = true ->
  exists v,
    arith name fz fq a b = Returns v /\ numeric v = true /\
    (qval v == fq (qval a) (qval b))%Q.
Proof.
  intros Hf Ha Hb. unfold arith.
  rewrite (converts_to_float a Ha), (converts_to_float b Hb).
  destruct (int_of a) as [x|] eqn:Ia, (int_of b) as [y|] eqn:Ib; cbn [obind];
    try (eexists; split; [reflexivity|]; split; [reflexivity|];
         apply Qred_correct).
  eexists. split; [reflexivity|]. split; [reflexivity|].
  unfold qval. rewrite (int_of_num_of _ _ Ia), (int_of_num_of _ _ Ib).
  apply Hf.
Qed.

Lemma py_sub_qval a b :
  converts a = true -> converts b = true ->
  exists v, py_sub a b = Returns v /\ numeric v = true /\
            (qval v == qval a - qval b)%Q.
Proof.
  apply arith_qval. intros x y. unfold Z.sub, Qminus.
  now rewrite inject_Z_plus, inject_Z_opp.
Qed.

Lemma py_add_qval a b :
  converts a = true -> converts b = true ->
  exists v, py_add a b = Returns v /\ numeric v = true /\
            (qval v == qval a + qval b)%Q.
Proof.
  apply arith_qval. intros x y. now rewrite inject_Z_plus.
Qed.

Lemma py_mul_qval a b :
  converts a = true -> converts b = true ->
  exists v, py_mul a b = Returns v /\ numeric v = true /\
            (qval v == qval a * qval b)%Q.
Proof.
  intros Ha Hb.
  rewrite (py_mul_is_arith a b (converts_numeric a Ha) (converts_numeric b Hb)).
  apply arith_qval; [|exact Ha|exact Hb].
  intros x y. now rewrite inject_Z_mult.
Qed.

(** A product with a [float] is a [float]. *)
Lemma py_mul_float a q :
  converts a = true ->
  exists r, py_mul a (VFloat q) = Returns (VFloat r) /\ (r == qval a * q)%Q.
Proof.
  intros Ha.
  rewrite (py_mul_is_arith a (VFloat q) (converts_numeric a Ha) eq_refl).
  unfold arith. rewrite (converts_to_float a Ha). cbn [int_of to_float obind].
  destruct (int_of a); eexists; (split; [reflexivity|]); apply Qred_correct.
Qed.

Lemma py_abs_qval a :
  numeric a = true ->
  exists v, py_abs a = Returns v /\ numeric v = true /\
            (qval v == Qabs (qval a))%Q.
Proof.
  destruct a as [|b|z|q|s|l|d]; try discriminate; intros _.
  - eexists. split; [reflexivity|]. split; [reflexivity|]. now destruct b.
  - eexists. split; [reflexivity|]. split; reflexivity.
  - eexists. split; [reflexivity|]. split; [reflexivity|]. apply Qred_correct.
Qed.

Lemma py_gt_qval a b :
  numeric a = true -> numeric b = true ->
  py_gt a b = Returns (Qlt_bool (qval b) (qval a)).
Proof.
  intros Ha Hb. unfold py_gt.
  now rewrite (numeric_qval a Ha), (numeric_qval b Hb).
Qed.

(** ** Numbers within a bound *)

Lemma within_converts c v : within c v -> c < float_limit -> converts v = true.
Proof.
  intros [Hn Hb] Hc.
  destruct v as [|b|z|q|s|l|d]; try discriminate; try reflexivity.
  cbn [converts]. apply Z.ltb_lt.
  unfold qval in Hb. cbn [num_of] in Hb.
  assert (Z.abs z <= c); [|lia].
  unfold Qle in Hb. cbn in Hb. lia.
Qed.

Lemma within_le c c' v : within c v -> c <= c' -> within c' v.
Proof.
  intros [Hn Hb] Hc. split; [exact Hn|].
  eapply Qle_trans; [exact Hb|]. now rewrite <- Zle_Qle.
Qed.

Lemma ordinary_within v : ordinary v = true -> within ordinary_bound v.
Proof.
  unfold ordinary, within, numeric, qval.
  destruct (num_of v); [|discriminate].
  intros H. split; [reflexivity|]. now apply Qle_bool_iff.
Qed.

Lemma within_zero c : 0 <= c -> within c (VInt 0).
Proof.
  intros H. split; [reflexivity|].
  change (Qabs (qval (VInt 0))) with (inject_Z 0). now rewrite <- Zle_Qle.
Qed.

Lemma ordinary_bound_fits : 2 * ordinary_bound * ordinary_bound < float_limit.
Proof. reflexivity. Qed.

Lemma ordinary_bound_positive : 0 < ordinary_bound.
Proof. reflexivity. Qed.

Lemma within_diff a b x y v :
  within a x -> within b y -> numeric v = true ->
  (qval v == qval x - qval y)%Q -> within (a + b) v.
Proof.
  intros [_ Hx] [_ Hy] Hn E. split; [exact Hn|].
  rewrite E, inject_Z_plus.
  eapply Qle_trans; [apply Qabs_triangle|].
  rewrite Qabs_opp. apply Qplus_le_compat; assumption.
Qed.

Lemma within_sum a b x y v :
  within a x -> within b y -> numeric v = true ->
  (qval v == qval x + qval y)%Q -> within (a + b) v.
Proof.
  intros [_ Hx] [_ Hy] Hn E. split; [exact Hn|].
  rewrite E, inject_Z_plus.
  eapply Qle_trans; [apply Qabs_triangle|].
  apply Qplus_le_compat; assumption.
Qed.

Lemma within_product a b x y v :
  within a x -> within b y -> numeric v = true ->
  (qval v == qval x * qval y)%Q -> within (a * b) v.
Proof.
  intros [_ Hx] [_ Hy] Hn E. split; [exact Hn|].
  rewrite E, inject_Z_mult, Qabs_Qmult.
  pose proof (Qabs_nonneg (qval x)). pose proof (Qabs_nonneg (qval y)).
  eapply Qle_trans.
  - apply Qmult_le_compat_r; [exact Hx | assumption].
  - rewrite (Qmult_comm (inject_Z a)), (Qmult_comm (inject_Z a)).
    apply Qmult_le_compat_r; [exact Hy|].
    eapply Qle_trans; [|exact Hx]. assumption.
Qed.

Lemma lookup_ordinary k (d : dict) v :
  Forall (fun kv => ordinary (snd kv) = true) d ->
  lookup k d = Some v -> ordinary v = true.
Proof.
  induction 1 as [|[k' v'] d Hv _ IH]; simpl; [discriminate|].
  destruct (key_eqb k k'); [intros [= <-]; exact Hv | exact IH].
Qed.

(** ** The loop of [_rebalance_portfolio] *)

(** The loop on dicts of numbers of ordinary size: it appends one
    matching trade for every target that needs one, in the order of
    the targets, and adds their amounts to the running total, which
    stays below the largest float. *)
Lemma rebalance_loop_spec held total_value parameters :
  Forall (fun kv => ordinary (snd kv) = true) held ->
  ordinary total_value = true ->
  numeric (get_str parameters "min_trade_size" (VInt 1000)) = true ->
  forall items trades total c,
    Forall (fun kv => hashable (fst kv) = true /\ ordinary (snd kv) = true) items ->
    within c total -> 0 <= c ->
    c + Z.of_nat (length items) * trade_bound < float_limit ->
    let wanted :=
      filter (needs_trade held total_value
                (get_str parameters "min_trade_size" (VInt 1000))) items in
    exists added total',
      rebalance_loop items (VDict held) total_value parameters trades total
      = Returns ((trades ++ added)%list, total') /\
      Forall2 (trade_matches held total_value) wanted added /\
      within (c + Z.of_nat (length items) * trade_bound) total' /\
      (wanted = [] -> total' = total) /\
      (qval total'
       == qval total
          + Qsum (map (fun item => Qabs (drift_value held total_value item)) wanted))%Q.
Proof.
  intros Hheld Htv Hmin.
  set (min_size := get_str parameters "min_trade_size" (VInt 1000)) in *.
  pose proof ordinary_bound_fits as Hfit.
  pose proof ordinary_bound_positive as Hpos.
  assert (Htb : trade_bound = 2 * ordinary_bound * ordinary_bound) by reflexivity.
  assert (Wtv := ordinary_within _ Htv).
  induction items as [|[asset target_pct] items IH];
    intros trades total c Hitems Htotal Hc Hroom; cbv zeta.
  - exists [], total. cbn. rewrite app_nil_r.
    split; [reflexivity|]. split; [constructor|].
    split; [eapply within_le; [exact Htotal | lia]|].
    split; [reflexivity | ring].
  - inversion Hitems as [|? ? [Hk Ht] Hrest]; subst. simpl in Hk, Ht.
    rewrite length_cons, Nat2Z.inj_succ in Hroom |- *.
    cbn [rebalance_loop py_get]. unfold dict_get. rewrite Hk. cbn [obind].
    set (current_pct := match lookup asset held with
                        | Some v => v
                        | None => VInt 0
                        end).
    assert (Wc : within ordinary_bound current_pct).
    { subst current_pct. destruct (lookup asset held) eqn:E.
      - apply ordinary_within. eapply lookup_ordinary; eauto.
      - apply within_zero. lia. }
    assert (Wt := ordinary_within _ Ht).
    destruct (py_sub_qval target_pct current_pct)
      as (difference & E1 & N1 & Q1);
      [apply (within_converts _ _ Wt); nia
      |apply (within_converts _ _ Wc); nia|].
    rewrite E1. cbn [obind].
    assert (Wd := within_diff _ _ _ _ _ Wt Wc N1 Q1).
    destruct (py_mul_qval difference total_value)
      as (trade_value & E2 & N2 & Q2);
      [apply (within_converts _ _ Wd); nia
      |apply (within_converts _ _ Wtv); nia|].
    rewrite E2. cbn [obind].
    assert (Wv := within_product _ _ _ _ _ Wd Wtv N2 Q2).
    assert (Qd : (qval trade_value
                  == drift_value held total_value (asset, target_pct))%Q).
    { rewrite Q2, Q1. reflexivity. }
    destruct (py_abs_qval trade_value N2) as (size & E3 & N3 & Q3).
    rewrite E3. cbn [obind].
    assert (Ws : within trade_bound size).
    { split; [exact N3|]. rewrite Q3, (Qabs_pos _ (Qabs_nonneg _)).
      destruct Wv as [_ Wv]. eapply Qle_trans; [exact Wv|].
      rewrite <- Zle_Qle. lia. }
    fold min_size. rewrite (py_gt_qval size min_size N3 Hmin). cbn [obind].
    assert (Eb : Qlt_bool (qval min_size) (qval size)
                 = needs_trade held total_value min_size (asset, target_pct)).
    { unfold needs_trade. apply Qlt_bool_compat; [reflexivity|].
      now rewrite Q3, Qd. }
    rewrite Eb. cbn [filter].
    destruct (needs_trade held total_value min_size (asset, target_pct)) eqn:En.
    + rewrite (py_gt_qval trade_value (VInt 0) N2 eq_refl). cbn [obind].
      destruct (py_add_qval total size) as (total1 & E6 & N6 & Q6);
        [apply (within_converts _ _ Htotal); nia
        |apply (within_converts _ _ Ws); nia|].
      rewrite E6. cbn [obind].
      assert (W1 := within_sum _ _ _ _ _ Htotal Ws N6 Q6).
      destruct (IH (trades ++
                    [mk_trade asset
                       (if Qlt_bool (qval (VInt 0)) (qval trade_value)
                        then "buy" else "sell") size current_pct target_pct])%list
                  total1 (c + trade_bound) Hrest W1)
        as (added & total' & Hrun & Hmatch & Wt' & _ & Hsum); [nia | nia |].
      eexists (_ :: added), total'.
      rewrite Hrun, <- app_assoc. split; [reflexivity|].
      split; [|split; [|split; [discriminate|]]].
      * constructor; [|exact Hmatch].
        exists size, current_pct. split; [|split; [exact N3|]].
        -- f_equal. cbn [fst snd].
           change (qval (VInt 0)) with 0%Q.
           rewrite (Qlt_bool_compat 0 0 _ _ (Qeq_refl _) Qd). reflexivity.
        -- now rewrite Q3, Qd.
      * eapply within_le; [exact Wt'|]. nia.
      * rewrite Hsum, Q6, Q3, Qd. cbn [map]. unfold Qsum. cbn [fold_right]. ring.
    + destruct (IH trades total c Hrest Htotal Hc)
        as (added & total' & Hrun & Hmatch & Wt' & Hsame & Hsum); [nia|].
      exists added, total'.
      split; [exact Hrun|]. split; [exact Hmatch|].
      split; [eapply within_le; [exact Wt'|]; nia|].
      split; assumption.
Qed.

Lemma trade_matches_assets held total_value wanted trades :
  Forall2 (trade_matches held total_value) wanted trades ->
  map_outcome trade_asset trades = Returns (map fst wanted).
Proof.
  induction 1 as [|item trade wanted trades (amount & cur & -> & _) _ IH];
    [reflexivity|].
  cbn. rewrite IH. reflexivity.
Qed.

Lemma trade_matches_length held total_value wanted trades :
  Forall2 (trade_matches held total_value) wanted trades ->
  length trades = length wanted.
Proof. induction 1; simpl; congruence. Qed.

(** What the [try] block of [_rebalance_portfolio] returns on numbers. *)
Lemma rebalance_body_on_numbers parameters treasury targets held :
  numbers_to_rebalance parameters treasury targets held ->
  let total_value := get_str treasury "total_value_usd" (VInt 0) in
  let wanted := wanted_trades parameters treasury targets held in
  exists trades total gas slippage,
    rebalance_body parameters (Some treasury)
    = Returns
        [ (VStr "success", VBool true);
          (VStr "action", VStr "rebalance");
          (VStr "trades", VList trades);
          (VStr "total_trades", py_len trades);
          (VStr "total_trade_value", total);
          (VStr "estimated_gas", gas);
          (VStr "estimated_slippage", slippage);
          (VStr "confidence", VFloat (85 # 100));
          (VStr "execution_plan",
            VDict
              [ (VStr "execution_order", VList (map fst wanted));
                (VStr "estimated_time", VInt (Z.of_nat (length trades) * 2));
                (VStr "batch_size", VInt (Z.min 3 (Z.of_nat (length trades))));
                (VStr "priority", VStr "normal") ]) ] /\
    Forall2 (trade_matches held total_value) wanted trades /\
    (wanted = [] -> total = VInt 0) /\
    (qval total
     == Qsum (map (fun item => Qabs (drift_value held total_value item)) wanted))%Q /\
    (qval gas
     == inject_Z (Z.of_nat (length trades)) * (1 # 100) * qval total_value)%Q /\
    (qval slippage == qval total * (5 # 1000))%Q.
Proof.
  intros (Htargets & Hheld & Ft & Fh & Otv & Nmin & Hlen). cbv zeta.
  pose proof ordinary_bound_fits as Hfit.
  pose proof ordinary_bound_positive as Hpos.
  assert (Htb : trade_bound = 2 * ordinary_bound * ordinary_bound) by reflexivity.
  assert (Hroom : 0 + Z.of_nat (length targets) * trade_bound < float_limit).
  { assert (H63 : 2 ^ 63 * trade_bound < float_limit) by reflexivity.
    assert (0 <= trade_bound) by nia.
    assert (Z.of_nat (length targets) * trade_bound <= 2 ^ 63 * trade_bound)
      by (apply Z.mul_le_mono_nonneg_r; lia).
    lia. }
  unfold rebalance_body. rewrite Htargets.
  cbn [opt_dict py_get dict_get hashable obind py_items].
  fold (get_str treasury "current_allocations" (VDict [])).
  fold (get_str treasury "total_value_usd" (VInt 0)).
  rewrite Hheld.
  destruct (rebalance_loop_spec held _ parameters Fh Otv Nmin targets []
              (VInt 0) 0 Ft (within_zero 0 (Z.le_refl 0)) (Z.le_refl 0) Hroom)
    as (trades & total & E & Hm & Wt & Hsame & Hsum).
  fold (wanted_trades parameters treasury targets held) in Hm, Hsame, Hsum.
  cbn [app] in E. rewrite E. cbn [obind].
  assert (Hl : Z.of_nat (length trades) < float_limit).
  { rewrite (trade_matches_length _ _ _ _ Hm).
    pose proof (filter_length_le
                  (needs_trade held (get_str treasury "total_value_usd" (VInt 0))
                     (get_str parameters "min_trade_size" (VInt 1000))) targets)
      as Hle.
    fold (wanted_trades parameters treasury targets held) in Hle.
    assert (2 ^ 63 < float_limit) by reflexivity. lia. }
  destruct (py_mul_float (py_len trades) (1 # 100)) as (gas_rate & E1 & Q1).
  { cbn [py_len converts]. apply Z.ltb_lt. lia. }
  rewrite E1. cbn [obind].
  destruct (py_mul_qval (VFloat gas_rate) (get_str treasury "total_value_usd" (VInt 0)))
    as (gas & E2 & _ & Q2);
    [reflexivity | apply (within_converts _ _ (ordinary_within _ Otv)); nia|].
  rewrite E2. cbn [obind].
  destruct (py_mul_float total (5 # 1000)) as (slippage & E3 & Q3);
    [apply (within_converts _ _ Wt); exact Hroom|].
  rewrite E3. cbn [obind].
  unfold _create_execution_plan.
  rewrite (trade_matches_assets _ _ _ _ Hm). cbn [obind].
  exists trades, total, gas, (VFloat slippage).
  split; [reflexivity|]. split; [exact Hm|]. split; [exact Hsame|].
  split; [rewrite Hsum; change (qval (VInt 0)) with 0%Q; ring|].
  split; [rewrite Q2; change (qval (VFloat gas_rate)) with gas_rate; rewrite Q1;
          reflexivity
         | change (qval (VFloat slippage)) with slippage; rewrite Q3; reflexivity].
Qed.

Lemma slack_nonneg scale : (0 <= scale)%Q -> (0 <= slack scale)%Q.
Proof.
  intros H. unfold slack.
  assert (0 <= scale * (1 # 10 ^ 12))%Q
    by (apply Qmult_le_0_compat; [exact H | discriminate]).
  assert (0 <= 1 # 10 ^ 300)%Q by discriminate.
  lra.
Qed.

(** A target that is clear of the minimum trade size is strictly above
    it when it is traded and strictly below it when it is not. *)
Lemma clear_decision held total_value min_size item :
  clear_of_threshold held total_value min_size item ->
  if needs_trade held total_value min_size item
  then (qval min_size < Qabs (drift_value held total_value item))%Q
  else (Qabs (drift_value held total_value item) < qval min_size)%Q.
Proof.
  unfold clear_of_threshold, needs_trade. cbv zeta.
  set (value := Qabs (drift_value held total_value item)).
  set (scale := ((Qabs (qval (snd item)) + Qabs (held_share held (fst item)))
                 * Qabs (qval total_value) + Qabs (qval min_size))%Q).
  assert (Hs : (0 <= slack scale)%Q).
  { apply slack_nonneg. subst scale.
    pose proof (Qabs_nonneg (qval (snd item))).
    pose proof (Qabs_nonneg (held_share held (fst item))).
    pose proof (Qabs_nonneg (qval total_value)).
    pose proof (Qabs_nonneg (qval min_size)).
    assert (0 <= (Qabs (qval (snd item)) + Qabs (held_share held (fst item)))
                 * Qabs (qval total_value))%Q
      by (apply Qmult_le_0_compat; lra).
    lra. }
  intros [Hlow|Hhigh].
  - destruct (Qlt_bool (qval min_size) value) eqn:E; [|lra].
    apply Qlt_bool_iff in E. lra.
  - destruct (Qlt_bool (qval min_size) value) eqn:E; [lra|].
    assert (value <= qval min_size)%Q; [|lra].
    apply Qnot_lt_le. intros Hlt. apply Qlt_bool_iff in Hlt. congruence.
Qed.

(** X6. On dicts of numbers of ordinary size whose values to move are
    clear of the minimum trade size, [_rebalance_portfolio] succeeds
    and emits exactly one trade for every target asset whose value to
    move, [(target - current) * total_value], exceeds [min_trade_size]
    (default 1000) in absolute value, and none for the others, whose
    values are below it.  The trades come in the order of the targets,
    an asset that is not held counts as held at 0, a positive value to
    move is a buy and a negative one a sell, the amount is the absolute
    value, and the execution plan lists the traded assets in the same
    order.  (A target within rounding of the minimum trade size can go
    either way, and an [int] too large for a float makes the handler
    fail: such requests are not covered.) *)
Theorem rebalance_trades_the_drifted_targets
    (parameters treasury targets held : dict) (self : TraderAgent) :
  numbers_to_rebalance parameters treasury targets held ->
  clear_rebalance parameters treasury targets held ->
  let total_value := get_str treasury "total_value_usd" (VInt 0) in
  let min_size := get_str parameters "min_trade_size" (VInt 1000) in
  let wanted := wanted_trades parameters treasury targets held in
  exists r trades plan,
    _rebalance_portfolio parameters (Some treasury) self = (Returns r, self) /\
    field r "success" = Some (VBool true) /\
    field r "trades" = Some (VList trades) /\
    Forall2 (trade_matches held total_value) wanted trades /\
    Forall (fun item =>
              if needs_trade held total_value min_size item
              then (qval min_size < Qabs (drift_value held total_value item))%Q
                   /\ ~ (drift_value held total_value item == 0)%Q
              else (Qabs (drift_value held total_value item) < qval min_size)%Q)
      targets /\
    field r "total_trades" = Some (VInt (Z.of_nat (length wanted))) /\
    field r "execution_plan" = Some (VDict plan) /\
    field plan "execution_order" = Some (VList (map fst wanted)).
Proof.
  intros H [Hmin Hclear]. cbv zeta.
  destruct (rebalance_body_on_numbers parameters treasury targets held H)
    as (trades & total & gas & slippage & E & Hm & _).
  cbv zeta in E, Hm.
  unfold _rebalance_portfolio, try_except, lift. rewrite E.
  eexists. exists trades. eexists.
  split; [reflexivity|]. split; [reflexivity|]. split; [reflexivity|].
  split; [exact Hm|].
  split.
  { eapply Forall_impl; [|exact Hclear]. intros item Hc.
    apply clear_decision in Hc.
    destruct (needs_trade held (get_str treasury "total_value_usd" (VInt 0))
                (get_str parameters "min_trade_size" (VInt 1000)) item);
      [|exact Hc].
    split; [exact Hc|]. intros Hz. rewrite Hz in Hc. simpl in Hc. lra. }
  split; [|split; reflexivity].
  unfold field, py_len. cbn.
  now rewrite (trade_matches_length _ _ _ _ Hm).
Qed.

Lemma rebalance_trades_the_drifted_targets_witness :
  let targets := [ (VStr "A", VFloat (6 # 10)); (VStr "B", VFloat (4 # 10)) ] in
  let held := [ (VStr "A", VFloat (5 # 10)); (VStr "B", VFloat (5 # 10)) ] in
  numbers_to_rebalance scenario_parameters scenario_treasury targets held /\
  clear_rebalance scenario_parameters scenario_treasury targets held /\
  wanted_trades scenario_parameters scenario_treasury targets held = targets /\
  exists r trades plan,
    _rebalance_portfolio scenario_parameters (Some scenario_treasury) fresh_agent
    = (Returns r, fresh_agent) /\
    field r "success" = Some (VBool true) /\
    field r "trades" = Some (VList trades) /\
    Forall2 (trade_matches held (VInt 10000)) targets trades /\
    field r "total_trades" = Some (VInt 2) /\
    field r "execution_plan" = Some (VDict plan) /\
    field plan "execution_order" = Some (VList [VStr "A"; VStr "B"]).
Proof.
  intros targets held.
  assert (H : numbers_to_rebalance scenario_parameters scenario_treasury
                targets held)
    by (repeat split; repeat constructor).
  assert (C : clear_rebalance scenario_parameters scenario_treasury targets held).
  { split; [discriminate|].
    repeat constructor; right; vm_compute; reflexivity. }
  split; [exact H|]. split; [exact C|]. split; [vm_compute; reflexivity|].
  destruct (rebalance_trades_the_drifted_targets scenario_parameters
              scenario_treasury targets held fresh_agent H C)
    as (r & trades & plan & H1 & H2 & H3 & H4 & _ & H5 & H6 & H7).
  exists r, trades, plan. repeat split; assumption.
Defined.

Lemma trade_amounts_add_up held total_value wanted trades :
  Forall2 (trade_matches held total_value) wanted trades ->
  (Qsum (map trade_amount trades)
   == Qsum (map (fun item => Qabs (drift_value held total_value item)) wanted))%Q.
Proof.
  induction 1 as [|item trade wanted trades (amount & cur & -> & _ & Ha) _ IH];
    [reflexivity|].
  cbn [map]. unfold Qsum in *. cbn [fold_right]. rewrite IH.
  unfold trade_amount, mk_trade, field_value, field. cbn [lookup key_eqb String.eqb Ascii.eqb Bool.eqb].
  rewrite Ha. reflexivity.
Qed.

(** X7. In the result of a rebalance over numbers of ordinary size,
    [total_trade_value] is the sum of the amounts of the trades that
    the result lists, [estimated_slippage] is 0.5% of it, and
    [estimated_gas] is 1% of the total portfolio value for each of
    these trades. *)
Theorem rebalance_costs
    (parameters treasury targets held : dict) (self : TraderAgent) :
  numbers_to_rebalance parameters treasury targets held ->
  let total_value := get_str treasury "total_value_usd" (VInt 0) in
  exists r trades,
    fst (_rebalance_portfolio parameters (Some treasury) self) = Returns r /\
    field r "trades" = Some (VList trades) /\
    (field_value r "total_trade_value" == Qsum (map trade_amount trades))%Q /\
    (field_value r "estimated_slippage"
     == (5 # 1000) * field_value r "total_trade_value")%Q /\
    (field_value r "estimated_gas"
     == inject_Z (Z.of_nat (length trades)) * (1 # 100) * qval total_value)%Q.
Proof.
  intros H. cbv zeta.
  destruct (rebalance_body_on_numbers parameters treasury targets held H)
    as (trades & total & gas & slippage & E & Hm & _ & Hsum & Hgas & Hslip).
  cbv zeta in E, Hm, Hsum, Hgas.
  unfold _rebalance_portfolio, try_except, lift. rewrite E.
  eexists. exists trades. split; [reflexivity|]. split; [reflexivity|].
  unfold field_value, field. cbn.
  split; [rewrite Hsum; symmetry; apply (trade_amounts_add_up _ _ _ _ Hm)|].
  split; [rewrite Hslip; ring | exact Hgas].
Qed.

Lemma rebalance_costs_witness :
  let targets := [ (VStr "A", VFloat (6 # 10)); (VStr "B", VFloat (4 # 10)) ] in
  let held := [ (VStr "A", VFloat (5 # 10)); (VStr "B", VFloat (5 # 10)) ] in
  numbers_to_rebalance scenario_parameters scenario_treasury targets held /\
  exists r,
    fst (_rebalance_portfolio scenario_parameters (Some scenario_treasury)
           fresh_agent) = Returns r /\
    (field_value r "total_trade_value" == 2000)%Q /\
    (field_value r "estimated_slippage"
     == (5 # 1000) * field_value r "total_trade_value")%Q /\
    (field_value r "estimated_gas" == 200)%Q.
Proof.
  intros targets held.
  assert (H : numbers_to_rebalance scenario_parameters scenario_treasury
                targets held)
    by (repeat split; repeat constructor).
  split; [exact H|].
  destruct (rebalance_costs scenario_parameters scenario_treasury targets held
              fresh_agent H) as (r & trades & Hr & Ht & Hv & Hs & Hg).
  exists r. split; [exact Hr|].
  assert (E : forall r',
             fst (_rebalance_portfolio scenario_parameters
                    (Some scenario_treasury) fresh_agent) = Returns r' ->
             field r' "trades" = Some (VList [buy_A; sell_B]))
    by (intros r'; vm_compute; intros [= <-]; reflexivity).
  rewrite (E r Hr) in Ht. injection Ht as <-.
  split; [rewrite Hv; vm_compute; reflexivity|].
  split; [exact Hs|]. rewrite Hg. vm_compute. reflexivity.
Defined.

Lemma no_drift_needs_no_trade held total_value min_size items :
  (0 <= qval min_size)%Q ->
  Forall (fun item => (qval (snd item) == held_share held (fst item))%Q) items ->
  filter (needs_trade held total_value min_size) items = [].
Proof.
  intros Hmin. induction 1 as [|item items Heq _ IH]; [reflexivity|].
  cbn [filter]. rewrite IH.
  assert (E : needs_trade held total_value min_size item = false).
  { unfold needs_trade, drift_value.
    destruct (Qlt_bool (qval min_size)
                (Qabs ((qval (snd item) - held_share held (fst item))
                       * qval total_value))) eqn:E; [|reflexivity].
    apply Qlt_bool_iff in E. exfalso.
    assert (Z : ((qval (snd item) - held_share held (fst item)) * qval total_value
                 == 0)%Q) by (rewrite Heq; ring).
    rewrite Z in E. simpl in E. lra. }
  now rewrite E.
Qed.

(** X8. When every target equals the share that is held (an asset that
    is not held counting as 0) and [min_trade_size] is not negative,
    the rebalance over numbers of ordinary size succeeds with an empty
    trade list, an empty execution order and [total_trade_value = 0]:
    nothing is traded, whatever the total value within that size. *)
Theorem rebalance_at_target_trades_nothing
    (parameters treasury targets held : dict) (self : TraderAgent) :
  numbers_to_rebalance parameters treasury targets held ->
  (0 <= qval (get_str parameters "min_trade_size" (VInt 1000)))%Q ->
  Forall (fun item => (qval (snd item) == held_share held (fst item))%Q) targets ->
  exists r plan,
    fst (_rebalance_portfolio parameters (Some treasury) self) = Returns r /\
    field r "success" = Some (VBool true) /\
    field r "trades" = Some (VList []) /\
    field r "total_trades" = Some (VInt 0) /\
    field r "total_trade_value" = Some (VInt 0) /\
    field r "execution_plan" = Some (VDict plan) /\
    field plan "execution_order" = Some (VList []).
Proof.
  intros H Hmin Hat.
  destruct (rebalance_body_on_numbers parameters treasury targets held H)
    as (trades & total & gas & slippage & E & Hm & Hsame & _).
  cbv zeta in E, Hm, Hsame.
  assert (W : wanted_trades parameters treasury targets held = [])
    by (now apply no_drift_needs_no_trade).
  rewrite W in *. inversion Hm; subst. rewrite (Hsame eq_refl) in E.
  unfold _rebalance_portfolio, try_except, lift. rewrite E.
  eexists. eexists. repeat split.
Qed.

Lemma rebalance_at_target_trades_nothing_witness :
  let parameters :=
    [ (VStr "target_allocations",
        VDict [ (VStr "A", VFloat (1 # 2)); (VStr "B", VFloat (1 # 2));
                (VStr "C", VInt 0) ]) ] in
  let held := [ (VStr "A", VFloat (5 # 10)); (VStr "B", VFloat (5 # 10)) ] in
  let targets :=
    [ (VStr "A", VFloat (1 # 2)); (VStr "B", VFloat (1 # 2)); (VStr "C", VInt 0) ] in
  numbers_to_rebalance parameters scenario_treasury targets held /\
  exists r,
    fst (_rebalance_portfolio parameters (Some scenario_treasury) fresh_agent)
    = Returns r /\
    field r "trades" = Some (VList []).
Proof.
  intros parameters held targets.
  assert (H : numbers_to_rebalance parameters scenario_treasury targets held)
    by (repeat split; repeat constructor).
  split; [exact H|].
  destruct (rebalance_at_target_trades_nothing parameters scenario_treasury
              targets held fresh_agent H)
    as (r & plan & Hr & _ & Ht & _).
  - vm_compute. discriminate.
  - repeat constructor; vm_compute; reflexivity.
  - exists r. split; assumption.
Defined.

(** * Further properties of trade execution *)

Lemma current_price_is_positive asset :
  hashable asset = true ->
  exists q, _get_current_price asset = Returns (VFloat q) /\ (0 < q)%Q.
Proof.
  intros H. unfold _get_current_price, dict_get. rewrite H.
  unfold prices. cbn [lookup].
  destruct (key_eqb asset (VStr "ETH")); [eexists; split; [reflexivity|lra]|].
  destruct (key_eqb asset (VStr "USDC")); [eexists; split; [reflexivity|lra]|].
  destruct (key_eqb asset (VStr "AAVE")); [eexists; split; [reflexivity|lra]|].
  destruct (key_eqb asset (VStr "UNI")); eexists; split; try reflexivity; lra.
Qed.

(** X9. For an [amount] that is a number which converts to a float (a
    float, a bool, or an int below the float limit; of any sign: the
    handler does not check it) and a hashable [asset], a simulated
    trade whose draw exceeds 0.05 succeeds with
    [slippage = amount / 1000],
    [executed_amount + slippage = requested_amount = amount],
    [total_cost = amount + 50] and a positive [execution_price] (100
    for an asset without a listed price); the equalities are those of
    exact arithmetic, which the floats of the program follow up to
    rounding.  (An int beyond the float limit makes the handler
    fail.) *)
Theorem accepted_trade_amounts_add_up
    (w : world) (parameters : dict) (treasury_data : option dict)
    (self : TraderAgent) :
  valid_trade parameters ->
  (5 # 100 < random_draw w)%Q ->
  let amount := qval (get_str parameters "amount" VNone) in
  exists r,
    fst (_execute_trade w parameters treasury_data self) = Returns r /\
    field r "success" = Some (VBool true) /\
    field r "requested_amount" = Some (get_str parameters "amount" VNone) /\
    (field_value r "slippage" == amount / 1000)%Q /\
    (field_value r "executed_amount" + field_value r "slippage" == amount)%Q /\
    (field_value r "total_cost" == amount + 50)%Q /\
    (0 < field_value r "execution_price")%Q /\
    (lookup (get_str parameters "asset" VNone) prices = None ->
     field r "execution_price" = Some (VFloat 100)).
Proof.
  intros [Hn Hh] Hdraw. cbv zeta.
  set (amount := get_str parameters "amount" VNone) in *.
  destruct (current_price_is_positive _ Hh) as (price & Ep & Hp).
  destruct (py_mul_float amount (1 # 1000) Hn) as (slippage & E1 & Q1).
  destruct (py_sub_qval amount (VFloat slippage) Hn eq_refl)
    as (executed & E2 & _ & Q2).
  destruct (py_add_qval amount (VInt 50) Hn eq_refl) as (total & E3 & _ & Q3).
  apply Qlt_bool_iff in Hdraw.
  assert (Hdef : lookup (get_str parameters "asset" VNone) prices = None ->
                 price = 100%Q).
  { intros Hnone. unfold _get_current_price, dict_get in Ep.
    rewrite Hh, Hnone in Ep. now injection Ep as <-. }
  unfold _execute_trade, try_except, execute_trade_body, bind, lift,
    update_metrics, modify, ret.
  fold amount. rewrite Ep, E1, E2, E3. cbn. rewrite Hdraw.
  eexists. split; [reflexivity|]. split; [reflexivity|]. split; [reflexivity|].
  unfold field_value, field. cbn.
  change (qval (VFloat slippage)) with slippage in *.
  change (qval (VInt 50)) with 50%Q in Q3.
  split; [rewrite Q1; field|].
  split; [rewrite Q2; ring|].
  split; [exact Q3|]. split; [exact Hp|].
  intros Hnone. now rewrite (Hdef Hnone).
Qed.

Lemma accepted_trade_amounts_add_up_witness :
  let parameters :=
    [ (VStr "asset", VStr "DOGE"); (VStr "action", VStr "sell");
      (VStr "amount", VInt (-2000)) ] in
  valid_trade parameters /\
  (5 # 100 < random_draw (world_of 1 (1 # 2)))%Q /\
  exists r,
    fst (_execute_trade (world_of 1 (1 # 2)) parameters None fresh_agent)
    = Returns r /\
    field r "success" = Some (VBool true) /\
    (field_value r "slippage" == -2)%Q /\
    (field_value r "total_cost" == -1950)%Q /\
    field r "execution_price" = Some (VFloat 100).
Proof.
  intros parameters.
  assert (V : valid_trade parameters) by (split; reflexivity).
  split; [exact V|]. split; [reflexivity|].
  destruct (accepted_trade_amounts_add_up (world_of 1 (1 # 2)) parameters None
              fresh_agent V eq_refl)
    as (r & Hr & Hs & _ & Hsl & _ & Hc & _ & Hp).
  exists r. split; [exact Hr|]. split; [exact Hs|].
  split; [rewrite Hsl; vm_compute; reflexivity|].
  split; [rewrite Hc; vm_compute; reflexivity|].
  apply Hp. reflexivity.
Defined.

(** X10. A trade request without an [amount] is answered with the
    handler's failure dictionary for a [TypeError]; the agent is left as
    it was, so the trade is not counted in [total_trades]. *)
Theorem trade_without_amount_fails
    (w : world) (parameters : dict) (treasury_data : option dict)
    (self : TraderAgent) :
  lookup (VStr "amount") parameters = None ->
  exists e,
    _execute_trade w parameters treasury_data self
    = (Returns (handler_failure e), self) /\
    exn_kind e = TypeError.
Proof.
  intros H.
  unfold _execute_trade, try_except, execute_trade_body, bind, lift, ret.
  unfold get_str at 2 3 4 5. rewrite H.
  unfold _get_current_price, dict_get.
  destruct (hashable (get_str parameters "asset" VNone)); cbn;
    eexists; split; reflexivity.
Qed.

Lemma trade_without_amount_fails_witness :
  lookup (VStr "amount") [ (VStr "asset", VStr "ETH") ] = None /\
  exists e,
    _execute_trade (world_of 1 (1 # 2)) [ (VStr "asset", VStr "ETH") ] None
      fresh_agent
    = (Returns (handler_failure e), fresh_agent) /\
    exn_kind e = TypeError.
Proof.
  split; [reflexivity|].
  apply (trade_without_amount_fails (world_of 1 (1 # 2))
           [ (VStr "asset", VStr "ETH") ] None fresh_agent eq_refl).
Defined.

(** * Further properties of yield prediction *)

(** X11. [_get_strategy_allocations] answers every hashable strategy
    name with an allocation whose weights are numbers that sum to 1;
    a name other than "conservative" and "aggressive" gets the moderate
    allocation, so an unknown strategy is priced as moderate. *)
Theorem strategy_allocations_sum_to_one (strategy : pyval) :
  hashable strategy = true ->
  exists d,
    _get_strategy_allocations strategy = Returns (VDict d) /\
    Forall (fun kv => numeric (snd kv) = true) d /\
    (weight_sum d == 1)%Q /\
    (key_eqb strategy (VStr "conservative") = false ->
     key_eqb strategy (VStr "aggressive") = false ->
     VDict d = moderate).
Proof.
  intros H. unfold _get_strategy_allocations, dict_get. rewrite H.
  cbn [lookup].
  destruct (key_eqb strategy (VStr "conservative")).
  { eexists. split; [reflexivity|]. split; [repeat constructor|].
    split; [reflexivity | discriminate]. }
  destruct (key_eqb strategy (VStr "moderate")).
  { eexists. split; [reflexivity|]. split; [repeat constructor|].
    split; reflexivity. }
  destruct (key_eqb strategy (VStr "aggressive")).
  { eexists. split; [reflexivity|]. split; [repeat constructor|].
    split; [reflexivity | discriminate]. }
  eexists. split; [reflexivity|]. split; [repeat constructor|].
  split; reflexivity.
Qed.

Lemma strategy_allocations_sum_to_one_witness :
  hashable (VStr "yolo") = true /\
  exists d,
    _get_strategy_allocations (VStr "yolo") = Returns (VDict d) /\
    (weight_sum d == 1)%Q /\
    VDict d = moderate.
Proof.
  split; [reflexivity|].
  destruct (strategy_allocations_sum_to_one (VStr "yolo") eq_refl)
    as (d & E & _ & S & M).
  exists d. split; [exact E|]. split; [exact S|]. apply M; reflexivity.
Defined.

(** X12. A yield prediction asked for an empty list of strategies
    fails: [max] over no predictions raises, and the handler answers
    with its failure dictionary, whatever the time horizon. *)
Theorem yield_of_no_strategy_fails
    (w : world) (parameters : dict) (treasury_data : option dict)
    (self : TraderAgent) :
  get_str parameters "strategies" default_strategies = VList [] ->
  _predict_yield w parameters treasury_data self
  = (Returns (handler_failure
                (mkExn ValueError "max() arg is an empty sequence")), self).
Proof.
  intros H. unfold _predict_yield, try_except, lift, yield_body.
  rewrite H. reflexivity.
Qed.

Lemma yield_of_no_strategy_fails_witness :
  let parameters := [ (VStr "strategies", VList []) ] in
  get_str parameters "strategies" default_strategies = VList [] /\
  fst (_predict_yield rising_world parameters None fresh_agent)
  = Returns (handler_failure (mkExn ValueError "max() arg is an empty sequence")).
Proof.
  intros parameters. split; [reflexivity|].
  now rewrite (yield_of_no_strategy_fails rising_world parameters None
                 fresh_agent eq_refl).
Defined.

(** Up to the division by the time horizon the first round of the loop
    raises nothing. *)
Lemma first_strategy_is_priced w strategy k :
  hashable strategy = true ->
  exists allocations items expected portfolio_return,
    _get_strategy_allocations strategy = Returns allocations /\
    py_items allocations = Returns items /\
    _calculate_expected_returns w (VList (map fst items)) k = Returns expected /\
    weighted_sum expected items (VInt 0) = Returns portfolio_return /\
    converts portfolio_return = true.
Proof.
  intros H. unfold _get_strategy_allocations, dict_get. rewrite H.
  cbn [lookup].
  destruct (key_eqb strategy (VStr "conservative"));
    [do 4 eexists; repeat split; reflexivity|].
  destruct (key_eqb strategy (VStr "moderate"));
    [do 4 eexists; repeat split; reflexivity|].
  destruct (key_eqb strategy (VStr "aggressive"));
    do 4 eexists; repeat split; reflexivity.
Qed.

(** X13. A yield prediction with a time horizon of zero fails with a
    [ZeroDivisionError] as soon as there is a first (hashable)
    strategy: the horizon is not checked before [365 / time_horizon].
    The handler answers with its failure dictionary for that error
    and leaves the agent as it was. *)
Theorem yield_over_zero_days_fails
    (w : world) (parameters : dict) (treasury_data : option dict)
    (self : TraderAgent) (strategy : pyval) (rest : list pyval) :
  get_str parameters "strategies" default_strategies = VList (strategy :: rest) ->
  hashable strategy = true ->
  numeric (get_str parameters "time_horizon" (VInt 365)) = true ->
  (qval (get_str parameters "time_horizon" (VInt 365)) == 0)%Q ->
  exists e,
    _predict_yield w parameters treasury_data self
    = (Returns (handler_failure e), self) /\
    exn_kind e = ZeroDivisionError.
Proof.
  intros Hs Hh Hn Hz.
  destruct (first_strategy_is_priced w strategy 0%nat Hh)
    as (allocations & items & expected & pr & E1 & E2 & E3 & E4 & _).
  unfold _predict_yield, try_except, lift, yield_body.
  rewrite Hs. cbn [py_iter obind yield_loop].
  rewrite E1. cbn [obind]. rewrite E2. cbn [obind].
  rewrite E3. cbn [obind]. rewrite E4. cbn [obind].
  destruct (get_str parameters "time_horizon" (VInt 365)) as [|b|z|q|s|l|d];
    try discriminate.
  - destruct b; [discriminate Hz|]. eexists. split; reflexivity.
  - assert (z = 0) as -> by (unfold Qeq in Hz; cbn in Hz; lia).
    eexists. split; reflexivity.
  - unfold py_div. cbn [int_of to_float obind].
    change (qval (VFloat q)) with q in Hz.
    apply Qeq_bool_iff in Hz. rewrite Hz.
    eexists. split; reflexivity.
Qed.

Lemma yield_over_zero_days_fails_witness :
  let parameters := [ (VStr "time_horizon", VFloat 0) ] in
  get_str parameters "strategies" default_strategies
  = VList [VStr "conservative"; VStr "moderate"; VStr "aggressive"] /\
  (qval (get_str parameters "time_horizon" (VInt 365)) == 0)%Q /\
  exists e,
    fst (_predict_yield rising_world parameters None fresh_agent)
    = Returns (handler_failure e) /\
    exn_kind e = ZeroDivisionError.
Proof.
  intros parameters. split; [reflexivity|]. split; [reflexivity|].
  destruct (yield_over_zero_days_fails rising_world parameters None
              fresh_agent (VStr "conservative")
              [VStr "moderate"; VStr "aggressive"]
              eq_refl eq_refl eq_refl (Qeq_refl 0)) as (e & H & K).
  exists e. now rewrite H.
Defined.

Lemma max_from_spec l : forall best score,
  exists top,
    (score <= top)%Q /\
    Forall (fun kv => (risk_adjusted (snd kv) <= top)%Q) l /\
    ((max_from l best score = best /\ top = score) \/
     exists entry, In (max_from l best score, entry) l /\
                   risk_adjusted entry = top).
Proof.
  induction l as [|[s entry] l IH]; intros best score.
  - exists score. split; [apply Qle_refl|]. split; [constructor|]. now left.
  - cbn [max_from].
    destruct (Qlt_bool score (risk_adjusted entry)) eqn:E.
    + apply Qlt_bool_iff in E.
      destruct (IH s (risk_adjusted entry)) as (top & Hle & Hall & Hwho).
      exists top. split; [lra|]. split; [constructor; [exact Hle | exact Hall]|].
      right. destruct Hwho as [[-> ->]|(e & Hin & He)].
      * exists entry. split; [now left | reflexivity].
      * exists e. split; [now right | exact He].
    + assert (Hge : (risk_adjusted entry <= score)%Q).
      { apply Qnot_lt_le. intros Hlt. apply Qlt_bool_iff in Hlt. congruence. }
      destruct (IH best score) as (top & Hle & Hall & Hwho).
      exists top. split; [exact Hle|].
      split; [constructor; [simpl; lra | exact Hall]|].
      destruct Hwho as [Hsame|(e & Hin & He)]; [now left|].
      right. exists e. split; [now right | exact He].
Qed.

Lemma best_of_is_maximal predictions best :
  best_of predictions = Returns best ->
  exists entry,
    In (best, entry) predictions /\
    Forall (fun kv => (risk_adjusted (snd kv) <= risk_adjusted entry)%Q) predictions.
Proof.
  destruct predictions as [|[s entry] l]; [discriminate|].
  cbn [best_of]. intros [= <-].
  destruct (max_from_spec l s (risk_adjusted entry)) as (top & Hle & Hall & Hwho).
  destruct Hwho as [[-> ->]|(e & Hin & <-)].
  - exists entry. split; [now left|].
    constructor; [apply Qle_refl | exact Hall].
  - exists e. split; [now right|]. constructor; [exact Hle | exact Hall].
Qed.

(** X14. When a yield prediction succeeds, the recommended strategy is
    one of the predicted strategies and none of the predictions has a
    larger risk-adjusted return. *)
Theorem recommended_strategy_is_best
    (w : world) (parameters : dict) (treasury_data : option dict) (r : dict) :
  yield_body w parameters treasury_data = Returns r ->
  exists predictions best entry,
    field r "predictions" = Some (VDict predictions) /\
    field r "recommended_strategy" = Some best /\
    In (best, entry) predictions /\
    Forall (fun kv => (risk_adjusted (snd kv) <= risk_adjusted entry)%Q)
      predictions.
Proof.
  unfold yield_body. intros H. invert_returns.
  match goal with
  | Hb : best_of ?p = Returns ?b |- _ =>
      destruct (best_of_is_maximal p b Hb) as (entry & Hin & Hall);
      exists p, b, entry
  end.
  repeat split; assumption.
Qed.

Lemma recommended_strategy_is_best_witness :
  exists r predictions entry,
    yield_body rising_world [] None = Returns r /\
    field r "predictions" = Some (VDict predictions) /\
    field r "recommended_strategy" = Some (VStr "aggressive") /\
    In (VStr "aggressive", entry) predictions /\
    Forall (fun kv => (risk_adjusted (snd kv) <= risk_adjusted entry)%Q)
      predictions.
Proof.
  assert (E : exists r, yield_body rising_world [] None = Returns r
                        /\ field r "recommended_strategy"
                           = Some (VStr "aggressive"))
    by (eexists; split; vm_compute; reflexivity).
  destruct E as (r & E & Hrec).
  destruct (recommended_strategy_is_best rising_world [] None r E)
    as (predictions & best & entry & Hp & Hb & Hin & Hall).
  rewrite Hrec in Hb. injection Hb as <-.
  exists r, predictions, entry. repeat split; assumption.
Defined.

Lemma dict_update_values (P : pyval -> Prop) k v (d : dict) :
  Forall (fun kv => P (snd kv)) d -> P v ->
  Forall (fun kv => P (snd kv)) (dict_update k v d).
Proof.
  intros Hd Hv. induction Hd as [|[k' v'] d Hkv Hd IH]; cbn [dict_update].
  - repeat constructor. exact Hv.
  - destruct (key_eqb k k'); constructor; assumption.
Qed.

Lemma py_float_returns v f :
  py_float v = Returns f -> numeric v = true /\ f = VFloat (Qred (qval v)).
Proof.
  unfold py_float.
  destruct v as [|b|z|q|s|l|d]; cbn [to_float obind]; try discriminate.
  - intros [= <-]. split; reflexivity.
  - unfold int_to_float. destruct (Z.abs z <? float_limit)%Z; [|discriminate].
    intros [= <-]. split; reflexivity.
  - intros [= <-]. split; reflexivity.
Qed.

Lemma py_float_converts v f : py_float v = Returns f -> converts v = true.
Proof.
  unfold py_float.
  destruct v as [|b|z|q|s|l|d]; cbn [to_float obind converts];
    try discriminate; try reflexivity.
  unfold int_to_float. destruct (Z.abs z <? float_limit)%Z; [reflexivity|].
  discriminate.
Qed.

Lemma yield_loop_predictions w time_horizon : forall strategies k predictions result,
  Forall (fun kv => prediction_ok (snd kv)) predictions ->
  yield_loop w strategies time_horizon k predictions = Returns result ->
  Forall (fun kv => prediction_ok (snd kv)) result.
Proof.
  induction strategies as [|strategy rest IH]; intros k predictions result Hp H.
  - cbn in H. now injection H as <-.
  - cbn [yield_loop] in H.
    apply obind_returns in H. destruct H as (allocations & _ & H).
    apply obind_returns in H. destruct H as (items & _ & H).
    apply obind_returns in H. destruct H as (expected & _ & H).
    apply obind_returns in H. destruct H as (pr & _ & H).
    apply obind_returns in H. destruct H as (per_year & _ & H).
    apply obind_returns in H. destruct H as (annual & _ & H).
    apply obind_returns in H. destruct H as (eay & Heay & H).
    apply obind_returns in H. destruct H as (adjusted & Hadj & H).
    apply obind_returns in H. destruct H as (rar & Hrar & H).
    apply obind_returns in H. destruct H as (predictions' & Hset & H).
    apply (IH _ _ _) in H; [exact H|].
    unfold dict_set in Hset.
    destruct (hashable strategy); [|discriminate]. injection Hset as <-.
    apply dict_update_values; [exact Hp|].
    pose proof (py_float_converts _ _ Heay) as Ca.
    apply py_float_returns in Heay. destruct Heay as [Na ->].
    apply py_float_returns in Hrar. destruct Hrar as [_ ->].
    destruct (py_mul_qval annual (VFloat (8 # 10)) Ca eq_refl)
      as (adjusted' & E & _ & Q).
    rewrite E in Hadj. injection Hadj as <-.
    do 3 eexists. split; [reflexivity|].
    rewrite !Qred_correct, Q. reflexivity.
Qed.

(** X15. In every successful yield prediction each predicted strategy
    carries a confidence of 0.75 and a risk-adjusted return that is 0.8
    times its expected annual yield. *)
Theorem predictions_are_risk_adjusted
    (w : world) (parameters : dict) (treasury_data : option dict) (r : dict) :
  yield_body w parameters treasury_data = Returns r ->
  exists predictions,
    field r "predictions" = Some (VDict predictions) /\
    Forall (fun kv => prediction_ok (snd kv)) predictions.
Proof.
  unfold yield_body. intros H. invert_returns.
  match goal with
  | Hl : yield_loop _ _ _ _ [] = Returns ?p |- _ =>
      exists p; split; [reflexivity|];
      apply (yield_loop_predictions _ _ _ _ _ _ (Forall_nil _) Hl)
  end.
Qed.

Lemma predictions_are_risk_adjusted_witness :
  exists r predictions,
    yield_body rising_world [] None = Returns r /\
    field r "predictions" = Some (VDict predictions) /\
    length predictions = 3%nat /\
    Forall (fun kv => prediction_ok (snd kv)) predictions.
Proof.
  assert (E : exists r, yield_body rising_world [] None = Returns r)
    by (eexists; vm_compute; reflexivity).
  destruct E as (r & E).
  destruct (predictions_are_risk_adjusted rising_world [] None r E)
    as (predictions & Hp & Hall).
  exists r, predictions. split; [exact E|]. split; [exact Hp|].
  split; [|exact Hall].
  vm_compute in E. injection E as <-.
  vm_compute in Hp. injection Hp as <-. reflexivity.
Defined.

(** * Further properties of the optimisation and risk helpers *)

Lemma machine_number_numeric v : machine_number v = true -> numeric v = true.
Proof. destruct v; simpl; try discriminate; reflexivity. Qed.

Lemma far_apart_on_number ct :
  numeric (fst ct) = true ->
  far_apart ct = Qlt_bool (5 # 100) (Qabs (qval (fst ct) - snd ct)).
Proof.
  intros H. unfold far_apart. now rewrite (numeric_qval _ H).
Qed.

Lemma clear_of_drift_room ct :
  (0 <= (1 + Qabs (qval (fst ct)) + Qabs (snd ct)) * (1 # 10 ^ 6))%Q.
Proof.
  pose proof (Qabs_nonneg (qval (fst ct))). pose proof (Qabs_nonneg (snd ct)).
  apply Qmult_le_0_compat; [lra | discriminate].
Qed.

Lemma drift_loop_on_numbers says : forall current target,
  Forall (fun c => machine_number c = true) current ->
  drift_loop says current target
  = Returns (existsb far_apart (combine current target)).
Proof.
  induction current as [|c current IH]; intros target Hn; [reflexivity|].
  destruct target as [|t target]; [reflexivity|].
  inversion Hn as [|? ? Hc Hrest]; subst.
  cbn [drift_loop combine existsb]. unfold drifted. rewrite Hc. cbn [obind].
  destruct (far_apart (c, t)); [reflexivity|].
  apply IH. exact Hrest.
Qed.

Lemma combine_numeric (current : list pyval) : forall (target : list Q),
  Forall (fun c => machine_number c = true) current ->
  Forall (fun ct => numeric (fst ct) = true) (combine current target).
Proof.
  induction current as [|c current IH]; intros target H; [constructor|].
  destruct target as [|t target]; [constructor|].
  inversion H; subst. constructor; [now apply machine_number_numeric|].
  now apply IH.
Qed.

(** X16. [_check_rebalance_needed] on holdings that are machine
    numbers (bools, floats, ints of 64 bits): it answers [True]
    when the number of holdings differs from the number of allocations
    of the model; for equal numbers, and holdings whose distance to the
    allocation at the same position is clear of 0.05, it answers
    [True] exactly when some holding differs by more than 0.05 from
    the allocation at its position, and after [False] every holding is
    within 0.05 of its allocation (holdings and allocations are paired
    by position, not by asset; a distance within rounding of 0.05 can
    go either way). *)
Theorem rebalance_needed_on_numbers
    (says : pyval -> Q -> outcome bool) (target_allocations : list Q)
    (treasury held : dict) :
  get_str treasury "current_allocations" (VDict []) = VDict held ->
  Forall (fun kv => machine_number (snd kv) = true) held ->
  Forall clear_of_drift (combine (map snd held) target_allocations) ->
  let pairs := combine (map snd held) target_allocations in
  exists needed,
    _check_rebalance_needed says target_allocations (Some treasury)
    = Returns needed /\
    (needed = true <->
     length held <> length target_allocations \/
     Exists (fun ct => (5 # 100 < Qabs (qval (fst ct) - snd ct))%Q) pairs) /\
    (needed = false ->
     length held = length target_allocations /\
     Forall (fun ct => (Qabs (qval (fst ct) - snd ct) < 5 # 100)%Q) pairs).
Proof.
  intros Hheld Hn Hclear. cbv zeta.
  assert (Hm : Forall (fun c => machine_number c = true) (map snd held))
    by (apply Forall_map; exact Hn).
  pose proof (combine_numeric (map snd held) target_allocations Hm) as Hnum.
  unfold _check_rebalance_needed.
  cbn [opt_dict py_get dict_get hashable obind].
  fold (get_str treasury "current_allocations" (VDict [])).
  rewrite Hheld. cbn [py_values obind]. rewrite length_map.
  destruct (Nat.eqb_spec (length held) (length target_allocations)) as [El|Nl];
    cbn [negb].
  2:{ exists true. split; [reflexivity|]. split; [|discriminate].
      split; [intros _; now left | reflexivity]. }
  rewrite (drift_loop_on_numbers says _ _ Hm).
  eexists. split; [reflexivity|]. split; [split|].
  - intros E. right. apply existsb_exists in E. destruct E as (ct & Hin & Hd).
    apply Exists_exists. exists ct. split; [exact Hin|].
    rewrite far_apart_on_number in Hd
      by (rewrite Forall_forall in Hnum; now apply Hnum).
    now apply Qlt_bool_iff.
  - intros [Hne|Hex]; [contradiction|].
    apply Exists_exists in Hex. destruct Hex as (ct & Hin & Hd).
    apply existsb_exists. exists ct. split; [exact Hin|].
    rewrite far_apart_on_number
      by (rewrite Forall_forall in Hnum; now apply Hnum).
    now apply Qlt_bool_iff.
  - intros E. split; [exact El|].
    apply Forall_forall. intros ct Hin.
    rewrite Forall_forall in Hclear. specialize (Hclear ct Hin).
    rewrite Forall_forall in Hnum. specialize (Hnum ct Hin).
    pose proof (clear_of_drift_room ct) as Hroom.
    unfold clear_of_drift in Hclear. cbv zeta in Hclear.
    destruct Hclear as [Hlow|Hhigh]; [lra|].
    exfalso.
    assert (Hd : far_apart ct = true).
    { rewrite (far_apart_on_number ct Hnum). apply Qlt_bool_iff. lra. }
    assert (Hex : existsb far_apart (combine (map snd held) target_allocations)
                  = true)
      by (apply existsb_exists; exists ct; split; assumption).
    congruence.
Qed.

Lemma rebalance_needed_on_numbers_witness :
  let says := fun (_ : pyval) (_ : Q) => Raises (mkExn TypeError "no") in
  let held := [ (VStr "ETH", VFloat (1 # 2)); (VStr "UNI", VFloat (1 # 2)) ] in
  let treasury := [ (VStr "current_allocations", VDict held) ] in
  _check_rebalance_needed says [(52 # 100)%Q; (48 # 100)%Q] (Some treasury)
  = Returns false /\
  _check_rebalance_needed says [(6 # 10)%Q; (4 # 10)%Q] (Some treasury)
  = Returns true.
Proof.
  intros says held treasury.
  assert (Hn : Forall (fun kv => machine_number (snd kv) = true) held)
    by (repeat constructor).
  split.
  - destruct (rebalance_needed_on_numbers says [(52 # 100)%Q; (48 # 100)%Q]
                treasury held eq_refl Hn) as (needed & E & Ht & _).
    + repeat constructor; left; vm_compute; reflexivity.
    + destruct needed; [|exact E].
      exfalso. destruct (proj1 Ht eq_refl) as [Hl|Hex]; [now apply Hl|].
      apply Exists_exists in Hex. destruct Hex as (ct & Hin & Hd).
      destruct Hin as [<-|[<-|[]]]; vm_compute in Hd; discriminate.
  - destruct (rebalance_needed_on_numbers says [(6 # 10)%Q; (4 # 10)%Q]
                treasury held eq_refl Hn) as (needed & E & Ht & _).
    + repeat constructor; right; vm_compute; reflexivity.
    + assert (K : needed = true)
        by (apply Ht; right; apply Exists_cons_hd; vm_compute; reflexivity).
      rewrite K in E. exact E.
Defined.

Lemma portfolio_var_of_no_risk : forall items portfolio_var,
  portfolio_var_loop [] items portfolio_var = Returns portfolio_var.
Proof.
  induction items as [|[asset allocation] items IH]; intros pv; [reflexivity|].
  cbn [portfolio_var_loop lookup]. apply IH.
Qed.

(** X17. A risk analysis that is asked for no assets (the default when
    the parameters name none) reports an empty [asset_risks], a
    portfolio VaR of 0 and the risk level "low" with the one
    recommendation that goes with it, whatever is held. *)
Theorem risk_of_no_assets_is_low
    (w : world) (parameters treasury held : dict) (self : TraderAgent) :
  get_str parameters "assets" (VList []) = VList [] ->
  get_str treasury "current_allocations" (VDict []) = VDict held ->
  exists r,
    _analyze_risk w parameters (Some treasury) self = (Returns r, self) /\
    field r "success" = Some (VBool true) /\
    field r "asset_risks" = Some (VDict []) /\
    field r "portfolio_var_95" = Some (VFloat 0) /\
    field r "risk_level" = Some (VStr "low") /\
    field r "recommendations"
    = Some (VList [VStr "Current risk level is acceptable for the strategy"]).
Proof.
  intros Ha Hh.
  unfold _analyze_risk, try_except, lift, risk_body.
  rewrite Ha. cbn [py_iter obind risk_loop opt_dict py_get dict_get hashable].
  fold (get_str treasury "current_allocations" (VDict [])). rewrite Hh.
  unfold _calculate_portfolio_var. cbn [py_items obind].
  rewrite portfolio_var_of_no_risk. cbn.
  eexists. repeat split.
Qed.

Lemma risk_of_no_assets_is_low_witness :
  let treasury :=
    [ (VStr "current_allocations", VDict [ (VStr "ETH", VStr "all of it") ]) ] in
  get_str [] "assets" (VList []) = VList [] /\
  exists r,
    _analyze_risk rising_world [] (Some treasury) fresh_agent
    = (Returns r, fresh_agent) /\
    field r "portfolio_var_95" = Some (VFloat 0) /\
    field r "risk_level" = Some (VStr "low").
Proof.
  intros treasury. split; [reflexivity|].
  destruct (risk_of_no_assets_is_low rising_world [] treasury
              [ (VStr "ETH", VStr "all of it") ] fresh_agent eq_refl eq_refl)
    as (r & Hr & _ & _ & Hv & Hl & _).
  exists r. repeat split; assumption.
Defined.

Lemma py_gt_returns a b t :
  py_gt a b = Returns t ->
  numeric a = true /\ numeric b = true /\ t = Qlt_bool (qval b) (qval a).
Proof.
  unfold py_gt, numeric, qval.
  destruct (num_of a), (num_of b); try discriminate.
  intros [= <-]. repeat split.
Qed.

(** X18. In every successful risk analysis the risk level follows the
    portfolio VaR [v] that is reported: "low" when [v > -0.05],
    "medium" when [-0.10 < v <= -0.05] and "high" when [v <= -0.10];
    a high level comes with two recommendations, the others with
    one. *)
Theorem risk_level_follows_var
    (w : world) (parameters : dict) (treasury_data : option dict) (r : dict) :
  risk_body w parameters treasury_data = Returns r ->
  exists v level recommendations,
    field r "portfolio_var_95" = Some (VFloat v) /\
    field r "risk_level" = Some (VStr level) /\
    field r "recommendations" = Some (VList recommendations) /\
    ((level = "low" /\ (- (5 # 100) < v)%Q /\ length recommendations = 1%nat) \/
     (level = "medium" /\ (- (10 # 100) < v <= - (5 # 100))%Q
      /\ length recommendations = 1%nat) \/
     (level = "high" /\ (v <= - (10 # 100))%Q /\ length recommendations = 2%nat)).
Proof.
  unfold risk_body. intros H.
  apply obind_returns in H. destruct H as (asset_list & _ & H).
  apply obind_returns in H. destruct H as (risk_metrics & _ & H).
  apply obind_returns in H. destruct H as (held & _ & H).
  apply obind_returns in H. destruct H as (pv & _ & H).
  apply obind_returns in H. destruct H as (low & Hlow & H).
  apply obind_returns in H. destruct H as (level & Hlevel & H).
  apply obind_returns in H. destruct H as (pv95 & Hf & H).
  injection H as <-.
  apply py_gt_returns in Hlow. destruct Hlow as (Np & _ & ->).
  apply py_float_returns in Hf. destruct Hf as [_ ->].
  change (qval (VFloat (- 5 # 100))) with (- 5 # 100)%Q in Hlevel.
  exists (Qred (qval pv)), level. eexists.
  split; [reflexivity|]. split; [reflexivity|]. split; [reflexivity|].
  destruct (Qlt_bool (- 5 # 100) (qval pv)) eqn:E1.
  - injection Hlevel as <-. left.
    apply Qlt_bool_iff in E1. rewrite Qred_correct.
    split; [reflexivity|]. split; [lra | reflexivity].
  - assert (H1 : (qval pv <= - 5 # 100)%Q).
    { apply Qnot_lt_le. intros Hlt. apply Qlt_bool_iff in Hlt. congruence. }
    apply obind_returns in Hlevel. destruct Hlevel as (medium & Hm & Hlevel).
    apply py_gt_returns in Hm. destruct Hm as (_ & _ & ->).
    change (qval (VFloat (- 10 # 100))) with (- 10 # 100)%Q in Hlevel.
    injection Hlevel as <-.
    destruct (Qlt_bool (- 10 # 100) (qval pv)) eqn:E2.
    + right. left. apply Qlt_bool_iff in E2. rewrite Qred_correct.
      split; [reflexivity|]. split; [lra | reflexivity].
    + right. right.
      assert (H2 : (qval pv <= - 10 # 100)%Q).
      { apply Qnot_lt_le. intros Hlt. apply Qlt_bool_iff in Hlt. congruence. }
      rewrite Qred_correct.
      split; [reflexivity|]. split; [lra | reflexivity].
Qed.

Lemma risk_level_follows_var_witness :
  let parameters := [ (VStr "assets", VList [VStr "ETH"]) ] in
  let treasury :=
    [ (VStr "current_allocations", VDict [ (VStr "ETH", VInt 2) ]) ] in
  exists r v recommendations,
    risk_body rising_world parameters (Some treasury) = Returns r /\
    field r "portfolio_var_95" = Some (VFloat v) /\
    field r "risk_level" = Some (VStr "medium") /\
    field r "recommendations" = Some (VList recommendations) /\
    (- (10 # 100) < v <= - (5 # 100))%Q.
Proof.
  intros parameters treasury.
  assert (E : exists r, risk_body rising_world parameters (Some treasury)
                        = Returns r
                        /\ field r "risk_level" = Some (VStr "medium"))
    by (eexists; split; vm_compute; reflexivity).
  destruct E as (r & E & Hl).
  destruct (risk_level_follows_var rising_world parameters (Some treasury) r E)
    as (v & level & recs & Hv & Hlevel & Hrecs & Hcases).
  rewrite Hl in Hlevel. injection Hlevel as <-.
  exists r, v, recs. split; [exact E|]. split; [exact Hv|].
  split; [exact Hl|]. split; [exact Hrecs|].
  destruct Hcases as [(Hc & _)|[(_ & Hb & _)|(Hc & _)]];
    [discriminate Hc | exact Hb | discriminate Hc].
Defined.

Lemma handler_without_treasury_raises w action parameters body self r :
  In action treasury_actions ->
  handler_body w action parameters None = Some body ->
  fst (body self) <> Returns r.
Proof.
  intros Hin Hb Hr.
  destruct Hin as [<-|[<-|[<-|[]]]]; cbn in Hb; injection Hb as <-.
  - unfold optimize_body in Hr.
    repeat (apply bind_returns in Hr; destruct Hr as (? & ? & ? & Hr)).
    match goal with
    | Hc : lift (_check_rebalance_needed _ _ None) _ = (Returns _, _) |- _ =>
        apply lift_returns in Hc; destruct Hc as [Hc _]; discriminate Hc
    end.
  - discriminate Hr.
  - unfold lift, risk_body in Hr. cbn [fst] in Hr.
    repeat (apply obind_returns in Hr; destruct Hr as (? & ? & Hr));
      discriminate.
Qed.

(** X19. Without treasury data ([treasury_data = None], the default of
    the request model) the actions "optimize_portfolio", "rebalance"
    and "risk_analysis" never succeed: each call returns a failed
    result ([success = False], [confidence = 0.0], an [error]). *)
Theorem treasury_actions_need_treasury_data
    (w : world) (action : string) (parameters : dict) (self : TraderAgent) :
  In action treasury_actions ->
  exists r,
    fst (execute_action w action parameters None self) = Returns r /\
    field r "success" = Some (VBool false) /\
    confidence_of r = Some 0%Q /\
    exists msg, field r "error" = Some (VStr msg).
Proof.
  intros Hin.
  assert (Hreg : registered action = true)
    by (destruct Hin as [<-|[<-|[<-|[]]]]; reflexivity).
  destruct (execute_action_result w action parameters None self)
    as (r & Hr & Hfrom).
  exists r. split; [exact Hr|].
  destruct Hfrom as [Hd|[e ->]]; [|apply dispatcher_failure_shape].
  destruct (dispatch_registered w action parameters None Hreg)
    as (body & Hb & Heq).
  rewrite Heq in Hd. unfold try_except, ret in Hd.
  pose proof (handler_without_treasury_raises w action parameters body
                (counted self)) as Hno.
  destruct (body (counted self)) as [[r'|e] s'].
  - exfalso. apply (Hno r' Hin Hb). reflexivity.
  - simpl in Hd. injection Hd as <-. apply handler_failure_shape.
Qed.

Lemma treasury_actions_need_treasury_data_witness :
  In "risk_analysis" treasury_actions /\
  exists r,
    fst (execute_action rising_world "risk_analysis"
           [ (VStr "assets", VList [VStr "ETH"]) ] None fresh_agent)
    = Returns r /\
    field r "success" = Some (VBool false) /\
    confidence_of r = Some 0%Q /\
    exists msg, field r "error" = Some (VStr msg).
Proof.
  assert (H : In "risk_analysis" treasury_actions) by (right; right; now left).
  split; [exact H|].
  apply (treasury_actions_need_treasury_data rising_world "risk_analysis"
           [ (VStr "assets", VList [VStr "ETH"]) ] fresh_agent H).
Defined.

Lemma argmax_from_spec : forall (l prefix : list Q) (best_i : nat) (best : Q),
  nth best_i prefix 0%Q = best ->
  (best_i < length prefix)%nat ->
  Forall (fun x => (x <= best)%Q) prefix ->
  let i := argmax_from l (length prefix) best_i best in
  (i < length (prefix ++ l))%nat /\
  Forall (fun x => (x <= nth i (prefix ++ l) 0)%Q) (prefix ++ l).
Proof.
  induction l as [|x l IH]; intros prefix best_i best Hnth Hlt Hall; cbv zeta.
  - cbn [argmax_from]. rewrite app_nil_r, Hnth. split; assumption.
  - cbn [argmax_from].
    replace (prefix ++ x :: l)%list with ((prefix ++ [x]) ++ l)%list
      by (rewrite <- app_assoc; reflexivity).
    replace (S (length prefix)) with (length (prefix ++ [x]))
      by (rewrite length_app; simpl; lia).
    destruct (Qlt_bool best x) eqn:E.
    + apply Qlt_bool_iff in E. apply IH.
      * apply nth_middle.
      * rewrite length_app. simpl. lia.
      * apply Forall_app. split; [|repeat constructor; apply Qle_refl].
        eapply Forall_impl; [|exact Hall]. simpl. intros a Ha. lra.
    + assert (Hge : (x <= best)%Q).
      { apply Qnot_lt_le. intros Hx. apply Qlt_bool_iff in Hx. congruence. }
      apply IH.
      * rewrite app_nth1 by exact Hlt. exact Hnth.
      * rewrite length_app. simpl. lia.
      * apply Forall_app. split; [exact Hall | repeat constructor; exact Hge].
Qed.

Lemma np_argmax_spec l i :
  np_argmax l = Returns i ->
  (i < length l)%nat /\ Forall (fun x => (x <= nth i l 0)%Q) l.
Proof.
  destruct l as [|x l]; [discriminate|]. cbn [np_argmax]. intros [= <-].
  apply (argmax_from_spec l [x] 0%nat x eq_refl); [simpl; lia|].
  repeat constructor. apply Qle_refl.
Qed.

Lemma largest_exceeds l i (bound : Q) :
  (i < length l)%nat ->
  Forall (fun x => (x <= nth i l 0)%Q) l ->
  Qlt_bool bound (nth i l 0%Q) = existsb (fun a => Qlt_bool bound a) l.
Proof.
  intros Hi Hall.
  destruct (existsb (fun a => Qlt_bool bound a) l) eqn:E.
  - apply existsb_exists in E. destruct E as (a & Hin & Ha).
    apply Qlt_bool_iff in Ha. apply Qlt_bool_iff.
    rewrite Forall_forall in Hall. specialize (Hall a Hin). simpl in Hall. lra.
  - destruct (Qlt_bool bound (nth i l 0%Q)) eqn:E2; [|reflexivity].
    assert (H : existsb (fun a => Qlt_bool bound a) l = true).
    { apply existsb_exists. exists (nth i l 0%Q). split; [|exact E2].
      now apply nth_In. }
    congruence.
Qed.

(** X20. [_generate_allocation_recommendations] on a non-empty vector of
    allocations returns at most three recommendations: the high-risk
    warning exactly when the risk score exceeds 0.7, the advice to
    diversify exactly when some allocation exceeds 0.4, and the
    under-diversification note exactly when fewer than three
    allocations exceed 0.05.  On an empty vector it raises. *)
Theorem allocation_recommendations
    (allocations : list Q) (expected_returns : dict) (risk_score : Q) :
  (allocations = [] ->
   exists e,
     _generate_allocation_recommendations allocations expected_returns risk_score
     = Raises e) /\
  (allocations <> [] ->
   exists recommendations,
     _generate_allocation_recommendations allocations expected_returns risk_score
     = Returns recommendations /\
     (length recommendations <= 3)%nat /\
     (In (VStr "High risk detected - consider reducing exposure to volatile assets")
        recommendations
      <-> (7 # 10 < risk_score)%Q) /\
     (In (VStr "Consider diversifying - largest allocation exceeds 40%")
        recommendations
      <-> Exists (fun a => (4 # 10 < a)%Q) allocations) /\
     (In (VStr "Portfolio may be under-diversified - consider adding more assets")
        recommendations
      <-> (length (filter (fun a => Qlt_bool (5 # 100) a) allocations) < 3)%nat)).
Proof.
  split.
  - intros ->. eexists. reflexivity.
  - intros Hne. unfold _generate_allocation_recommendations.
    destruct (np_argmax allocations) as [i|e] eqn:Ei.
    2:{ destruct allocations; [contradiction | discriminate]. }
    destruct (np_argmax_spec allocations i Ei) as [Hi Hall].
    cbn [obind]. rewrite (largest_exceeds allocations i (4 # 10) Hi Hall).
    eexists. split; [reflexivity|].
    assert (Hex : existsb (fun a => Qlt_bool (4 # 10) a) allocations = true
                  <-> Exists (fun a => (4 # 10 < a)%Q) allocations).
    { rewrite existsb_exists, Exists_exists.
      split; intros (a & Hin & Ha); exists a; split; auto;
        now apply Qlt_bool_iff. }
    pose proof (Qlt_bool_iff (7 # 10) risk_score) as Hrisk.
    pose proof (Nat.ltb_lt
                  (length (filter (fun a => Qlt_bool (5 # 100) a) allocations)) 3)
      as Hfew.
    destruct (Qlt_bool (7 # 10) risk_score),
      (existsb (fun a => Qlt_bool (4 # 10) a) allocations),
      (length (filter (fun a => Qlt_bool (5 # 100) a) allocations) <? 3)%nat;
      cbn [app length In];
      (split; [lia|]);
      (split; [|split]);
      (split; [intros H;
               repeat (destruct H as [H|H]; try discriminate H);
               try contradiction;
               first [ now apply Hrisk | now apply Hex | now apply Hfew ]
              |intros H;
               first [ apply Hrisk in H | apply Hex in H | apply Hfew in H ];
               first [ discriminate H | tauto ]]).
Qed.

Lemma allocation_recommendations_witness :
  exists recommendations,
    _generate_allocation_recommendations [(5 # 10)%Q; (3 # 10)%Q; (2 # 10)%Q] []
      (8 # 10)
    = Returns recommendations /\
    In (VStr "High risk detected - consider reducing exposure to volatile assets")
      recommendations /\
    In (VStr "Consider diversifying - largest allocation exceeds 40%")
      recommendations /\
    ~ In (VStr "Portfolio may be under-diversified - consider adding more assets")
        recommendations.
Proof.
  destruct (allocation_recommendations [(5 # 10)%Q; (3 # 10)%Q; (2 # 10)%Q] []
              (8 # 10)) as [_ H].
  destruct H as (recommendations & Hr & _ & Hhigh & Hlarge & Hfew);
    [discriminate|].
  exists recommendations. split; [exact Hr|]. split; [|split].
  - apply Hhigh. reflexivity.
  - apply Hlarge. apply Exists_cons_hd. reflexivity.
  - intros H. apply Hfew in H. vm_compute in H. lia.
Defined.

(** * Further properties of the explainer *)

Lemma same_setup_refl a : same_setup a a.
Proof. split; reflexivity. Qed.

Lemma same_setup_trans a b c : same_setup a b -> same_setup b c -> same_setup a c.
Proof. intros [? ?] [? ?]. split; congruence. Qed.

Lemma same_cache_refl a : same_cache a a.
Proof. split; [reflexivity | apply same_setup_refl]. Qed.

Lemma same_cache_trans a b c : same_cache a b -> same_cache b c -> same_cache a c.
Proof.
  intros [? ?] [? ?]. split; [congruence | eapply same_setup_trans; eauto].
Qed.

Lemma names_of_keeps (R : XAI.XAIExplainer -> XAI.XAIExplainer -> Prop)
    (R_refl : forall s, R s s) agent_type :
  keeps R (XAI.names_of agent_type).
Proof.
  intros s. unfold XAI.names_of.
  destruct (XAI.assoc agent_type (XAI.feature_names s)); apply R_refl.
Qed.

Ltac xai_steps_with known R_refl R_trans :=
  repeat first
    [ known
    | apply (keeps_bind _ R_trans); [|intros ?]
    | apply (keeps_try _ R_trans); [|intros ?]
    | apply (keeps_ret _ R_refl)
    | apply (keeps_raise _ R_refl)
    | apply (keeps_lift _ R_refl)
    | apply (keeps_read _ R_refl)
    | apply (names_of_keeps _ R_refl)
    | apply keeps_if
    | match goal with
      | |- keeps _ (match ?x with Some _ => _ | None => _ end) => destruct x
      end ].

Ltac xai_steps R_refl R_trans := xai_steps_with fail R_refl R_trans.

Lemma create_surrogate_keeps_cache w agent_type :
  keeps same_cache (XAI._create_surrogate_model w agent_type).
Proof.
  unfold XAI._create_surrogate_model.
  xai_steps same_cache_refl same_cache_trans.
  intros s. repeat split.
Qed.

Lemma extract_features_keeps_explainer w agent_type parameters result :
  keeps eq (XAI._extract_features w agent_type parameters result).
Proof.
  unfold XAI._extract_features, XAI._extract_trader_features,
    XAI._extract_compliance_features, XAI._extract_supervisor_features,
    XAI._extract_advisor_features, XAI.names_for.
  xai_steps (@eq_refl XAI.XAIExplainer) (@eq_trans XAI.XAIExplainer).
Qed.

Lemma get_shap_keeps_cache w agent_type features :
  keeps same_cache (XAI._get_shap_explanation w agent_type features).
Proof.
  unfold XAI._get_shap_explanation, XAI.names_for.
  xai_steps_with ltac:(apply create_surrogate_keeps_cache)
    same_cache_refl same_cache_trans.
Qed.

Lemma human_explanation_keeps_explainer w agent_type action shap result :
  keeps eq (XAI._generate_human_explanation w agent_type action shap result).
Proof.
  unfold XAI._generate_human_explanation, XAI.names_for.
  xai_steps (@eq_refl XAI.XAIExplainer) (@eq_trans XAI.XAIExplainer).
Qed.

(** What one run of the body of [explain_decision] does to the
    explainer. *)
Lemma explain_body_cache w agent_type action parameters result self :
  let run := XAI.explain_body w agent_type action parameters result self in
  same_setup self (snd run) /\
  match fst run with
  | Returns text =>
      exists entry,
        stored entry agent_type action text /\
        XAI.explanation_cache (snd run)
        = XAI.assoc_set (XAI.fresh_uuid w) entry (XAI.explanation_cache self)
  | Raises e => XAI.explanation_cache (snd run) = XAI.explanation_cache self
  end.
Proof.
  cbv zeta. unfold XAI.explain_body, bind, read.
  set (c1 := match XAI.assoc agent_type (XAI.surrogate_models self) with
             | Some _ => ret tt
             | None => XAI._create_surrogate_model w agent_type
             end).
  assert (K1 : same_cache self (snd (c1 self))).
  { subst c1. destruct (XAI.assoc agent_type (XAI.surrogate_models self));
      [apply same_cache_refl | apply create_surrogate_keeps_cache]. }
  destruct (c1 self) as [[u|e] s1]; cbn [fst snd] in *;
    [|destruct K1 as [? ?]; split; [assumption | congruence]].
  pose proof (extract_features_keeps_explainer w agent_type parameters result s1)
    as K2.
  destruct (XAI._extract_features w agent_type parameters result s1)
    as [[features|e] s2]; cbn [fst snd] in *; subst s2;
    [|destruct K1 as [? ?]; split; [assumption | congruence]].
  pose proof (get_shap_keeps_cache w agent_type features s1) as K3.
  destruct (XAI._get_shap_explanation w agent_type features s1)
    as [[shap|e] s3]; cbn [fst snd] in *;
    pose proof (same_cache_trans _ _ _ K1 K3) as K13;
    [|destruct K13 as [? ?]; split; [assumption | congruence]].
  pose proof (human_explanation_keeps_explainer w agent_type action shap result s3)
    as K4.
  destruct (XAI._generate_human_explanation w agent_type action shap result s3)
    as [[human|e] s4]; cbn [fst snd] in *; subst s4;
    [|destruct K13 as [? ?]; split; [assumption | congruence]].
  unfold lift, modify, ret.
  destruct (XAI.loop_time w) as [timestamp|e]; cbn [fst snd];
    [|destruct K13 as [? ?]; split; [assumption | congruence]].
  destruct K13 as [Hc [He Hn]].
  split; [split; assumption|].
  eexists. split; [|cbn; rewrite <- Hc; reflexivity].
  repeat split.
Qed.

Lemma assoc_set_found {A} (k : string) (v : A) (l : list (string * A)) :
  XAI.assoc k (XAI.assoc_set k v l) = Some v.
Proof.
  induction l as [|[k' v'] l IH]; cbn.
  - now rewrite String.eqb_refl.
  - destruct (String.eqb k k') eqn:E; cbn; rewrite E; [reflexivity | exact IH].
Qed.

(** X21. [explain_decision] stores an entry in the explanation cache
    exactly when it returns the human explanation: the entry is filed
    under the fresh identifier and holds the agent type, the action and
    the returned text.  When it returns the fallback text the cache is
    as before.  In both cases [feature_names] and [explainers] are
    unchanged. *)
Theorem explanation_is_cached_when_returned
    (w : XAI.world) (agent_type action : string) (parameters result : dict)
    (self : XAI.XAIExplainer) :
  let body := XAI.explain_body w agent_type action parameters result self in
  let self' :=
    snd (XAI.explain_decision w agent_type action parameters result self) in
  same_setup self self' /\
  (forall text,
      fst body = Returns text ->
      exists entry,
        XAI.assoc (XAI.fresh_uuid w) (XAI.explanation_cache self') = Some entry /\
        stored entry agent_type action text) /\
  (forall e,
      fst body = Raises e ->
      XAI.explanation_cache self' = XAI.explanation_cache self).
Proof.
  cbv zeta.
  pose proof (explain_body_cache w agent_type action parameters result self) as K.
  cbv zeta in K. unfold XAI.explain_decision, try_except, ret.
  destruct (XAI.explain_body w agent_type action parameters result self)
    as [[text|e] s']; cbn [fst snd] in *; destruct K as [Hs K].
  - split; [exact Hs|]. split; [|discriminate].
    intros text' [= <-]. destruct K as (entry & Hst & ->).
    exists entry. split; [apply assoc_set_found | exact Hst].
  - split; [exact Hs|]. split; [discriminate|]. intros _ _. exact K.
Qed.

Lemma explanation_is_cached_when_returned_witness :
  exists text entry,
    fst (XAI.explain_body plain_xai_world "advisor" "forecast" []
           [ (VStr "confidence", VFloat (8 # 10)) ] fresh_explainer)
    = Returns text /\
    XAI.assoc (XAI.fresh_uuid plain_xai_world)
      (XAI.explanation_cache
         (snd (XAI.explain_decision plain_xai_world "advisor" "forecast" []
                 [ (VStr "confidence", VFloat (8 # 10)) ] fresh_explainer)))
    = Some entry /\
    stored entry "advisor" "forecast" text.
Proof.
  assert (E : exists text,
             fst (XAI.explain_body plain_xai_world "advisor" "forecast" []
                    [ (VStr "confidence", VFloat (8 # 10)) ] fresh_explainer)
             = Returns text)
    by (eexists; vm_compute; reflexivity).
  destruct E as (text & E).
  destruct (explanation_is_cached_when_returned plain_xai_world "advisor"
              "forecast" [] [ (VStr "confidence", VFloat (8 # 10)) ]
              fresh_explainer) as (_ & H & _).
  destruct (H text E) as (entry & Hc & Hs).
  exists text, entry. split; [exact E|]. split; [exact Hc | exact Hs].
Defined.

Lemma detail_found np agent_type action_id self cached :
  XAI.assoc action_id (XAI.explanation_cache self) = Some cached ->
  exists d,
    fst (XAI.get_detailed_explanation np agent_type action_id self) = Returns d /\
    field d "explanation" = Some (VStr (XAI.entry_human_explanation cached)) /\
    field d "timestamp" = Some (VFloat (XAI.entry_timestamp cached)) /\
    field d "error" = None.
Proof.
  intros H.
  unfold XAI.get_detailed_explanation, bind, read. unfold try_except at 1.
  rewrite H.
  unfold XAI._generate_decision_path, try_except, ret.
  match goal with
  | |- context [match ?c self with _ => _ end] => destruct (c self) as [[p|e] s']
  end; cbn; eexists; repeat split.
Qed.

(** X22. Round trip through the cache: when the body of
    [explain_decision] ran to its end with [text], asking
    [get_detailed_explanation] for the identifier of that run returns a
    dictionary without [error] whose [explanation] is [text], whatever
    numpy answers for the other fields. *)
Theorem cached_explanation_is_found_again
    (w : XAI.world) (np : XAI.numpy) (agent_type action asked_type : string)
    (parameters result : dict) (self : XAI.XAIExplainer) (text : string) :
  fst (XAI.explain_body w agent_type action parameters result self)
  = Returns text ->
  let self' :=
    snd (XAI.explain_decision w agent_type action parameters result self) in
  fst (XAI.explain_decision w agent_type action parameters result self)
  = Returns text /\
  exists d,
    fst (XAI.get_detailed_explanation np asked_type (XAI.fresh_uuid w) self')
    = Returns d /\
    field d "explanation" = Some (VStr text) /\
    field d "error" = None.
Proof.
  intros Hb. cbv zeta.
  pose proof (explain_body_cache w agent_type action parameters result self) as K.
  cbv zeta in K. unfold XAI.explain_decision, try_except, ret.
  destruct (XAI.explain_body w agent_type action parameters result self)
    as [[text'|e] s']; cbn [fst snd] in *; [|discriminate].
  injection Hb as ->. split; [reflexivity|].
  destruct K as [_ (entry & (_ & _ & Ht) & Hc)].
  assert (Hf : XAI.assoc (XAI.fresh_uuid w) (XAI.explanation_cache s') = Some entry)
    by (rewrite Hc; apply assoc_set_found).
  destruct (detail_found np asked_type _ _ _ Hf) as (d & Hd & He & _ & Hn).
  exists d. rewrite Ht in He. repeat split; assumption.
Qed.

Lemma cached_explanation_is_found_again_witness :
  exists text d,
    fst (XAI.explain_body plain_xai_world "advisor" "forecast" []
           [ (VStr "confidence", VFloat (8 # 10)) ] fresh_explainer)
    = Returns text /\
    fst (XAI.get_detailed_explanation plain_numpy "advisor"
           (XAI.fresh_uuid plain_xai_world)
           (snd (XAI.explain_decision plain_xai_world "advisor" "forecast" []
                   [ (VStr "confidence", VFloat (8 # 10)) ] fresh_explainer)))
    = Returns d /\
    field d "explanation" = Some (VStr text).
Proof.
  assert (E : exists text,
             fst (XAI.explain_body plain_xai_world "advisor" "forecast" []
                    [ (VStr "confidence", VFloat (8 # 10)) ] fresh_explainer)
             = Returns text)
    by (eexists; vm_compute; reflexivity).
  destruct E as (text & E).
  destruct (cached_explanation_is_found_again plain_xai_world plain_numpy
              "advisor" "forecast" "advisor" []
              [ (VStr "confidence", VFloat (8 # 10)) ] fresh_explainer text E)
    as (_ & d & Hd & He & _).
  exists text, d. repeat split; assumption.
Defined.

(** X23. [get_detailed_explanation] never raises, and for an identifier
    that is not in the cache it answers
    [{"error": "Explanation not found"}] and leaves the explainer as it
    is. *)
Theorem unknown_explanation_is_not_found
    (np : XAI.numpy) (agent_type action_id : string) (self : XAI.XAIExplainer) :
  (exists d,
      fst (XAI.get_detailed_explanation np agent_type action_id self) = Returns d) /\
  (XAI.assoc action_id (XAI.explanation_cache self) = None ->
   XAI.get_detailed_explanation np agent_type action_id self
   = (Returns XAI.not_found, self)).
Proof.
  split.
  - unfold XAI.get_detailed_explanation. unfold try_except at 1.
    match goal with
    | |- context [match ?c self with _ => _ end] => destruct (c self) as [[d|e] s']
    end; eexists; reflexivity.
  - intros H. unfold XAI.get_detailed_explanation, try_except, bind, read.
    rewrite H. reflexivity.
Qed.

Lemma unknown_explanation_is_not_found_witness :
  XAI.get_detailed_explanation plain_numpy "trader" "no-such-id" fresh_explainer
  = (Returns XAI.not_found, fresh_explainer).
Proof.
  apply (proj2 (unknown_explanation_is_not_found plain_numpy "trader"
                  "no-such-id" fresh_explainer)).
  reflexivity.
Defined.

Lemma get_shap_known w agent_type features self sur :
  XAI.assoc agent_type (XAI.surrogate_models self) = Some sur ->
  snd (XAI._get_shap_explanation w agent_type features self) = self.
Proof.
  intros H.
  unfold XAI._get_shap_explanation, try_except, bind, read, lift, ret,
    XAI.names_for.
  rewrite H. cbn. rewrite H.
  destruct (XAI.shap_values w (XAI.tree_explainer sur) features); reflexivity.
Qed.

(** X24. For an agent type that already has a surrogate model,
    [explain_decision] fits nothing: [surrogate_models], [feature_names]
    and [explainers] are the same after the call. *)
Theorem known_agent_type_is_not_refitted
    (w : XAI.world) (agent_type action : string) (parameters result : dict)
    (self : XAI.XAIExplainer) (sur : XAI.surrogate) :
  XAI.assoc agent_type (XAI.surrogate_models self) = Some sur ->
  let self' :=
    snd (XAI.explain_decision w agent_type action parameters result self) in
  XAI.surrogate_models self' = XAI.surrogate_models self /\
  XAI.feature_names self' = XAI.feature_names self /\
  XAI.explainers self' = XAI.explainers self.
Proof.
  intros H. cbv zeta.
  assert (E : snd (XAI.explain_decision w agent_type action parameters result self)
              = snd (XAI.explain_body w agent_type action parameters result self)).
  { unfold XAI.explain_decision, try_except, ret.
    destruct (XAI.explain_body w agent_type action parameters result self)
      as [[t|e] s']; reflexivity. }
  rewrite E. clear E.
  assert (K : (fun after =>
                 after = self
                 \/ exists c, after = XAI.set_explanation_cache c self)
                (snd (XAI.explain_body w agent_type action parameters result self))).
  { unfold XAI.explain_body, bind, read, ret. rewrite H. cbv beta iota.
    pose proof (extract_features_keeps_explainer w agent_type parameters result
                  self) as K2.
    destruct (XAI._extract_features w agent_type parameters result self)
      as [[features|e] s2]; cbn [fst snd] in *; subst s2; [|now left].
    pose proof (get_shap_known w agent_type features self sur H) as K3.
    destruct (XAI._get_shap_explanation w agent_type features self)
      as [[shap|e] s3]; cbn [fst snd] in *; subst s3; [|now left].
    pose proof (human_explanation_keeps_explainer w agent_type action shap result
                  self) as K4.
    destruct (XAI._generate_human_explanation w agent_type action shap result self)
      as [[human|e] s4]; cbn [fst snd] in *; subst s4; [|now left].
    unfold lift, modify, ret.
    destruct (XAI.loop_time w); [right; eexists; reflexivity | now left]. }
  cbv beta in K. destruct K as [->|(c & ->)]; repeat split.
Qed.

Lemma known_agent_type_is_not_refitted_witness :
  let self :=
    XAI.set_surrogate_models
      [ ("trader", XAI.mkSurrogate 1 2 ["market_volatility"]) ] fresh_explainer in
  XAI.assoc "trader" (XAI.surrogate_models self)
  = Some (XAI.mkSurrogate 1 2 ["market_volatility"]) /\
  XAI.surrogate_models
    (snd (XAI.explain_decision plain_xai_world "trader" "rebalance" [] [] self))
  = XAI.surrogate_models self.
Proof.
  intros self. split; [reflexivity|].
  apply (known_agent_type_is_not_refitted plain_xai_world "trader" "rebalance"
           [] [] self (XAI.mkSurrogate 1 2 ["market_volatility"]) eq_refl).
Defined.

Lemma quiet_lines w : forall features explanation,
  quiet features -> XAI.risk_lines w features explanation = Returns explanation.
Proof.
  induction features as [|[feature value] features IH]; intros explanation Hq;
    [reflexivity|].
  inversion Hq as [|? ? [Hn Hsmall] Hrest]; subst. simpl in Hn, Hsmall.
  cbn [XAI.risk_lines].
  destruct (py_abs_qval value Hn) as (size & E1 & N1 & Q1).
  rewrite E1. cbn [obind].
  rewrite (py_gt_qval size (VFloat (1 # 10)) N1 eq_refl). cbn [obind].
  change (qval (VFloat (1 # 10))) with (1 # 10)%Q.
  assert (E : Qlt_bool (1 # 10) (qval size) = false).
  { destruct (Qlt_bool (1 # 10) (qval size)) eqn:E; [|reflexivity].
    apply Qlt_bool_iff in E. rewrite Q1 in E. lra. }
  rewrite E. apply IH. exact Hrest.
Qed.

(** X25. [explain_risk_assessment] never raises and leaves the
    explainer as it is.  When the risk level is a string of plain ASCII
    and none of the five risk inputs exceeds 0.1 in absolute value (a
    missing input counts as 0), the explanation lists no risk factor:
    it is the header with the level in upper case, followed by the
    fixed recommendations. *)
Theorem quiet_risk_factors_are_not_listed
    (w : XAI.world) (portfolio_data risk_analysis : dict)
    (self : XAI.XAIExplainer) :
  (exists text,
      XAI.explain_risk_assessment w portfolio_data risk_analysis self
      = (Returns text, self)) /\
  (forall level,
      get_str risk_analysis "risk_level" (VStr "medium") = VStr level ->
      XAI.is_ascii level = true ->
      quiet (XAI._extract_risk_features portfolio_data risk_analysis) ->
      XAI.explain_risk_assessment w portfolio_data risk_analysis self
      = (Returns (XAI.risk_header (XAI.upper level) ++ XAI.risk_footer), self)).
Proof.
  split.
  - unfold XAI.explain_risk_assessment, try_except, lift, ret.
    destruct (XAI._generate_risk_explanation w
                (XAI._extract_risk_features portfolio_data risk_analysis)
                risk_analysis); eexists; reflexivity.
  - intros level Hl Ha Hq.
    unfold XAI.explain_risk_assessment, try_except, lift, ret,
      XAI._generate_risk_explanation.
    rewrite Hl. cbn [XAI.py_upper obind]. rewrite Ha.
    rewrite (quiet_lines w _ _ Hq). reflexivity.
Qed.

Lemma quiet_risk_factors_are_not_listed_witness :
  let risk_analysis := [ (VStr "var_95", VFloat (- 5 # 100)) ] in
  get_str risk_analysis "risk_level" (VStr "medium") = VStr "medium" /\
  XAI.is_ascii "medium" = true /\
  quiet (XAI._extract_risk_features [] risk_analysis) /\
  XAI.explain_risk_assessment plain_xai_world [] risk_analysis fresh_explainer
  = (Returns (XAI.risk_header "MEDIUM" ++ XAI.risk_footer), fresh_explainer).
Proof.
  intros risk_analysis.
  assert (Hq : quiet (XAI._extract_risk_features [] risk_analysis)).
  { repeat constructor; vm_compute; discriminate. }
  split; [reflexivity|]. split; [reflexivity|]. split; [exact Hq|].
  apply (proj2 (quiet_risk_factors_are_not_listed plain_xai_world []
                  risk_analysis fresh_explainer) "medium" eq_refl eq_refl Hq).
Defined.

Lemma by_feature_length g l : forall i, length (XAI.by_feature g i l) = length l.
Proof. induction l as [|x l IH]; intros i; simpl; [|rewrite IH]; reflexivity. Qed.

Lemma by_feature_values (P : pyval -> Prop) g l : forall i,
  Forall (fun x => P (g x)) l ->
  Forall (fun kv => P (snd kv)) (XAI.by_feature g i l).
Proof.
  induction l as [|x l IH]; intros i H; [constructor|].
  inversion H; subst. constructor; [assumption | now apply IH].
Qed.

Lemma by_feature_pairs (P : Q -> pyval -> Prop) g l : forall i,
  (forall x, P x (g x)) ->
  Forall2 (fun x kv => P x (snd kv)) l (XAI.by_feature g i l).
Proof.
  induction l as [|x l IH]; intros i H; constructor; [apply H | now apply IH].
Qed.

Lemma weight_sum_by_feature l : forall i,
  (weight_sum (XAI.by_feature vfloat i l) == Qsum l)%Q.
Proof.
  unfold weight_sum.
  induction l as [|x l IH]; intros i; [reflexivity|].
  cbn [XAI.by_feature map snd]. unfold Qsum in *. cbn [fold_right].
  rewrite (IH (S i)). unfold vfloat, qval. cbn [num_of].
  now rewrite Qred_correct.
Qed.

Lemma Qsum_scaled (t : Q) l :
  (Qsum (map (fun x => x / t) l) == Qsum l / t)%Q.
Proof.
  unfold Qsum. induction l as [|x l IH]; cbn [map fold_right].
  - unfold Qdiv. ring.
  - rewrite IH. unfold Qdiv. ring.
Qed.

Lemma Qsum_nonneg l :
  Forall (fun x => (0 <= x)%Q) l -> (0 <= Qsum l)%Q.
Proof.
  unfold Qsum. induction 1 as [|x l Hx _ IH]; cbn [fold_right]; lra.
Qed.

Lemma Qsum_bounds_member l x :
  Forall (fun y => (0 <= y)%Q) l -> In x l -> (x <= Qsum l)%Q.
Proof.
  unfold Qsum. induction 1 as [|y l Hy Hl IH]; [contradiction|].
  cbn [fold_right]. pose proof (Qsum_nonneg l Hl) as Hs. unfold Qsum in Hs.
  intros [->|Hin]; [lra|]. specialize (IH Hin). lra.
Qed.

(** X26. For a vector of shap values that are not all zero,
    [_calculate_feature_importance] returns one importance per entry,
    each between 0 and 1, and the importances sum to 1. *)
Theorem feature_importances_sum_to_one (np : XAI.numpy) (shap : XAI.ndarray) :
  XAI.is_vector shap = true ->
  (0 < Qsum (map Qabs (XAI.entries shap)))%Q ->
  let importance := XAI._calculate_feature_importance np shap in
  length importance = length (XAI.entries shap) /\
  Forall (fun kv => (0 <= qval (snd kv) <= 1)%Q) importance /\
  (weight_sum importance == 1)%Q.
Proof.
  intros Hv Hpos. cbv zeta.
  unfold XAI._calculate_feature_importance, XAI.importance_body, XAI.np_len.
  unfold XAI.is_vector in *.
  destruct (XAI.shape shap) as [|n [|? ?]] eqn:Es; try discriminate.
  apply Nat.eqb_eq in Hv. cbn [obind].
  destruct (n =? 0)%nat eqn:En.
  { apply Nat.eqb_eq in En. subst n.
    destruct (XAI.entries shap); [|discriminate].
    exfalso. vm_compute in Hpos. discriminate. }
  rewrite Hv, Nat.eqb_refl.
  change (fold_right Qplus 0%Q (map Qabs (XAI.entries shap)))
    with (Qsum (map Qabs (XAI.entries shap))).
  set (total := Qsum (map Qabs (XAI.entries shap))) in *.
  assert (Ht : Qlt_bool 0 total = true) by (now apply Qlt_bool_iff).
  rewrite Ht.
  assert (Hnn : Forall (fun y => (0 <= y)%Q) (map Qabs (XAI.entries shap))).
  { apply Forall_map, Forall_forall. intros y _. apply Qabs_nonneg. }
  split; [now rewrite by_feature_length, !length_map|].
  split.
  - apply (by_feature_values (fun v => (0 <= qval v <= 1)%Q)).
    apply Forall_map, Forall_forall.
    intros x Hin. unfold vfloat, qval. cbn [num_of]. rewrite Qred_correct.
    pose proof (Qsum_bounds_member _ x Hnn Hin) as Hle. fold total in Hle.
    rewrite Forall_forall in Hnn. specialize (Hnn x Hin).
    split.
    + apply Qle_shift_div_l; [exact Hpos | lra].
    + apply Qle_shift_div_r; [exact Hpos | lra].
  - rewrite weight_sum_by_feature, Qsum_scaled. fold total.
    field. lra.
Qed.

Lemma feature_importances_sum_to_one_witness :
  let shap := XAI.mkArray [3%nat] [(2 # 10)%Q; (- 5 # 10)%Q; (1 # 10)%Q] in
  XAI.is_vector shap = true /\
  (0 < Qsum (map Qabs (XAI.entries shap)))%Q /\
  field (XAI._calculate_feature_importance plain_numpy shap) "feature_1"
  = Some (VFloat (5 # 8)) /\
  (weight_sum (XAI._calculate_feature_importance plain_numpy shap) == 1)%Q.
Proof.
  intros shap.
  split; [reflexivity|]. split; [reflexivity|]. split; [vm_compute; reflexivity|].
  apply (feature_importances_sum_to_one plain_numpy shap eq_refl eq_refl).
Defined.

(** X27. For a vector of shap values and a standard deviation that is
    not negative, [_calculate_confidence_intervals] returns one
    interval per entry, in order; each interval contains its entry and
    is 3.92 standard deviations wide. *)
Theorem confidence_intervals_contain_their_value
    (np : XAI.numpy) (shap : XAI.ndarray) :
  XAI.is_vector shap = true ->
  (0 <= XAI.std_of np shap)%Q ->
  Forall2 (fun value kv => interval_around (XAI.std_of np shap) value (snd kv))
    (XAI.entries shap) (XAI._calculate_confidence_intervals np shap).
Proof.
  intros Hv Hstd.
  unfold XAI._calculate_confidence_intervals, XAI.intervals_body, XAI.np_len.
  rewrite Hv. unfold XAI.is_vector in Hv.
  destruct (XAI.shape shap) as [|n [|? ?]] eqn:Es; try discriminate.
  apply Nat.eqb_eq in Hv. cbn [obind].
  destruct (n =? 0)%nat eqn:En.
  { apply Nat.eqb_eq in En. subst n.
    destruct (XAI.entries shap); [constructor | discriminate]. }
  apply (by_feature_pairs (interval_around (XAI.std_of np shap))). intros x.
  do 2 eexists. split; [reflexivity|].
  rewrite !Qred_correct. split; [split; lra | ring].
Qed.

Lemma confidence_intervals_contain_their_value_witness :
  let shap := XAI.mkArray [2%nat] [(2 # 10)%Q; (- 5 # 10)%Q] in
  XAI.is_vector shap = true /\
  (0 <= XAI.std_of plain_numpy shap)%Q /\
  Forall2
    (fun value kv => interval_around (XAI.std_of plain_numpy shap) value (snd kv))
    (XAI.entries shap) (XAI._calculate_confidence_intervals plain_numpy shap).
Proof.
  intros shap.
  assert (Hs : (0 <= XAI.std_of plain_numpy shap)%Q) by (vm_compute; discriminate).
  split; [reflexivity|]. split; [exact Hs|].
  apply (confidence_intervals_contain_their_value plain_numpy shap eq_refl Hs).
Defined.

Lemma path_loop_names np names features shap : forall top i path result,
  Forall (step_names names) path ->
  XAI.path_loop np names features shap i top path = Returns result ->
  Forall (step_names names) result /\ (names = [] -> result = path).
Proof.
  induction top as [|idx top IH]; intros i path result Hp H.
  - cbn in H. injection H as <-. split; [exact Hp | reflexivity].
  - cbn [XAI.path_loop] in H.
    destruct (idx <? length names)%nat eqn:E.
    + destruct (nth_error names idx) as [name|] eqn:En; [|discriminate].
      apply obind_returns in H. destruct H as (n & _ & H).
      apply obind_returns in H. destruct H as (value & _ & H).
      apply obind_returns in H. destruct H as (impact & _ & H).
      apply IH in H.
      * destruct H as [H Hnil]. split; [exact H|].
        intros ->. destruct idx; discriminate.
      * apply Forall_app. split; [exact Hp|]. repeat constructor.
        do 2 eexists. split; [reflexivity|]. split; [reflexivity|].
        eapply nth_error_In; eauto.
    + apply IH in H; assumption.
Qed.

(** X28. [_generate_decision_path] never raises and leaves the
    explainer as it is; every step of the path it returns names one of
    the feature names of the agent type, and for an agent type without
    feature names the path is empty. *)
Theorem decision_path_names_known_features
    (np : XAI.numpy) (agent_type : string) (features shap : XAI.ndarray)
    (self : XAI.XAIExplainer) :
  exists path,
    XAI._generate_decision_path np agent_type features shap self
    = (Returns path, self) /\
    Forall (step_names (names_known self agent_type)) path /\
    (names_known self agent_type = [] -> path = []).
Proof.
  unfold XAI._generate_decision_path, try_except, bind, lift, ret,
    XAI.names_for, read.
  destruct (XAI.np_len shap) as [n|e];
    [|exists []; repeat split; constructor].
  destruct (0 <? n)%nat; [|exists []; repeat split; constructor].
  destruct (XAI.top_five np shap) as [top|e];
    [|exists []; repeat split; constructor].
  fold (names_known self agent_type).
  destruct (XAI.path_loop np (names_known self agent_type) features shap 0 top [])
    as [path|e] eqn:E; [|exists []; repeat split; constructor].
  exists path. split; [reflexivity|].
  apply (path_loop_names np _ features shap top 0%nat [] path (Forall_nil _) E).
Qed.

(** * The server *)

Lemma rebalance_body_float parameters treasury_data r :
  rebalance_body parameters treasury_data = Returns r -> float_confidence r.
Proof.
  unfold rebalance_body. intros H. invert_returns. eexists; reflexivity.
Qed.

Lemma risk_body_float w parameters treasury_data r :
  risk_body w parameters treasury_data = Returns r -> float_confidence r.
Proof.
  unfold risk_body. intros H. invert_returns. eexists; reflexivity.
Qed.

Lemma yield_body_float w parameters treasury_data r :
  yield_body w parameters treasury_data = Returns r -> float_confidence r.
Proof.
  unfold yield_body. intros H. invert_returns. eexists; reflexivity.
Qed.

Lemma optimize_body_float w parameters treasury_data self r :
  fst (optimize_body w parameters treasury_data self) = Returns r ->
  float_confidence r.
Proof.
  unfold optimize_body. intros H.
  apply bind_returns in H. destruct H as (net & s1 & Hnet & H).
  unfold read in Hnet. injection Hnet as <- <-.
  apply bind_returns in H. destruct H as ([allocations risk_score] & s2 & Hf & H).
  apply lift_returns in Hf. destruct Hf as [Hf ->].
  destruct (model self) as [n|] eqn:Hm; [|discriminate].
  invert_returns. eexists; reflexivity.
Qed.

Lemma execute_trade_body_float w parameters self r :
  fst (execute_trade_body w parameters self) = Returns r -> float_confidence r.
Proof.
  unfold execute_trade_body. intros H.
  repeat (apply bind_returns in H; destruct H as (? & ? & _ & H)).
  destruct (Qlt_bool (5 # 100) (random_draw w));
    invert_returns; eexists; reflexivity.
Qed.

Lemma handler_body_float w action parameters treasury_data body self r :
  handler_body w action parameters treasury_data = Some body ->
  fst (body self) = Returns r ->
  float_confidence r.
Proof.
  unfold handler_body.
  destruct (action =? "optimize_portfolio").
  { intros [= <-] H. now apply optimize_body_float in H. }
  destruct (action =? "rebalance").
  { intros [= <-] H. now apply rebalance_body_float in H. }
  destruct (action =? "risk_analysis").
  { intros [= <-] H. now apply risk_body_float in H. }
  destruct (action =? "yield_prediction").
  { intros [= <-] H. now apply (yield_body_float w parameters treasury_data) in H. }
  destruct (action =? "execute_trade"); [|discriminate].
  intros [= <-] H. now apply execute_trade_body_float in H.
Qed.

(** Whatever [execute_action] returns holds a float confidence. *)
Lemma execute_action_float_confidence w action parameters treasury_data self :
  exists r,
    fst (execute_action w action parameters treasury_data self) = Returns r /\
    float_confidence r.
Proof.
  destruct (execute_action_result w action parameters treasury_data self)
    as (r & Hr & [Hd|(e & ->)]).
  2:{ eexists. split; [exact Hr|]. eexists; reflexivity. }
  exists r. split; [exact Hr|].
  destruct (registered action) eqn:Hreg.
  - destruct (dispatch_registered w action parameters treasury_data Hreg)
      as (body & Hb & E).
    rewrite E in Hd. unfold try_except, ret in Hd.
    destruct (body (counted self)) as [[r'|e] s'] eqn:Eb; cbn [fst] in Hd.
    + injection Hd as ->.
      apply (handler_body_float w action parameters treasury_data body
               (counted self) r Hb).
      now rewrite Eb.
    + injection Hd as <-. eexists; reflexivity.
  - rewrite (dispatch_unregistered w action parameters treasury_data _ Hreg) in Hd.
    discriminate.
Qed.

(** X29. [execute_agent] answers no error status but 500, and lets no
    exception out: the [HTTPException] with status 400 that it raises
    for an agent type outside the registry is caught by its own
    [except Exception] and answered as a 500 whose detail wraps the text
    of the 400, the registry and the explainer being left as they were;
    [get_agent_status], which has no [try], answers the same agent type
    with 404. *)
Theorem unknown_agent_type_answers_500
    (w : Main.outside) (request : Main.AgentRequest) (b : Main.backend) :
  XAI.assoc (Main.agent_type request) (Main.agents b) = None ->
  Main.execute_agent w request b
  = (Main.HttpError 500
       ("Agent execution failed: "
        ++ Main.http_str w 400
             ("Unknown agent type: " ++ Main.agent_type request)), b) /\
  Main.get_agent_status w (Main.agent_type request) b
  = Main.HttpError 404 ("Agent " ++ Main.agent_type request ++ " not found") /\
  (forall request' b' status detail,
      fst (Main.execute_agent w request' b') = Main.HttpError status detail ->
      status = 500) /\
  (forall request' b' e,
      fst (Main.execute_agent w request' b') <> Main.Uncaught e).
Proof.
  intros Hn. split; [|split; [|split]].
  - unfold Main.execute_agent, Main.execute_agent_body. now rewrite Hn.
  - unfold Main.get_agent_status. now rewrite Hn.
  - intros request' b' status detail. unfold Main.execute_agent.
    destruct (Main.execute_agent_body w request' b') as [[r|response] b''];
      cbn [fst]; [|discriminate].
    now intros [= <- _].
  - intros request' b' e. unfold Main.execute_agent.
    destruct (Main.execute_agent_body w request' b') as [[r|response] b''];
      cbn [fst]; discriminate.
Qed.

Lemma unknown_agent_type_answers_500_witness :
  fst (Main.execute_agent plain_outside oracle_request started_backend)
  = Main.HttpError 500 "Agent execution failed: Unknown agent type: oracle" /\
  snd (Main.execute_agent plain_outside oracle_request started_backend)
  = started_backend /\
  Main.get_agent_status plain_outside "oracle" started_backend
  = Main.HttpError 404 "Agent oracle not found".
Proof.
  destruct (unknown_agent_type_answers_500 plain_outside oracle_request
              started_backend) as (H1 & H2 & _); [reflexivity|].
  rewrite H1. split; [reflexivity|]. split; [reflexivity | exact H2].
Defined.

(** X30. A request for an agent type under which the registry holds a
    [TraderAgent] is always answered with a body once the explainer
    exists, whatever the action, the parameters and the treasury data:
    [execute_action] returns a dictionary,
    [explain_decision] returns a text and the float under
    ["confidence"] passes the validation of [AgentResponse].  The body
    holds the requested names, the dictionary of [execute_action], its
    confidence, the text of [explain_decision] and the difference of the
    two clock readings; afterwards [get_agent_status] answers with the
    status of the agent [execute_action] left, whose request counter
    has grown by one. *)
Theorem trader_request_is_answered
    (w : Main.outside) (request : Main.AgentRequest) (b : Main.backend)
    (a : TraderAgent) (x : XAI.XAIExplainer) :
  XAI.assoc (Main.agent_type request) (Main.agents b) = Some (Main.Trader a) ->
  Main.xai_explainer b = Some x ->
  let run :=
    execute_action (Main.trader_world w) (Main.action request)
      (Main.parameters request) (Main.treasury_data request) a in
  exists response b',
    Main.execute_agent w request b = (Main.Ok response, b') /\
    Main.response_agent_type response = Main.agent_type request /\
    Main.response_action response = Main.action request /\
    fst run = Returns (Main.response_result response) /\
    field (Main.response_result response) "confidence"
    = Some (VFloat (Main.response_confidence response)) /\
    fst (XAI.explain_decision (Main.xai_world w) (Main.agent_type request)
           (Main.action request) (Main.parameters request)
           (Main.response_result response) x)
    = Returns (Main.response_xai_explanation response) /\
    (Main.response_execution_time response
     = Main.loop_end w - Main.loop_start w)%Q /\
    Main.get_agent_status w (Main.agent_type request) b'
    = Main.Ok (Main.get_status (snd run)) /\
    total_requests (performance_metrics (snd run))
    = total_requests (performance_metrics a) + 1.
Proof.
  intros Ha Hx run.
  destruct (execute_action_float_confidence (Main.trader_world w)
              (Main.action request) (Main.parameters request)
              (Main.treasury_data request) a) as (r & Hr & q & Hq).
  fold run in Hr.
  assert (Ht : exists text,
             fst (XAI.explain_decision (Main.xai_world w) (Main.agent_type request)
                    (Main.action request) (Main.parameters request) r x)
             = Returns text).
  { unfold XAI.explain_decision, try_except, ret.
    destruct (XAI.explain_body (Main.xai_world w) (Main.agent_type request)
                (Main.action request) (Main.parameters request) r x)
      as [[text|e] x']; eexists; reflexivity. }
  destruct Ht as (text & Ht).
  unfold Main.execute_agent, Main.execute_agent_body. rewrite Ha.
  unfold Main.run_agent. fold run. cbn [fst snd Main.xai_explainer Main.agents].
  rewrite Hr, Hx, Ht.
  unfold get_str. unfold field in Hq. rewrite Hq.
  cbn [Main.validate_confidence].
  eexists. eexists. split; [reflexivity|].
  cbn [Main.response_agent_type Main.response_action Main.response_result
       Main.response_confidence Main.response_xai_explanation
       Main.response_execution_time].
  repeat split; try assumption; try reflexivity.
  - unfold Main.get_agent_status. cbn [Main.agents].
    now rewrite assoc_set_found.
  - apply (execute_action_total_requests (Main.trader_world w)
             (Main.action request) (Main.parameters request)
             (Main.treasury_data request) a).
Qed.

Lemma trader_request_is_answered_witness :
  exists response b',
    Main.execute_agent plain_outside trade_request started_backend
    = (Main.Ok response, b') /\
    Main.response_action response = "execute_trade" /\
    Main.response_confidence response = (95 # 100)%Q /\
    (Main.response_execution_time response = 1)%Q /\
    exists status,
      Main.get_agent_status plain_outside "trader" b' = Main.Ok status /\
      field status "performance_metrics"
      = Some (Main.metrics_dict (mkMetrics 1 1 0 0 0 1 1 1)).
Proof.
  destruct (trader_request_is_answered plain_outside trade_request
              started_backend fresh_agent fresh_explainer)
    as (response & b' & H & _ & Hact & Hrun & Hc & _ & Htime & Hs & _);
    [reflexivity | reflexivity |].
  exists response, b'. split; [exact H|]. split; [exact Hact|].
  assert (E : fst (execute_action (Main.trader_world plain_outside)
                     (Main.action trade_request) (Main.parameters trade_request)
                     (Main.treasury_data trade_request) fresh_agent)
              = Returns (Main.response_result response)) by exact Hrun.
  split.
  { assert (K : forall r,
               fst (execute_action (Main.trader_world plain_outside)
                      (Main.action trade_request) (Main.parameters trade_request)
                      (Main.treasury_data trade_request) fresh_agent)
               = Returns r ->
               field r "confidence" = Some (VFloat (95 # 100)))
      by (intros r; vm_compute; intros [= <-]; reflexivity).
    rewrite (K _ E) in Hc. now injection Hc as <-. }
  split; [rewrite Htime; reflexivity|].
  eexists. split; [exact Hs|]. vm_compute. reflexivity.
Defined.

(** * Valid requests *)















(** A slip in [_optimize_portfolio]: the action ["optimize_portfolio"]
    never reports success.  The handler multiplies the array of
    allocations by the dict of expected returns, which raises for every
    allocation the model returns, so that every call is answered from
    an [except] clause, whatever the parameters, the treasury data, the
    model and the random draws. *)
Lemma optimize_portfolio_never_succeeds
    (w : world) (parameters : dict) (treasury_data : option dict)
    (self : TraderAgent) :
  exists r,
    fst (execute_action w "optimize_portfolio" parameters treasury_data self)
    = Returns r /\
    field r "success" = Some (VBool false).
Proof.
  destruct (execute_action_result w "optimize_portfolio" parameters
              treasury_data self) as (r & Hr & [Hd|(e & ->)]).
  2:{ eexists. split; [exact Hr | reflexivity]. }
  exists r. split; [exact Hr|].
  unfold dispatch in Hd. cbn [String.eqb Ascii.eqb Bool.eqb] in Hd.
  unfold _optimize_portfolio, try_except, ret in Hd.
  destruct (optimize_body w parameters treasury_data (counted self))
    as [[r'|e] s'] eqn:E; cbn [fst] in Hd.
  - exfalso.
    apply (optimize_body_raises w parameters treasury_data (counted self) r').
    now rewrite E.
  - injection Hd as <-. reflexivity.
Qed.
